(** * Organization / user directory: the REST handlers of [app.py]

    A shallow embedding of the Flask application [src/app.py]: the JSON
    values a request body can hold, the Python operations the handlers apply
    to them ([in], subscription, [dict.get], truthiness, [or], [int], [str.strip],
    [str.lower]), the part of SQLite the statements rely on (parameter
    binding, column affinity, NOT NULL and UNIQUE, AUTOINCREMENT rowids,
    LIKE), the two tables, and each handler as a function from the store and
    the request to the new store and the response.

    Modelling bounds, stated once:
    - a Python [str] is a [string] whose characters are the code points
      U+0000 .. U+00FF;
    - a Python [int] is a [Z], an INTEGER of SQLite a [Z] of 64 bits: the
      binding of a parameter checks the range, and so does the choice of a
      new rowid;
    - a Python [float] is an IEEE value of [spec_float];
    - a table is a finite map from its INTEGER PRIMARY KEY to the other
      columns of the row, typed by the affinity of each column;
    - [CURRENT_TIMESTAMP] is an input of every handler that inserts;
    - what lives outside the repository and is not needed in closed form
      (werkzeug's [secure_filename], SQLite's rendering of a REAL as TEXT,
      SQLite's reading of a TEXT operand as an integer) is a field of the
      class [Externals]; a closed model of [secure_filename] is given
      separately as [werkzeug_secure_filename]. *)

From Stdlib Require Import ZArith String Ascii List Lia DecimalString.
From Stdlib Require Import Floats.SpecFloat.
From stdpp Require Import base option list strings gmap fin_maps sorting.

Local Open Scope Z_scope.

(** ** Characters and strings *)

Definition code (c : ascii) : N := N_of_ascii c.

Definition in_range (lo hi : N) (c : ascii) : bool :=
  ((lo <=? code c) && (code c <=? hi))%N.

(** [str.isspace] on U+0000 .. U+00FF. *)
Definition py_isspace (c : ascii) : bool :=
  in_range 9 13 c || in_range 28 32 c || (code c =? 133)%N || (code c =? 160)%N.

(** The whitespace that [int] skips around a number: the ASCII whitespace
    of C and, above U+007F, U+0085 and U+00A0; not the separators
    U+001C .. U+001F, which [str.strip] removes. *)
Definition int_isspace (c : ascii) : bool :=
  in_range 9 13 c || (code c =? 32)%N || (code c =? 133)%N || (code c =? 160)%N.

Definition is_digit (c : ascii) : bool := in_range 48 57 c.
Definition is_upper_ascii (c : ascii) : bool := in_range 65 90 c.
Definition is_lower_ascii (c : ascii) : bool := in_range 97 122 c.

Definition shift_char (d : N) (c : ascii) : ascii := ascii_of_N (code c + d).

(** [str.lower] on one character of U+0000 .. U+00FF: A-Z, and the Latin-1
    capitals U+00C0 .. U+00DE except the multiplication sign U+00D7. *)
Definition py_lower_char (c : ascii) : ascii :=
  if is_upper_ascii c then shift_char 32 c
  else if in_range 192 222 c && negb (code c =? 215)%N then shift_char 32 c
  else c.

Fixpoint py_lower (s : string) : string :=
  match s with
  | EmptyString => EmptyString
  | String c r => String (py_lower_char c) (py_lower r)
  end.

(** Dropping the leading, or the trailing, characters that satisfy [P]. *)
Fixpoint lstrip_by (P : ascii → bool) (s : string) : string :=
  match s with
  | EmptyString => EmptyString
  | String c r => if P c then lstrip_by P r else s
  end.

Fixpoint rstrip_by (P : ascii → bool) (s : string) : string :=
  match s with
  | EmptyString => EmptyString
  | String c r =>
      match rstrip_by P r with
      | EmptyString => if P c then EmptyString else String c EmptyString
      | r' => String c r'
      end
  end.

Definition strip_by (P : ascii → bool) (s : string) : string :=
  rstrip_by P (lstrip_by P s).

(** [s.strip()] *)
Definition py_strip (s : string) : string := strip_by py_isspace s.

Fixpoint is_prefix (p s : string) : bool :=
  match p, s with
  | EmptyString, _ => true
  | String a p', String b s' => Ascii.eqb a b && is_prefix p' s'
  | String _ _, EmptyString => false
  end.

(** [p in s] for two [str]: [p] occurs in [s]. *)
Fixpoint py_str_contains (p s : string) : bool :=
  is_prefix p s ||
  match s with
  | EmptyString => false
  | String _ s' => py_str_contains p s'
  end.

(** ** Python values of a parsed JSON body *)

#[local] Set Warnings "-register-all".

Inductive json : Type :=
  | JNull
  | JBool (b : bool)
  | JInt (n : Z)
  | JFloat (f : spec_float)
  | JStr (s : string)
  | JArr (items : list json)
  | JObj (fields : list (string * json)).

(** Exceptions the handlers can meet.  [BindingError] is what the [sqlite3]
    module raises for a parameter of an unsupported type
    ([InterfaceError], [ProgrammingError] from Python 3.11 on). *)
Inductive pyexn : Type :=
  | TypeError
  | ValueError
  | OverflowError
  | KeyError
  | AttributeError
  | BindingError
  | IntegrityError
  | OperationalError.

(** [dict(row)]: column names with their values, in column order
    ([JSON_SORT_KEYS] is off). *)
Inductive sqlval : Type :=
  | SNull
  | SInt (n : Z)
  | SText (t : string).

Definition pyrow : Type := list (string * sqlval).

Inductive body : Type :=
  | Err (msg : string)
  | Row (r : pyrow)
  | Rows (rs : list pyrow).

(** What the client gets: [return jsonify(b), code], or an exception that
    leaves the handler (Flask answers 500). *)
Inductive response : Type :=
  | Reply (b : body) (status : Z)
  | Uncaught (e : pyexn).

(** Control flow inside a handler: go on with a value, or leave with a
    response (an early [return], or a raised exception). *)
Inductive flow (A : Type) : Type :=
  | Go (a : A)
  | Stop (r : response).
Arguments Go {A} a.
Arguments Stop {A} r.

Abbreviation raise e := (Stop (Uncaught e)) (only parsing).
Abbreviation reply b status := (Stop (Reply b status)) (only parsing).

#[global] Instance flow_ret : MRet flow := λ A a, Go a.
#[global] Instance flow_bind : MBind flow := λ A B k m,
  match m with
  | Go a => k a
  | Stop r => Stop r
  end.
#[global] Instance flow_fmap : FMap flow := λ A B f m,
  match m with
  | Go a => Go (f a)
  | Stop r => Stop r
  end.

(** [try: m except sqlite3.IntegrityError: handler] *)
Definition except_IntegrityError {A} (m handler : flow A) : flow A :=
  match m with
  | Stop (Uncaught IntegrityError) => handler
  | _ => m
  end.

Definition is_zero_float (f : spec_float) : bool :=
  match f with
  | S754_zero _ => true
  | _ => false
  end.

(** [bool(v)] *)
Definition truthy (v : json) : bool :=
  match v with
  | JNull => false
  | JBool b => b
  | JInt n => negb (n =? 0)
  | JFloat f => negb (is_zero_float f)
  | JStr s => negb (String.eqb s EmptyString)
  | JArr items => match items with [] => false | _ => true end
  | JObj fields => match fields with [] => false | _ => true end
  end.

(** [a or b] *)
Definition py_or (a b : json) : json := if truthy a then a else b.

Fixpoint assoc {A} (k : string) (l : list (string * A)) : option A :=
  match l with
  | [] => None
  | (k', v) :: r => if String.eqb k' k then Some v else assoc k r
  end.

Definition is_str (k : string) (v : json) : bool :=
  match v with
  | JStr s => String.eqb s k
  | _ => false
  end.

(** [k in data] for a [str] key [k]. *)
Definition py_in (k : string) (data : json) : flow bool :=
  match data with
  | JObj fields => Go (bool_decide (is_Some (assoc k fields)))
  | JArr items => Go (existsb (is_str k) items)
  | JStr s => Go (py_str_contains k s)
  | _ => raise TypeError
  end.

(** [data[k]] for a [str] key [k]. *)
Definition py_getitem (data : json) (k : string) : flow json :=
  match data with
  | JObj fields =>
      match assoc k fields with
      | Some v => Go v
      | None => raise KeyError
      end
  | _ => raise TypeError
  end.

(** [data.get(k)] *)
Definition py_get (data : json) (k : string) : flow json :=
  match data with
  | JObj fields => Go (default JNull (assoc k fields))
  | _ => raise AttributeError
  end.

Definition digit_value (c : ascii) : Z := Z.of_N (code c) - 48.

(** Decimal digits with single underscores between digits. *)
Fixpoint digits_value (acc : Z) (after_digit : bool) (s : string) : option Z :=
  match s with
  | EmptyString => if after_digit then Some acc else None
  | String c r =>
      if is_digit c then digits_value (10 * acc + digit_value c) true r
      else if Ascii.eqb c "_" then
        if after_digit then digits_value acc false r else None
      else None
  end.

Fixpoint count_digits (s : string) : Z :=
  match s with
  | EmptyString => 0
  | String c r => (if is_digit c then 1 else 0) + count_digits r
  end.

(** [sys.int_info.default_max_str_digits] *)
Definition max_str_digits : Z := 4300.

(** [int(s)] for a [str]: surrounding whitespace, an optional sign, digits;
    more digits than [max_str_digits] are refused. *)
Definition py_int_of_str (s : string) : option Z :=
  let s := strip_by int_isspace s in
  if max_str_digits <? count_digits s then None
  else
    match s with
    | String "-" r => Z.opp <$> digits_value 0 false r
    | String "+" r => digits_value 0 false r
    | r => digits_value 0 false r
    end.

Definition float_magnitude_trunc (m : positive) (e : Z) : Z :=
  if 0 <=? e then Z.pos m * 2 ^ e else Z.pos m / 2 ^ (- e).

Definition signed (s : bool) (n : Z) : Z := if s then - n else n.

(** [int(v)] *)
Definition py_int (v : json) : flow Z :=
  match v with
  | JBool b => Go (if b then 1 else 0)
  | JInt n => Go n
  | JFloat (S754_zero _) => Go 0
  | JFloat (S754_finite s m e) => Go (signed s (float_magnitude_trunc m e))
  | JFloat (S754_infinity _) => raise OverflowError
  | JFloat S754_nan => raise ValueError
  | JStr s =>
      match py_int_of_str s with
      | Some n => Go n
      | None => raise ValueError
      end
  | JNull | JArr _ | JObj _ => raise TypeError
  end.

(** ** SQLite: parameters, affinity, LIKE *)

Inductive sqlparam : Type :=
  | PNull
  | PInt (n : Z)
  | PReal (f : spec_float)
  | PText (t : string).

Definition int64_min : Z := - 2 ^ 63.
Definition int64_max : Z := 2 ^ 63 - 1.
Definition fits_int64 (n : Z) : bool := (int64_min <=? n) && (n <=? int64_max).

(** Binding a Python [int]: it has to fit SQLite's 64-bit INTEGER. *)
Definition bind_int (n : Z) : flow Z :=
  if fits_int64 n then Go n else raise OverflowError.

(** Binding one Python value as a statement parameter.  A NaN is bound as
    NULL; lists and dicts are not supported. *)
Definition bind_param (v : json) : flow sqlparam :=
  match v with
  | JNull => Go PNull
  | JBool b => Go (PInt (if b then 1 else 0))
  | JInt n => PInt <$> bind_int n
  | JFloat S754_nan => Go PNull
  | JFloat f => Go (PReal f)
  | JStr s => Go (PText s)
  | JArr _ | JObj _ => raise BindingError
  end.

(** The integer a REAL is equal to, if any. *)
Definition float_integer (f : spec_float) : option Z :=
  match f with
  | S754_zero _ => Some 0
  | S754_finite s m e =>
      if 0 <=? e then Some (signed s (Z.pos m * 2 ^ e))
      else if Z.pos m mod 2 ^ (- e) =? 0 then Some (signed s (Z.pos m / 2 ^ (- e)))
      else None
  | _ => None
  end.

Definition Z_to_text (n : Z) : string := NilZero.string_of_int (Z.to_int n).

(** Behaviour of code that is not part of the repository. *)
Class Externals := {
  (** [werkzeug.utils.secure_filename], on a [str] *)
  secure_filename : string → string;
  (** the TEXT that SQLite stores for a REAL put in a TEXT column *)
  real_to_text : spec_float → string;
  (** the integer that SQLite reads a TEXT operand as when it is compared
      with an INTEGER column, if it reads one *)
  text_to_integer : string → option Z
}.

Section Sqlite.
Context {E : Externals}.

(** A parameter stored in a column of TEXT affinity; [None] is NULL. *)
Definition text_affinity (p : sqlparam) : option string :=
  match p with
  | PNull => None
  | PInt n => Some (Z_to_text n)
  | PReal f => Some (real_to_text f)
  | PText t => Some t
  end.

(** [id = ?] on the INTEGER PRIMARY KEY. *)
Definition id_equals (p : sqlparam) (id : Z) : bool :=
  match p with
  | PNull => false
  | PInt n => n =? id
  | PReal f => bool_decide (float_integer f = Some id)
  | PText t => bool_decide (text_to_integer t = Some id)
  end.
End Sqlite.

(** LIKE folds the case of ASCII letters only. *)
Definition like_fold (c : ascii) : ascii :=
  if is_upper_ascii c then shift_char 32 c else c.

(** SQLite's [patternCompare] for LIKE: [%] stands for any run of
    characters, [_] for one character, any other character for itself up
    to ASCII case. *)
Fixpoint pattern_compare (pattern text : string) : bool :=
  match pattern with
  | EmptyString => match text with EmptyString => true | _ => false end
  | String p pattern' =>
      if Ascii.eqb p "%" then
        (fix any_run (t : string) : bool :=
           pattern_compare pattern' t ||
           match t with
           | EmptyString => false
           | String _ t' => any_run t'
           end) text
      else
        match text with
        | EmptyString => false
        | String c text' =>
            (Ascii.eqb p "_" || Ascii.eqb (like_fold p) (like_fold c))
            && pattern_compare pattern' text'
        end
  end.

(** [patternCompare] reads its operands as C strings: each ends at its
    first U+0000. *)
Fixpoint c_string (s : string) : string :=
  match s with
  | EmptyString => EmptyString
  | String c r => if (code c =? 0)%N then EmptyString else String c (c_string r)
  end.

(** The number of bytes of the UTF-8 encoding, which is how [sqlite3] binds
    a [str]. *)
Fixpoint utf8_length (s : string) : Z :=
  match s with
  | EmptyString => 0
  | String c r => (if (code c <? 128)%N then 1 else 2) + utf8_length r
  end.

(** [SQLITE_MAX_LIKE_PATTERN_LENGTH] *)
Definition max_like_pattern_length : Z := 50000.

(** The comparison of a text with a pattern: a NULL text does not match. *)
Definition like_match (pattern : string) (text : option string) : bool :=
  match text with
  | Some t => pattern_compare (c_string pattern) (c_string t)
  | None => false
  end.

(** [text LIKE pattern], SQLite's [likeFunc]: a pattern of more bytes than
    the limit is an error (LIKE or GLOB pattern too complex), whatever the
    text, a NULL text included; then the comparison. *)
Definition like (pattern : string) (text : option string) : flow bool :=
  if max_like_pattern_length <? utf8_length pattern then raise OperationalError
  else Go (like_match pattern text).

(** The rows that pass the test of a WHERE clause, in the order of the
    scan; an error of the test ends the statement. *)
Fixpoint select_where {A} (test : A → flow bool) (rows : list A) : flow (list A) :=
  match rows with
  | [] => Go []
  | r :: rest =>
      keep ← test r;
      kept ← select_where test rest;
      Go (if (keep : bool) then r :: kept else kept)
  end.

(** ** The store: the two tables of [init_db] *)

(** A row of [organizations], keyed by its [id].  [name] and [slug] are
    TEXT NOT NULL; the other TEXT columns and the INTEGER columns are
    nullable. *)
Record org_row : Type := {
  o_name : string;
  o_slug : string;
  o_support_email : option string;
  o_phone : option string;
  o_alt_phone : option string;
  o_website : option string;
  o_max_coordinators : option Z;
  o_timezone : option string;
  o_language : option string;
  o_status : option string;
  o_pending_requests : option Z;
  o_created_at : option string
}.

(** A row of [users], keyed by its [id]. *)
Record user_row : Type := {
  u_org_id : option Z;
  u_name : string;
  u_email : string;
  u_role : string;
  u_phone : option string;
  u_timezone : option string;
  u_created_at : option string
}.

(** Both tables are AUTOINCREMENT: next to its rows each keeps the largest
    rowid it has ever held ([sqlite_sequence]). *)
Record store : Type := {
  organizations : gmap Z org_row;
  organizations_seq : Z;
  users : gmap Z user_row;
  users_seq : Z
}.

Definition empty_store : store :=
  {| organizations := ∅; organizations_seq := 0; users := ∅; users_seq := 0 |}.

Definition text_val (t : option string) : sqlval :=
  match t with
  | Some x => SText x
  | None => SNull
  end.

Definition int_val (n : option Z) : sqlval :=
  match n with
  | Some x => SInt x
  | None => SNull
  end.

(** [dict(row)] for [SELECT * FROM organizations]. *)
Definition org_dict (r : Z * org_row) : pyrow :=
  let (id, o) := r in
  [ ("id", SInt id);
    ("name", SText (o_name o));
    ("slug", SText (o_slug o));
    ("support_email", text_val (o_support_email o));
    ("phone", text_val (o_phone o));
    ("alt_phone", text_val (o_alt_phone o));
    ("website", text_val (o_website o));
    ("max_coordinators", int_val (o_max_coordinators o));
    ("timezone", text_val (o_timezone o));
    ("language", text_val (o_language o));
    ("status", text_val (o_status o));
    ("pending_requests", int_val (o_pending_requests o));
    ("created_at", text_val (o_created_at o)) ]%string.

(** A row of [users u LEFT JOIN organizations o ON u.org_id = o.id]. *)
Definition joined : Type := Z * user_row * option org_row.

Definition user_columns (id : Z) (u : user_row) : pyrow :=
  [ ("id", SInt id);
    ("org_id", int_val (u_org_id u));
    ("name", SText (u_name u));
    ("email", SText (u_email u));
    ("role", SText (u_role u));
    ("phone", text_val (u_phone u));
    ("timezone", text_val (u_timezone u));
    ("created_at", text_val (u_created_at u)) ]%string.

(** [SELECT u.*, o.name as organization_name] *)
Definition user_dict (j : joined) : pyrow :=
  let '(id, u, o) := j in
  user_columns id u ++ [ ("organization_name", text_val (o_name <$> o)) ]%string.

(** [SELECT u.*, o.name as organization_name, o.slug as organization_slug] *)
Definition user_dict_slug (j : joined) : pyrow :=
  let '(id, u, o) := j in
  user_columns id u ++
  [ ("organization_name", text_val (o_name <$> o));
    ("organization_slug", text_val (o_slug <$> o)) ]%string.

Definition id_le {A} (a b : Z * A) : Prop := a.1 ≤ b.1.
Definition id_ge {A} (a b : Z * A) : Prop := b.1 ≤ a.1.

#[global] Instance id_le_dec {A} (a b : Z * A) : Decision (id_le a b) := Z_le_dec _ _.
#[global] Instance id_ge_dec {A} (a b : Z * A) : Decision (id_ge a b) := Z_le_dec _ _.

(** The rows of a table in rowid order, and [ORDER BY id DESC]. *)
Definition rows_asc {A} (m : gmap Z A) : list (Z * A) := merge_sort id_le (map_to_list m).
Definition rows_desc {A} (m : gmap Z A) : list (Z * A) := merge_sort id_ge (map_to_list m).

(** [cur.fetchone()] *)
Definition fetchone {A} (rows : list A) : option A := head rows.

Definition join_org (s : store) (r : Z * user_row) : joined :=
  (r.1, r.2, u_org_id r.2 ≫= λ k, organizations s !! k).

(** The largest rowid the table holds or has held, and the rowid
    AUTOINCREMENT gives to a new row: there is none once the largest
    rowid of SQLite has been used (SQLITE_FULL). *)
Definition largest_rowid {A} (seq : Z) (m : gmap Z A) : Z :=
  foldr Z.max seq (map_to_list m).*1.

Definition next_rowid {A} (seq : Z) (m : gmap Z A) : flow Z :=
  let top := largest_rowid seq m in
  if top <? int64_max then Go (top + 1) else raise OperationalError.

Definition set_status (st : option string) (o : org_row) : org_row :=
  {| o_name := o_name o; o_slug := o_slug o;
     o_support_email := o_support_email o; o_phone := o_phone o;
     o_alt_phone := o_alt_phone o; o_website := o_website o;
     o_max_coordinators := o_max_coordinators o; o_timezone := o_timezone o;
     o_language := o_language o; o_status := st;
     o_pending_requests := o_pending_requests o;
     o_created_at := o_created_at o |}.

Section Statements.
Context {E : Externals}.

(** [SELECT * FROM organizations WHERE id=?] *)
Definition select_org_by_id (s : store) (p : sqlparam) : list (Z * org_row) :=
  filter (λ r, id_equals p r.1 = true) (rows_asc (organizations s)).

(** [SELECT * FROM organizations WHERE slug=?] *)
Definition select_org_by_slug (s : store) (slug : string) : list (Z * org_row) :=
  filter (λ r, o_slug r.2 = slug) (rows_asc (organizations s)).

(** The eleven parameters of the INSERT of [api_create_organization],
    in the order of its placeholders. *)
Record org_params : Type := {
  op_name : sqlparam;
  op_slug : string;
  op_support_email : sqlparam;
  op_phone : sqlparam;
  op_alt_phone : sqlparam;
  op_website : sqlparam;
  op_max_coordinators : Z;
  op_timezone : sqlparam;
  op_language : sqlparam;
  op_status : sqlparam;
  op_pending_requests : Z
}.

(** The row an INSERT stores: every TEXT column converts its parameter,
    [created_at] takes its default. *)
Definition new_org_row (now name : string) (p : org_params) : org_row :=
  {| o_name := name; o_slug := op_slug p;
     o_support_email := text_affinity (op_support_email p);
     o_phone := text_affinity (op_phone p);
     o_alt_phone := text_affinity (op_alt_phone p);
     o_website := text_affinity (op_website p);
     o_max_coordinators := Some (op_max_coordinators p);
     o_timezone := text_affinity (op_timezone p);
     o_language := text_affinity (op_language p);
     o_status := text_affinity (op_status p);
     o_pending_requests := Some (op_pending_requests p);
     o_created_at := Some now |}.

Definition with_organization (s : store) (id : Z) (o : org_row) : store :=
  {| organizations := <[id := o]> (organizations s);
     organizations_seq := id;
     users := users s;
     users_seq := users_seq s |}.

(** [INSERT INTO organizations (...) VALUES (?,...)]: the rowid first,
    then NOT NULL on [name] ([slug] is a [str]), then UNIQUE on [slug].
    Gives the new store and the rowid. *)
Definition insert_organization (now : string) (s : store) (p : org_params)
  : flow (store * Z) :=
  id ← next_rowid (organizations_seq s) (organizations s);
  match text_affinity (op_name p) with
  | Some name =>
      match select_org_by_slug s (op_slug p) with
      | _ :: _ => raise IntegrityError
      | [] => Go (with_organization s id (new_org_row now name p), id)
      end
  | None => raise IntegrityError
  end.

(** [UPDATE organizations SET status=? WHERE id=?] *)
Definition update_org_status (s : store) (st : sqlparam) (id : Z) : store :=
  {| organizations := alter (set_status (text_affinity st)) id (organizations s);
     organizations_seq := organizations_seq s;
     users := users s;
     users_seq := users_seq s |}.

(** The six parameters of the INSERT of [api_create_user]. *)
Record user_params : Type := {
  up_org_id : Z;
  up_name : sqlparam;
  up_email : sqlparam;
  up_role : sqlparam;
  up_phone : sqlparam;
  up_timezone : sqlparam
}.

Definition new_user_row (now name email role : string) (p : user_params) : user_row :=
  {| u_org_id := Some (up_org_id p); u_name := name;
     u_email := email; u_role := role;
     u_phone := text_affinity (up_phone p);
     u_timezone := text_affinity (up_timezone p);
     u_created_at := Some now |}.

Definition with_user (s : store) (id : Z) (u : user_row) : store :=
  {| organizations := organizations s;
     organizations_seq := organizations_seq s;
     users := <[id := u]> (users s);
     users_seq := id |}.

(** [INSERT INTO users (...) VALUES (?,...)]: the rowid, then NOT NULL on
    [name], [email] and [role].  Foreign keys are not enforced (the
    connection never turns the pragma on). *)
Definition insert_user (now : string) (s : store) (p : user_params)
  : flow (store * Z) :=
  id ← next_rowid (users_seq s) (users s);
  match text_affinity (up_name p), text_affinity (up_email p),
        text_affinity (up_role p) with
  | Some name, Some email, Some role =>
      Go (with_user s id (new_user_row now name email role p), id)
  | _, _, _ => raise IntegrityError
  end.
End Statements.

(** ** [werkzeug.utils.secure_filename] on a POSIX host

    [nfkd] gives, for a character outside ASCII, the ASCII characters of its
    NFKD decomposition (what is left of it after
    [encode("ascii", "ignore")]). *)

Fixpoint ascii_fold (nfkd : ascii → string) (s : string) : string :=
  match s with
  | EmptyString => EmptyString
  | String c r =>
      (if (code c <? 128)%N then String c EmptyString else nfkd c) +:+ ascii_fold nfkd r
  end.

(** [filename.replace("/", " ")] *)
Fixpoint replace_sep (s : string) : string :=
  match s with
  | EmptyString => EmptyString
  | String c r => String (if Ascii.eqb c "/" then " "%char else c) (replace_sep r)
  end.

(** [s.split()]: the maximal runs of characters that are not whitespace;
    [word] is the run being read. *)
Fixpoint py_split_from (word s : string) : list string :=
  match s with
  | EmptyString =>
      match word with
      | EmptyString => []
      | _ => [word]
      end
  | String c r =>
      if py_isspace c then
        match word with
        | EmptyString => py_split_from EmptyString r
        | _ => word :: py_split_from EmptyString r
        end
      else py_split_from (word +:+ String c EmptyString) r
  end.

Definition py_split (s : string) : list string := py_split_from EmptyString s.

(** [sep.join(words)] *)
Fixpoint py_join (sep : string) (words : list string) : string :=
  match words with
  | [] => EmptyString
  | [w] => w
  | w :: ws => w +:+ sep +:+ py_join sep ws
  end.

(** The characters kept by [[^A-Za-z0-9_.-]] *)
Definition is_filename_char (c : ascii) : bool :=
  is_upper_ascii c || is_lower_ascii c || is_digit c ||
  Ascii.eqb c "_" || Ascii.eqb c "." || Ascii.eqb c "-".

Fixpoint keep_chars (P : ascii → bool) (s : string) : string :=
  match s with
  | EmptyString => EmptyString
  | String c r => if P c then String c (keep_chars P r) else keep_chars P r
  end.

Definition is_dot_or_underscore (c : ascii) : bool :=
  Ascii.eqb c "." || Ascii.eqb c "_".

Definition werkzeug_secure_filename (nfkd : ascii → string) (filename : string) : string :=
  let filename := ascii_fold nfkd filename in
  let filename := replace_sep filename in
  strip_by is_dot_or_underscore
    (keep_chars is_filename_char (py_join "_" (py_split filename))).

(** ** The handlers *)

(** The result of a handler whose only write comes last: leaving early
    leaves the store as it was (nothing was written, or nothing was
    committed before the connection is closed). *)
Definition run {A} (s : A) (m : flow (A * response)) : A * response :=
  match m with
  | Go x => x
  | Stop r => (s, r)
  end.

Definition answer (m : flow response) : response :=
  match m with
  | Go r => r
  | Stop r => r
  end.

(** [for r in required: if r not in data or not data[r]: return ..., 400] *)
Fixpoint require (data : json) (required : list string) : flow unit :=
  match required with
  | [] => Go ()
  | r :: rest =>
      present ← py_in r data;
      missing ← (if negb present then Go true
                 else v ← py_getitem data r; Go (negb (truthy v)));
      if (missing : bool) then reply (Err (r +:+ " is required")) 400
      else require data rest
  end.

Section Handlers.
Context {E : Externals}.

(** [secure_filename(v)]: [unicodedata.normalize] wants a [str]. *)
Definition py_secure_filename (v : json) : flow string :=
  match v with
  | JStr s => Go (secure_filename s)
  | _ => raise TypeError
  end.

(** [GET /api/organizations] *)
Definition api_get_organizations (s : store) : response :=
  Reply (Rows (org_dict <$> rows_desc (organizations s))) 200.

(** [GET /api/organizations/<int:org_id>] *)
Definition api_get_organization (s : store) (org_id : Z) : response :=
  answer (
    p ← bind_param (JInt org_id);
    match fetchone (select_org_by_id s p) with
    | None => reply (Err "Organization not found") 404
    | Some row => reply (Row (org_dict row)) 200
    end).

(** The argument tuple of the INSERT of [api_create_organization],
    evaluated left to right, then bound left to right by [db.execute]
    ([slug], the second parameter, is a [str]: its binding cannot fail). *)
Definition create_organization_params (data : json) (slug : string)
  : flow org_params :=
  name ← py_get data "name";
  support_email ← py_get data "support_email";
  phone ← py_get data "phone";
  alt_phone ← py_get data "alt_phone";
  website ← py_get data "website";
  max_coordinators ← (v ← py_get data "max_coordinators"; py_int (py_or v (JInt 5)));
  timezone ← (v ← py_get data "timezone"; Go (py_or v (JStr "Asia/Kolkata")));
  language ← (v ← py_get data "language"; Go (py_or v (JStr "English")));
  status ← (v ← py_get data "status"; Go (py_or v (JStr "Active")));
  pending_requests ← (v ← py_get data "pending_requests"; py_int (py_or v (JInt 0)));
  p_name ← bind_param name;
  p_support_email ← bind_param support_email;
  p_phone ← bind_param phone;
  p_alt_phone ← bind_param alt_phone;
  p_website ← bind_param website;
  p_max_coordinators ← bind_int max_coordinators;
  p_timezone ← bind_param timezone;
  p_language ← bind_param language;
  p_status ← bind_param status;
  p_pending_requests ← bind_int pending_requests;
  Go {| op_name := p_name; op_slug := slug;
        op_support_email := p_support_email; op_phone := p_phone;
        op_alt_phone := p_alt_phone; op_website := p_website;
        op_max_coordinators := p_max_coordinators;
        op_timezone := p_timezone; op_language := p_language;
        op_status := p_status;
        op_pending_requests := p_pending_requests |}.

(** [POST /api/organizations] *)
Definition api_create_organization (now : string) (s : store) (data : json)
  : store * response :=
  run s (
    _ ← require data ["name"; "slug"]%string;
    raw ← py_getitem data "slug";
    slug ← py_lower <$> py_secure_filename raw;
    inserted ← except_IntegrityError
      (p ← create_organization_params data slug; insert_organization now s p)
      (reply (Err "Slug already exists or invalid data") 400);
    let s' := inserted.1 in
    match fetchone (select_org_by_slug s' slug) with
    | Some row => Go (s', Reply (Row (org_dict row)) 201)
    | None => Go (s', Uncaught TypeError)
    end).

(** [PUT /api/organizations/<int:org_id>/status] *)
Definition api_change_org_status (s : store) (org_id : Z) (data : json)
  : store * response :=
  run s (
    present ← py_in "status" data;
    if negb present then reply (Err "status required") 400 else
    p ← bind_param (JInt org_id);
    match fetchone (select_org_by_id s p) with
    | None => reply (Err "Organization not found") 404
    | Some _ =>
        status ← py_getitem data "status";
        p_status ← bind_param status;
        id ← bind_int org_id;
        let s' := update_org_status s p_status id in
        match fetchone (select_org_by_id s' p) with
        | Some row => Go (s', Reply (Row (org_dict row)) 200)
        | None => Go (s', Uncaught TypeError)
        end
    end).

(** [GET /api/users] *)
Definition api_get_users (s : store) : response :=
  Reply (Rows (user_dict_slug <$> (join_org s <$> rows_desc (users s)))) 200.

(** The argument tuple of the INSERT of [api_create_user], then its
    binding. *)
Definition create_user_params (data : json) : flow user_params :=
  org_id ← (v ← py_getitem data "org_id"; py_int v);
  name ← py_getitem data "name";
  email ← py_getitem data "email";
  role ← py_getitem data "role";
  phone ← py_get data "phone";
  timezone ← py_get data "timezone";
  p_org_id ← bind_int org_id;
  p_name ← bind_param name;
  p_email ← bind_param email;
  p_role ← bind_param role;
  p_phone ← bind_param phone;
  p_timezone ← bind_param timezone;
  Go {| up_org_id := p_org_id; up_name := p_name; up_email := p_email;
        up_role := p_role; up_phone := p_phone; up_timezone := p_timezone |}.

(** [... WHERE u.id = last_insert_rowid()] *)
Definition select_user_by_rowid (s : store) (id : Z) : list joined :=
  join_org s <$> filter (λ r, r.1 = id) (rows_asc (users s)).

(** [POST /api/users] *)
Definition api_create_user (now : string) (s : store) (data : json)
  : store * response :=
  run s (
    _ ← require data ["name"; "email"; "role"; "org_id"]%string;
    org_id ← py_getitem data "org_id";
    p ← bind_param org_id;
    match fetchone (select_org_by_id s p) with
    | None => reply (Err "Organization does not exist") 400
    | Some _ =>
        params ← create_user_params data;
        inserted ← insert_user now s params;
        let '(s', rowid) := inserted in
        match fetchone (select_user_by_rowid s' rowid) with
        | Some row => Go (s', Reply (Row (user_dict row)) 201)
        | None => Go (s', Uncaught TypeError)
        end
    end).

(** [f'%{q}%'] *)
Definition like_pattern (q : string) : string := "%" +:+ q +:+ "%".

(** [WHERE name LIKE ? OR slug LIKE ?] *)
Definition org_matches (pattern : string) (r : Z * org_row) : flow bool :=
  by_name ← like pattern (Some (o_name r.2));
  by_slug ← like pattern (Some (o_slug r.2));
  Go (by_name || by_slug).

(** [WHERE u.name LIKE ? OR u.email LIKE ? OR o.name LIKE ?] *)
Definition user_matches (pattern : string) (j : joined) : flow bool :=
  let '(_, u, o) := j in
  by_name ← like pattern (Some (u_name u));
  by_email ← like pattern (Some (u_email u));
  by_organization ← like pattern (o_name <$> o);
  Go (by_name || by_email || by_organization).

(** [request.args.get('q', '').strip()] *)
Definition query_arg (q : option string) : string := py_strip (default EmptyString q).

(** [GET /api/organizations/search] *)
Definition api_search_orgs (s : store) (q : option string) : response :=
  let q := query_arg q in
  if String.eqb q EmptyString then
    Reply (Rows (org_dict <$> rows_desc (organizations s))) 200
  else
    let pattern := like_pattern q in
    answer (
      found ← select_where (org_matches pattern) (rows_desc (organizations s));
      Go (Reply (Rows (org_dict <$> found)) 200)).

(** [GET /api/users/search] *)
Definition api_search_users (s : store) (q : option string) : response :=
  let q := query_arg q in
  if String.eqb q EmptyString then
    Reply (Rows (user_dict_slug <$> (join_org s <$> rows_desc (users s)))) 200
  else
    let pattern := like_pattern q in
    answer (
      found ← select_where (user_matches pattern) (join_org s <$> rows_desc (users s));
      Go (Reply (Rows (user_dict <$> found)) 200)).
End Handlers.

(** ** [init_db]: the seed rows *)

Section Init.
Context {E : Externals}.

Definition seed_org (name slug support_email phone alt_phone website timezone : string)
  : org_params :=
  {| op_name := PText name; op_slug := slug;
     op_support_email := PText support_email; op_phone := PText phone;
     op_alt_phone := PText alt_phone; op_website := PText website;
     op_max_coordinators := 5; op_timezone := PText timezone;
     op_language := PText "English"; op_status := PText "Active";
     op_pending_requests := 45 |}.

Definition seed_user (org_id : Z) (name email role phone timezone : string)
  : user_params :=
  {| up_org_id := org_id; up_name := PText name; up_email := PText email;
     up_role := PText role; up_phone := PText phone;
     up_timezone := PText timezone |}.

(** The two organizations, if the table is empty: one INSERT of two rows. *)
Definition seed_organizations (now : string) (s : store) : flow store :=
  if (size (organizations s) =? 0)%nat then
    a ← insert_organization now s
           (seed_org "Massachusetts Institute of Technology" "mit"
              "support@mit.edu" "+1-617-253-1000" "+1-617-253-9999"
              "https://mit.edu" "America/New_York");
    b ← insert_organization now a.1
           (seed_org "GITAM Institute of Technology" "gitam"
              "gitam@gitam.in" "+91-9676456543" "+91-93473294913"
              "https://gitam.edu" "Asia/Kolkata");
    Go b.1
  else Go s.

(** [row['id'] if row else fallback] *)
Definition org_id_by_slug (s : store) (slug : string) (fallback : Z) : Z :=
  match fetchone (select_org_by_slug s slug) with
  | Some row => row.1
  | None => fallback
  end.

(** The three users, if the table is empty: [executemany] runs the INSERT
    three times, [now n] being the time of the [n]-th run. *)
Definition seed_users (now : nat → string) (s : store) : flow store :=
  if (size (users s) =? 0)%nat then
    let gitam_id := org_id_by_slug s "gitam" 1 in
    let mit_id := org_id_by_slug s "mit" 2 in
    a ← insert_user (now 0%nat) s
           (seed_user gitam_id "Dave Richards" "dave.richards@example.com"
              "Admin" "+91-9000000001" "Asia/Kolkata");
    b ← insert_user (now 1%nat) a.1
           (seed_user gitam_id "Abhishek Hari" "abhishek.hari@example.com"
              "Co-ordinator" "+91-9000000002" "Asia/Kolkata");
    c ← insert_user (now 2%nat) b.1
           (seed_user mit_id "Nishta Gupta" "nishta.gupta@example.com"
              "Admin" "+1-617-0000003" "America/New_York");
    Go c.1
  else Go s.

(** [init_db()]: the tables exist in every store of the model, so the two
    CREATE TABLE IF NOT EXISTS do nothing; each seeding is committed on its
    own; the second component is the exception that left [init_db], if one
    did.  [now_orgs] and [now_users] are the times of the INSERTs. *)
Definition init_db (now_orgs : string) (now_users : nat → string) (s : store)
  : store * option response :=
  match seed_organizations now_orgs s with
  | Stop r => (s, Some r)
  | Go s1 =>
      match seed_users now_users s1 with
      | Stop r => (s1, Some r)
      | Go s2 => (s2, None)
      end
  end.

(** ** Every request of the API *)

Inductive request : Type :=
  | GetOrganizations
  | GetOrganization (org_id : Z)
  | CreateOrganization (now : string) (data : json)
  | ChangeOrgStatus (org_id : Z) (data : json)
  | GetUsers
  | CreateUser (now : string) (data : json)
  | SearchOrgs (q : option string)
  | SearchUsers (q : option string).

Definition handle (s : store) (req : request) : store * response :=
  match req with
  | GetOrganizations => (s, api_get_organizations s)
  | GetOrganization org_id => (s, api_get_organization s org_id)
  | CreateOrganization now data => api_create_organization now s data
  | ChangeOrgStatus org_id data => api_change_org_status s org_id data
  | GetUsers => (s, api_get_users s)
  | CreateUser now data => api_create_user now s data
  | SearchOrgs q => (s, api_search_orgs s q)
  | SearchUsers q => (s, api_search_users s q)
  end.
End Init.

(** ** What the schema guarantees of every store *)

(** [slug TEXT UNIQUE] *)
Definition unique_slugs (m : gmap Z org_row) : Prop :=
  ∀ i j a b, m !! i = Some a → m !! j = Some b → o_slug a = o_slug b → i = j.

(** Rowids are 64-bit integers. *)
Definition rowids_fit {A} (seq : Z) (m : gmap Z A) : Prop :=
  fits_int64 seq = true ∧ ∀ i, is_Some (m !! i) → fits_int64 i = true.

Definition wf_store (s : store) : Prop :=
  unique_slugs (organizations s) ∧
  rowids_fit (organizations_seq s) (organizations s) ∧
  rowids_fit (users_seq s) (users s).

(** The number of organizations that carry a slug. *)
Definition count_slug (s : store) (slug : string) : nat :=
  length (filter (λ r : Z * org_row, o_slug r.2 = slug) (map_to_list (organizations s))).

(** No organization carries the slug. *)
Definition slug_free (s : store) (slug : string) : bool :=
  forallb (λ r : Z * org_row, negb (String.eqb (o_slug r.2) slug))
          (map_to_list (organizations s)).

(** ** Occurrence up to the case of ASCII letters *)

Fixpoint fold_case (s : string) : string :=
  match s with
  | EmptyString => EmptyString
  | String c r => String (like_fold c) (fold_case r)
  end.

(** [q] occurs in [t] up to the case of ASCII letters: a stretch of [t]
    is [q] once both are folded. *)
Definition occurs_in (q t : string) : Prop :=
  ∃ pre mid post, t = pre +:+ mid +:+ post ∧ fold_case mid = fold_case q.

Definition is_wildcard (c : ascii) : bool := Ascii.eqb c "%" || Ascii.eqb c "_".

(** The query has none of the wildcards of LIKE. *)
Fixpoint no_wildcard (q : string) : bool :=
  match q with
  | EmptyString => true
  | String c r => negb (is_wildcard c) && no_wildcard r
  end.

(** The query has no U+0000. *)
Fixpoint no_nul (q : string) : bool :=
  match q with
  | EmptyString => true
  | String c r => negb (code c =? 0)%N && no_nul r
  end.

(** The WHERE clauses of the two searches on a pattern within the limit
    of LIKE. *)
Definition org_hits (pattern : string) (r : Z * org_row) : bool :=
  like_match pattern (Some (o_name r.2)) || like_match pattern (Some (o_slug r.2)).

Definition user_hits (pattern : string) (j : joined) : bool :=
  like_match pattern (Some (u_name j.1.2)) || like_match pattern (Some (u_email j.1.2)) ||
  like_match pattern (o_name <$> j.2).

(** The pattern of a query has more bytes than LIKE takes. *)
Definition pattern_too_long (q : string) : bool :=
  max_like_pattern_length <? utf8_length (like_pattern q).

(** ** An instance of the externals, for the examples *)

(** An optional minus sign and decimal digits. *)
Definition plain_integer (t : string) : option Z :=
  match t with
  | String "-" r => Z.opp <$> (if String.eqb r (keep_chars is_digit r) then digits_value 0 false r else None)
  | _ => if String.eqb t (keep_chars is_digit t) then digits_value 0 false t else None
  end.

(** Non-ASCII characters are dropped; a REAL is not rendered. *)
Definition sample_externals : Externals :=
  {| secure_filename := werkzeug_secure_filename (λ _, EmptyString);
     real_to_text := λ _, "real"%string;
     text_to_integer := plain_integer |}.

(** The store of a fresh start at the given time. *)
Definition seeded_store : store :=
  (init_db (E := sample_externals) "2024-01-01 00:00:00"
           (λ _, "2024-01-01 00:00:00"%string) empty_store).1.

(** ** What a handler computes before it touches the store *)

Section Requests.
Context {E : Externals}.

(** [api_create_organization] up to its INSERT: the required fields, the
    sanitized slug, the argument tuple and its binding. *)
Definition organization_request (data : json) : flow org_params :=
  _ ← require data ["name"; "slug"]%string;
  raw ← py_getitem data "slug";
  slug ← py_lower <$> py_secure_filename raw;
  create_organization_params data slug.

(** How [api_create_organization] leaves when its INSERT fails: its
    [except] clause answers an [IntegrityError], anything else goes
    through. *)
Definition insert_failure (r : response) : response :=
  match r with
  | Uncaught IntegrityError => Reply (Err "Slug already exists or invalid data") 400
  | _ => r
  end.

(** The sanitized slug of a submitted one. *)
Definition sanitize (raw : string) : string := py_lower (secure_filename raw).
End Requests.

(** A value that [db.execute] can bind: null, a boolean, an integer of 64
    bits, a float, a string. *)
Definition bindable (v : json) : Prop := ∃ p, bind_param v = Go p.

(** A value that a TEXT NOT NULL column takes: bindable and not stored as
    NULL. *)
Definition storable `{Externals} (v : json) : Prop :=
  ∃ p t, bind_param v = Go p ∧ text_affinity p = Some t.

(** An exception raised while the argument tuple of a statement is
    evaluated or bound. *)
Definition argument_error (r : response) : Prop :=
  r = Uncaught TypeError ∨ r = Uncaught ValueError ∨ r = Uncaught OverflowError ∨
  r = Uncaught BindingError ∨ r = Uncaught AttributeError.

(** ** Sample requests, for the examples *)

Definition sample_now : string := "2024-01-02 09:30:00".

(** The end-to-end request of the specification. *)
Definition test_u_request : json :=
  JObj [("name", JStr "Test U"); ("slug", JStr "Test U!")]%string.

(** The same slug in capitals, with a number of coordinators that is not
    a number. *)
Definition shouting_request : json :=
  JObj [("name", JStr "Test U again"); ("slug", JStr "TEST u");
        ("max_coordinators", JStr "many")]%string.

(** No name, and a number of coordinators that is not a number. *)
Definition nameless_request : json :=
  JObj [("slug", JStr "acme"); ("max_coordinators", JStr "many")]%string.

(** The same slug in capitals, and nothing else wrong. *)
Definition capitals_request : json :=
  JObj [("name", JStr "Test U again"); ("slug", JStr "TEST u")]%string.

(** The seeded store after the end-to-end request, and the row it got
    back. *)
Definition test_u_outcome : store * response :=
  api_create_organization (E := sample_externals) sample_now seeded_store test_u_request.

Definition store_with_test_u : store := test_u_outcome.1.

Definition row_of (r : response) : pyrow :=
  match r with
  | Reply (Row row) _ => row
  | _ => []
  end.

(** The [org_id] of a body references an organization: the lookup of
    [api_create_user] finds a row for it. *)
Definition references_organization `{Externals} (s : store) (data : json) : Prop :=
  ∃ v p row,
    py_getitem data "org_id" = Go v ∧ bind_param v = Go p ∧
    fetchone (select_org_by_id s p) = Some row.

(** A user whose [org_id] is larger than any INTEGER of SQLite. *)
Definition far_org_request : json :=
  JObj [("name", JStr "Ada"); ("email", JStr "ada@example.com");
        ("role", JStr "Admin"); ("org_id", JInt (2 ^ 63))]%string.

(** A user of the organization 1, with a structured phone. *)
Definition structured_phone_request : json :=
  JObj [("name", JStr "Ada"); ("email", JStr "ada@example.com");
        ("role", JStr "Admin"); ("org_id", JInt 1);
        ("phone", JObj [("mobile", JStr "+1-617-0000004")])]%string.

(** A user of an organization that does not exist, and one of the
    organization 1. *)
Definition unknown_org_fields : list (string * json) :=
  [("name", JStr "Ada"); ("email", JStr "ada@example.com");
   ("role", JStr "Admin"); ("org_id", JInt 99)]%string.

Definition known_org_fields : list (string * json) :=
  [("name", JStr "Ada"); ("email", JStr "ada@example.com");
   ("role", JStr "Admin"); ("org_id", JInt 1)]%string.

(** Two rows of [organizations] that differ at most in [status]. *)
Definition same_but_status (o o' : org_row) : Prop :=
  o_name o' = o_name o ∧ o_slug o' = o_slug o ∧
  o_support_email o' = o_support_email o ∧ o_phone o' = o_phone o ∧
  o_alt_phone o' = o_alt_phone o ∧ o_website o' = o_website o ∧
  o_max_coordinators o' = o_max_coordinators o ∧ o_timezone o' = o_timezone o ∧
  o_language o' = o_language o ∧ o_pending_requests o' = o_pending_requests o ∧
  o_created_at o' = o_created_at o.

(** Status updates: one with no [status], one that suspends, one whose
    status is a list. *)
Definition no_status_request : json := JObj [].

Definition suspend_fields : list (string * json) := [("status", JStr "Suspended")]%string.

Definition status_list_request : json :=
  JObj [("status", JArr [JStr "Suspended"])]%string.

(** An organization with twelve coordinators, written as a string, and a
    falsy number of pending requests. *)
Definition twelve_request : json :=
  JObj [("name", JStr "Twelve"); ("slug", JStr "twelve");
        ("max_coordinators", JStr " 12 "); ("pending_requests", JInt 0)]%string.

(** An organization whose slug has nothing that the sanitizer keeps. *)
Definition bangs_request : json :=
  JObj [("name", JStr "Bang"); ("slug", JStr "!!!")]%string.

(** [c * n] *)
Fixpoint repeat_char (c : ascii) (n : nat) : string :=
  match n with
  | O => EmptyString
  | S n' => String c (repeat_char c n')
  end.

(** [12] after the separator U+001C, and a query with a U+0000 in it. *)
Definition separator_twelve : string := String (ascii_of_N 28) "12".

Definition nul_query : string := String "y" (String (ascii_of_N 0) "zzz").

(** An organization whose slug is the empty string. *)
Definition empty_slug_request : json :=
  JObj [("name", JStr "Bang"); ("slug", JStr EmptyString)]%string.

(** The externals with werkzeug's [secure_filename] on a POSIX host. *)
Definition werkzeug_externals (nfkd : ascii → string)
    (render : spec_float → string) (read : string → option Z) : Externals :=
  {| secure_filename := werkzeug_secure_filename nfkd;
     real_to_text := render;
     text_to_integer := read |}.

(** ** Further notions, for the properties of the handlers *)

(** Strictly descending ids. *)
Definition id_gt {A} (a b : Z * A) : Prop := b.1 < a.1.

(** The first of the required fields that the object lacks or holds a
    falsy value for. *)
Fixpoint first_missing (fields : list (string * json)) (required : list string)
  : option string :=
  match required with
  | [] => None
  | r :: rest =>
      match assoc r fields with
      | Some v => if truthy v then first_missing fields rest else Some r
      | None => Some r
      end
  end.

(** A body that is no container: null, a boolean, a number. *)
Definition is_scalar_body (data : json) : bool :=
  match data with
  | JNull | JBool _ | JInt _ | JFloat _ => true
  | _ => false
  end.

(** The value of a field of an object, [None] when the key is absent. *)
Definition field (fields : list (string * json)) (k : string) : json :=
  default JNull (assoc k fields).

(** A response that is no success: an exception that left the handler, or
    an error message. *)
Definition is_rejection (r : response) : Prop :=
  (∃ e, r = Uncaught e) ∨ ∃ msg status, r = Reply (Err msg) status.

(** A body that is a list of strings. *)
Definition list_body : json := JArr [JStr "name"; JStr "slug"; JStr "status"]%string.

(** What a handler may give back from a store [s]: an exception or an
    error message (400 or 404) with the store as it was, one row (200 or
    201), or an array of rows (200) with the store as it was. *)
Definition well_shaped (s : store) (out : store * response) : Prop :=
  match out.2 with
  | Uncaught _ => out.1 = s
  | Reply (Err _) status => out.1 = s ∧ (status = 400 ∨ status = 404)
  | Reply (Row _) status => status = 200 ∨ status = 201
  | Reply (Rows _) status => out.1 = s ∧ status = 200
  end.

(** A second status update. *)
Definition archive_fields : list (string * json) := [("status", JStr "Archived")]%string.

(** An organization with a phone given as a number, an empty language and
    a timezone of its own. *)
Definition numeric_phone_request : json :=
  JObj [("name", JStr "Acme"); ("slug", JStr "acme"); ("phone", JInt 5551234);
        ("language", JStr ""); ("timezone", JStr "Europe/Paris")]%string.

(** Every character of [s] is whitespace. *)
Fixpoint is_blank (s : string) : bool :=
  match s with
  | EmptyString => true
  | String c r => py_isspace c && is_blank r
  end.

(** * Properties *)

(** ** Control flow *)

Lemma bind_Go {A B} (m : flow A) (k : A → flow B) (b : B) :
  m ≫= k = Go b → ∃ a, m = Go a ∧ k a = Go b.
Proof. destruct m as [a|r]; [eauto | discriminate]. Qed.

Lemma fmap_Go {A B} (f : A → B) (m : flow A) (b : B) :
  f <$> m = Go b → ∃ a, m = Go a ∧ b = f a.
Proof. destruct m as [a|r]; [intros [= <-]; eauto | discriminate]. Qed.

Lemma bind_int_Go n k : bind_int n = Go k → k = n ∧ fits_int64 n = true.
Proof. unfold bind_int. destruct (fits_int64 n); [intros [= <-]; auto | discriminate]. Qed.

Lemma bind_int_fits n : fits_int64 n = true → bind_int n = Go n.
Proof. unfold bind_int. intros ->. reflexivity. Qed.

Lemma fits_int64_spec n : fits_int64 n = true ↔ int64_min ≤ n ≤ int64_max.
Proof. unfold fits_int64. rewrite andb_true_iff, !Z.leb_le. tauto. Qed.

(** ** Tables *)

Lemma elem_of_rows_asc {A} (m : gmap Z A) (x : Z * A) :
  x ∈ rows_asc m ↔ m !! x.1 = Some x.2.
Proof. unfold rows_asc. rewrite merge_sort_Permutation. apply elem_of_map_to_list'. Qed.

Lemma elem_of_rows_desc {A} (m : gmap Z A) (x : Z * A) :
  x ∈ rows_desc m ↔ m !! x.1 = Some x.2.
Proof. unfold rows_desc. rewrite merge_sort_Permutation. apply elem_of_map_to_list'. Qed.

Lemma rows_desc_nil {A} (m : gmap Z A) : rows_desc m = [] ↔ m = ∅.
Proof.
  split.
  - intros Hnil. apply map_empty. intros i. destruct (m !! i) as [x|] eqn:Hi; [|done].
    assert ((i, x) ∈ rows_desc m) as Hin by by apply elem_of_rows_desc.
    rewrite Hnil in Hin. by apply elem_of_nil in Hin.
  - intros ->. unfold rows_desc. by rewrite map_to_list_empty.
Qed.

Lemma fetchone_filter_unique {A} (P : A → Prop) `{!∀ x, Decision (P x)}
    (l : list A) (x : A) :
  x ∈ l → P x → (∀ y, y ∈ l → P y → y = x) → fetchone (filter P l) = Some x.
Proof.
  intros Hin HP Huniq. unfold fetchone.
  destruct (head (filter P l)) as [y|] eqn:Hhead.
  - apply head_Some_elem_of, list_elem_of_filter in Hhead as [HPy Hy].
    f_equal. auto.
  - apply head_None in Hhead.
    exfalso. eapply filter_nil_not_elem_of; eauto.
Qed.

Lemma fetchone_filter_None {A} (P : A → Prop) `{!∀ x, Decision (P x)} (l : list A) :
  (∀ y, y ∈ l → ¬ P y) → filter P l = [].
Proof.
  intros Hno. destruct (filter P l) as [|y k] eqn:Hf; [done|].
  assert (y ∈ filter P l) as Hy by (rewrite Hf; left).
  apply list_elem_of_filter in Hy as [HP Hy]. destruct (Hno y Hy HP).
Qed.

Lemma fetchone_Some_elem_of {A} (P : A → Prop) `{!∀ x, Decision (P x)}
    (l : list A) (x : A) :
  fetchone (filter P l) = Some x → P x ∧ x ∈ l.
Proof. intros Hh. by apply head_Some_elem_of, list_elem_of_filter in Hh. Qed.

Lemma foldr_max_init (seq : Z) (l : list Z) : seq ≤ foldr Z.max seq l.
Proof. induction l as [|x l IH]; simpl; lia. Qed.

Lemma foldr_max_elem (seq : Z) (l : list Z) (i : Z) : i ∈ l → i ≤ foldr Z.max seq l.
Proof.
  induction l as [|x l IH]; simpl; intros Hin.
  - by apply elem_of_nil in Hin.
  - apply elem_of_cons in Hin as [->|Hin]; [lia|]. specialize (IH Hin). lia.
Qed.

Lemma foldr_max_bound (seq : Z) (l : list Z) (b : Z) :
  seq ≤ b → (∀ i, i ∈ l → i ≤ b) → foldr Z.max seq l ≤ b.
Proof.
  intros Hseq. induction l as [|x l IH]; simpl; intros Hall; [done|].
  apply Z.max_lub.
  - apply Hall. left.
  - apply IH. intros i Hi. apply Hall. by right.
Qed.

Lemma largest_rowid_seq {A} seq (m : gmap Z A) : seq ≤ largest_rowid seq m.
Proof. apply foldr_max_init. Qed.

Lemma largest_rowid_key {A} seq (m : gmap Z A) i :
  is_Some (m !! i) → i ≤ largest_rowid seq m.
Proof.
  intros [x Hx]. apply foldr_max_elem.
  apply list_elem_of_fmap. exists (i, x). split; [done|].
  by apply elem_of_map_to_list.
Qed.

Lemma largest_rowid_fits {A} seq (m : gmap Z A) :
  rowids_fit seq m → fits_int64 (largest_rowid seq m) = true.
Proof.
  intros [Hseq Hkeys]. apply fits_int64_spec. apply fits_int64_spec in Hseq.
  split.
  - etrans; [apply Hseq | apply largest_rowid_seq].
  - apply foldr_max_bound; [apply Hseq|].
    intros i Hi. apply list_elem_of_fmap in Hi as [[j x] [-> Hjx]].
    apply elem_of_map_to_list in Hjx.
    assert (fits_int64 j = true) as Hj by (apply Hkeys; eauto).
    apply fits_int64_spec in Hj. apply Hj.
Qed.

(** A rowid given by AUTOINCREMENT is above every rowid of the table. *)
Lemma next_rowid_Go {A} seq (m : gmap Z A) id :
  next_rowid seq m = Go id →
  id = largest_rowid seq m + 1 ∧ id ≤ int64_max ∧ m !! id = None.
Proof.
  unfold next_rowid. destruct (Z.ltb_spec (largest_rowid seq m) int64_max) as [Hlt|Hge];
    [intros [= <-] | discriminate].
  split; [done|]. split; [lia|].
  destruct (m !! (largest_rowid seq m + 1)) as [x|] eqn:Hx; [|done].
  assert (largest_rowid seq m + 1 ≤ largest_rowid seq m) by (apply largest_rowid_key; eauto).
  lia.
Qed.

Lemma next_rowid_fits {A} seq (m : gmap Z A) id :
  rowids_fit seq m → next_rowid seq m = Go id → fits_int64 id = true.
Proof.
  intros Hfit Hnext. apply next_rowid_Go in Hnext as (-> & Hle & _).
  apply largest_rowid_fits, fits_int64_spec in Hfit.
  apply fits_int64_spec. lia.
Qed.

Lemma next_rowid_room {A} seq (m : gmap Z A) :
  largest_rowid seq m < int64_max → next_rowid seq m = Go (largest_rowid seq m + 1).
Proof.
  intros Hlt. unfold next_rowid.
  destruct (Z.ltb_spec (largest_rowid seq m) int64_max); [done | lia].
Qed.

(** ** Statements *)

Section StatementFacts.
Context {E : Externals}.

Lemma select_org_by_id_Some s p k o :
  fetchone (select_org_by_id s p) = Some (k, o) →
  id_equals p k = true ∧ organizations s !! k = Some o.
Proof.
  intros Hf. apply fetchone_Some_elem_of in Hf as [Hp Hin].
  split; [done|]. by apply elem_of_rows_asc in Hin.
Qed.

(** A lookup by an integer id is the lookup of the key. *)
Lemma select_org_by_id_int s n :
  fetchone (select_org_by_id s (PInt n)) = (λ o, (n, o)) <$> organizations s !! n.
Proof.
  unfold select_org_by_id.
  destruct (organizations s !! n) as [o|] eqn:Ho; simpl.
  - apply fetchone_filter_unique.
    + by apply elem_of_rows_asc.
    + simpl. apply Z.eqb_refl.
    + intros [j x] Hin Heq. simpl in Heq. apply Z.eqb_eq in Heq as <-.
      apply elem_of_rows_asc in Hin. simpl in Hin. congruence.
  - rewrite fetchone_filter_None; [done|].
    intros [j x] Hin Heq. simpl in Heq. apply Z.eqb_eq in Heq as <-.
    apply elem_of_rows_asc in Hin. simpl in Hin. congruence.
Qed.

Lemma select_org_by_slug_nil s slug :
  select_org_by_slug s slug = [] ↔
  ∀ i o, organizations s !! i = Some o → o_slug o ≠ slug.
Proof.
  unfold select_org_by_slug. split.
  - intros Hf i o Ho Hslug.
    eapply (filter_nil_not_elem_of _ _ (i, o)); [apply Hf | done |].
    by apply elem_of_rows_asc.
  - intros Hno. apply fetchone_filter_None.
    intros [i o] Hin Hslug. apply elem_of_rows_asc in Hin. by eapply Hno.
Qed.

(** What a successful INSERT into [organizations] did. *)
Lemma insert_organization_Go now s p s' id :
  insert_organization now s p = Go (s', id) →
  ∃ name,
    text_affinity (op_name p) = Some name ∧
    next_rowid (organizations_seq s) (organizations s) = Go id ∧
    (∀ i o, organizations s !! i = Some o → o_slug o ≠ op_slug p) ∧
    s' = with_organization s id (new_org_row now name p).
Proof.
  unfold insert_organization. intros Hins.
  apply bind_Go in Hins as (id' & Hnext & Hins).
  destruct (text_affinity (op_name p)) as [name|]; [|discriminate].
  destruct (select_org_by_slug s (op_slug p)) eqn:Hsel; [|discriminate].
  injection Hins as <- <-. exists name.
  split_and!; try done. by apply select_org_by_slug_nil.
Qed.

Lemma insert_organization_Stop now s p r :
  insert_organization now s p = Stop r →
  r = Uncaught IntegrityError ∨ r = Uncaught OperationalError.
Proof.
  unfold insert_organization, next_rowid.
  destruct (_ <? _); simpl; [|intros [= <-]; by right].
  destruct (text_affinity _); [|intros [= <-]; by left].
  destruct (select_org_by_slug _ _); [discriminate|intros [= <-]; by left].
Qed.

(** The INSERT fails on a slug that is taken, whatever else it carries,
    as soon as a rowid is left. *)
Lemma insert_organization_taken now s p i o :
  organizations s !! i = Some o → o_slug o = op_slug p →
  largest_rowid (organizations_seq s) (organizations s) < int64_max →
  insert_organization now s p = raise IntegrityError.
Proof.
  intros Ho Hslug Hroom. unfold insert_organization.
  rewrite next_rowid_room by done. simpl.
  destruct (text_affinity (op_name p)); [|done].
  destruct (select_org_by_slug s (op_slug p)) eqn:Hsel; [|done].
  exfalso. eapply select_org_by_slug_nil in Hsel; eauto.
Qed.

(** An INSERT never succeeds on a slug that is taken. *)
Lemma insert_organization_taken_Stop now s p i o :
  organizations s !! i = Some o → o_slug o = op_slug p →
  ∃ r, insert_organization now s p = Stop r.
Proof.
  intros Ho Hslug.
  destruct (insert_organization now s p) as [[s' id]|r] eqn:Hins; [|eauto].
  apply insert_organization_Go in Hins as (name & _ & _ & Hfree & _).
  destruct (Hfree i o Ho Hslug).
Qed.

(** The re-read by slug finds the row just inserted. *)
Lemma select_org_by_slug_inserted s id o :
  organizations s !! id = None →
  (∀ i x, organizations s !! i = Some x → o_slug x ≠ o_slug o) →
  fetchone (select_org_by_slug (with_organization s id o) (o_slug o)) = Some (id, o).
Proof.
  intros Hfresh Hfree. unfold select_org_by_slug.
  apply fetchone_filter_unique.
  - apply elem_of_rows_asc. simpl. apply lookup_insert_eq.
  - done.
  - intros [j x] Hin Hslug. apply elem_of_rows_asc in Hin. simpl in *.
    destruct (decide (id = j)) as [->|Hne].
    + rewrite lookup_insert_eq in Hin. congruence.
    + rewrite lookup_insert_ne in Hin by done. destruct (Hfree j x Hin Hslug).
Qed.

Lemma insert_user_Go now s p s' id :
  insert_user now s p = Go (s', id) →
  ∃ name email role,
    text_affinity (up_name p) = Some name ∧
    text_affinity (up_email p) = Some email ∧
    text_affinity (up_role p) = Some role ∧
    next_rowid (users_seq s) (users s) = Go id ∧
    s' = with_user s id (new_user_row now name email role p).
Proof.
  unfold insert_user. intros Hins.
  apply bind_Go in Hins as (id' & Hnext & Hins).
  destruct (text_affinity (up_name p)) as [name|]; [|discriminate].
  destruct (text_affinity (up_email p)) as [email|]; [|discriminate].
  destruct (text_affinity (up_role p)) as [role|]; [|discriminate].
  injection Hins as <- <-. by exists name, email, role.
Qed.

(** The re-read by [last_insert_rowid()] finds the row just inserted,
    joined with the organization its [org_id] names. *)
Lemma select_user_by_rowid_inserted s id u :
  fetchone (select_user_by_rowid (with_user s id u) id) =
  Some (id, u, u_org_id u ≫= λ k, organizations s !! k).
Proof.
  unfold select_user_by_rowid, fetchone.
  assert (fetchone (filter (λ r : Z * user_row, r.1 = id)
                      (rows_asc (users (with_user s id u)))) = Some (id, u)) as Hf.
  { apply fetchone_filter_unique.
    - apply elem_of_rows_asc. simpl. apply lookup_insert_eq.
    - done.
    - intros [j x] Hin Hj. apply elem_of_rows_asc in Hin. simpl in *. subst j.
      rewrite lookup_insert_eq in Hin. congruence. }
  unfold fetchone in Hf.
  destruct (filter _ _) as [|y l]; [discriminate|].
  simpl in *. injection Hf as ->. reflexivity.
Qed.
End StatementFacts.

(** ** Python operations and parameter binding *)

Lemma bind_Stop {A B} (m : flow A) (k : A → flow B) (r : response) :
  m ≫= k = Stop r → m = Stop r ∨ ∃ a, m = Go a ∧ k a = Stop r.
Proof. destruct m as [a|r']; [eauto | intros [= <-]; eauto]. Qed.

(** A sequence of steps that stopped: one case for each step that may have
    stopped it.  A sequence that went through: every step did. *)
Ltac stop_cases H :=
  repeat match type of H with
  | _ ≫= _ = Stop _ => apply bind_Stop in H as [H | (? & _ & H)]
  end.

Ltac go_steps H :=
  repeat match type of H with
  | _ ≫= _ = Go _ => apply bind_Go in H as (? & ? & H)
  end.

Lemma py_get_Stop data k r : py_get data k = Stop r → argument_error r.
Proof. destruct data; simpl; intros [= <-]; unfold argument_error; auto. Qed.

Lemma py_int_Stop v r : py_int v = Stop r → argument_error r.
Proof.
  unfold argument_error.
  destruct v as [|b|n|f|s|l|l]; simpl; try (intros [= <-]; auto; fail).
  - destruct f; intros [= <-]; auto.
  - destruct (py_int_of_str s); intros [= <-]; auto.
Qed.

Lemma bind_int_Stop n r : bind_int n = Stop r → argument_error r.
Proof. unfold bind_int, argument_error. destruct (fits_int64 n); intros [= <-]; auto. Qed.

Lemma bind_param_Stop v r : bind_param v = Stop r → argument_error r.
Proof.
  destruct v as [|b|n|f|s|l|l]; simpl;
    try (intros [= <-]; unfold argument_error; auto; fail).
  - unfold bind_int. destruct (fits_int64 n); simpl; intros [= <-].
    unfold argument_error; auto.
  - destruct f; intros [= <-].
Qed.

Lemma argument_error_not_reply r b c : argument_error r → r ≠ Reply b c.
Proof. unfold argument_error. intros Hr Heq. subst r. intuition discriminate. Qed.

Lemma py_get_object fields k : py_get (JObj fields) k = Go (default JNull (assoc k fields)).
Proof. reflexivity. Qed.

Lemma py_getitem_Go data k v :
  py_getitem data k = Go v → ∃ fields, data = JObj fields ∧ assoc k fields = Some v.
Proof.
  destruct data as [| | | | | |fields]; simpl; try discriminate.
  destruct (assoc k fields) as [x|] eqn:Hx; [intros [= <-]; eauto | discriminate].
Qed.

Lemma py_in_object k fields :
  py_in k (JObj fields) = Go (bool_decide (is_Some (assoc k fields))).
Proof. reflexivity. Qed.

(** The loop over the required fields. *)

Lemma require_object_cons fields k ks :
  require (JObj fields) (k :: ks) =
  match assoc k fields with
  | Some v =>
      if truthy v then require (JObj fields) ks
      else reply (Err (k +:+ " is required")) 400
  | None => reply (Err (k +:+ " is required")) 400
  end.
Proof.
  cbn [require]. rewrite py_in_object.
  destruct (assoc k fields) as [v|] eqn:Hv.
  - rewrite bool_decide_true by eauto. cbn. rewrite Hv. cbn.
    by destruct (truthy v).
  - rewrite bool_decide_false by (intros [? ?]; discriminate). done.
Qed.

Lemma require_object fields ks :
  (∀ k, k ∈ ks → ∃ v, assoc k fields = Some v ∧ truthy v = true) →
  require (JObj fields) ks = Go ().
Proof.
  induction ks as [|k ks IH]; intros Hall; [done|].
  rewrite require_object_cons.
  destruct (Hall k) as (v & -> & ->); [left|].
  apply IH. intros k' Hk'. apply Hall. by right.
Qed.

Lemma require_is_object data k ks :
  require data (k :: ks) = Go () → ∃ fields, data = JObj fields.
Proof.
  cbn [require]. intros Hreq.
  apply bind_Go in Hreq as (present & Hin & Hreq).
  apply bind_Go in Hreq as (missing & Hmiss & Hreq).
  destruct present; cbn in Hmiss.
  - apply bind_Go in Hmiss as (v & Hget & _).
    apply py_getitem_Go in Hget as (fields & -> & _). eauto.
  - injection Hmiss as <-. discriminate.
Qed.

Lemma require_Go data k ks :
  require data (k :: ks) = Go () →
  ∃ fields, data = JObj fields ∧
    ∀ k', k' ∈ k :: ks → ∃ v, assoc k' fields = Some v ∧ truthy v = true.
Proof.
  intros Hreq. destruct (require_is_object _ _ _ Hreq) as [fields ->].
  exists fields. split; [done|].
  revert Hreq. generalize (k :: ks). clear k ks.
  intros ks. induction ks as [|k ks IH]; intros Hreq k' Hk'.
  - by apply elem_of_nil in Hk'.
  - rewrite require_object_cons in Hreq.
    destruct (assoc k fields) as [v|] eqn:Hv; [|discriminate].
    destruct (truthy v) eqn:Htrue; [|discriminate].
    apply elem_of_cons in Hk' as [->|Hk']; [eauto | by apply IH].
Qed.

Lemma require_Stop data ks r :
  require data ks = Stop r →
  r = Uncaught TypeError ∨ ∃ k, k ∈ ks ∧ r = Reply (Err (k +:+ " is required")) 400.
Proof.
  induction ks as [|k ks IH]; [discriminate|]. cbn [require]. intros Hreq.
  apply bind_Stop in Hreq as [Hin | (present & Hin & Hreq)].
  { left. destruct data; cbn in Hin; try discriminate; by injection Hin as <-. }
  apply bind_Stop in Hreq as [Hmiss | (missing & Hmiss & Hreq)].
  - destruct present; cbn in Hmiss; [|discriminate].
    apply bind_Stop in Hmiss as [Hget | (v & _ & ?)]; [|discriminate].
    left. destruct data as [| | | | | |fields]; cbn in Hget;
      try discriminate; try by injection Hget as <-.
    rewrite py_in_object in Hin. injection Hin as Hin.
    apply bool_decide_eq_true in Hin as [v Hv].
    rewrite Hv in Hget. discriminate.
  - destruct missing.
    + injection Hreq as <-. right. exists k. split; [left | done].
    + destruct (IH Hreq) as [->|(k' & Hk' & ->)]; [by left|].
      right. exists k'. split; [by right | done].
Qed.

Section CreateOrganization.
Context {E : Externals}.

Lemma create_organization_params_Stop data slug r :
  create_organization_params data slug = Stop r → argument_error r.
Proof.
  unfold create_organization_params. intros Hp.
  stop_cases Hp;
  eauto using py_get_Stop, py_int_Stop, bind_int_Stop, bind_param_Stop.
  all: discriminate.
Qed.

Lemma create_organization_params_slug data slug p :
  create_organization_params data slug = Go p → op_slug p = slug.
Proof.
  unfold create_organization_params. intros Hp.
  go_steps Hp.
  by injection Hp as <-.
Qed.

(** A request the handler turns down before the INSERT leaves the store
    as it is; the response is the one computed from the body alone. *)
Lemma api_create_organization_rejected now s data r :
  organization_request data = Stop r →
  api_create_organization now s data = (s, r).
Proof.
  unfold organization_request, api_create_organization. intros Hreq.
  destruct (require data _) as [[]|r0]; simpl in *; [|by injection Hreq as <-].
  destruct (py_getitem data "slug") as [raw|r0]; simpl in *; [|by injection Hreq as <-].
  destruct (py_secure_filename raw) as [slug|r0]; simpl in *; [|by injection Hreq as <-].
  pose proof (create_organization_params_Stop data (py_lower slug) r Hreq) as Harg.
  rewrite Hreq. simpl.
  unfold argument_error in Harg. by destruct Harg as [->|[->|[->|[->| ->]]]].
Qed.

(** A request that reaches the INSERT and fails there. *)
Lemma api_create_organization_failed now s data p r :
  organization_request data = Go p →
  insert_organization now s p = Stop r →
  api_create_organization now s data = (s, insert_failure r).
Proof.
  unfold organization_request, api_create_organization. intros Hreq Hins.
  destruct (require data _) as [[]|r0]; simpl in *; [|discriminate].
  destruct (py_getitem data "slug") as [raw|r0]; simpl in *; [|discriminate].
  destruct (py_secure_filename raw) as [slug|r0]; simpl in *; [|discriminate].
  rewrite Hreq. simpl. rewrite Hins.
  by destruct r as [b c|[]].
Qed.

(** A request that reaches the INSERT and succeeds there: the response
    is the new row, read back by its slug. *)
Lemma api_create_organization_inserted now s data p s' id :
  organization_request data = Go p →
  insert_organization now s p = Go (s', id) →
  ∃ name, text_affinity (op_name p) = Some name ∧
    api_create_organization now s data =
      (s', Reply (Row (org_dict (id, new_org_row now name p))) 201).
Proof.
  unfold organization_request, api_create_organization. intros Hreq Hins.
  destruct (require data _) as [[]|r0]; simpl in *; [|discriminate].
  destruct (py_getitem data "slug") as [raw|r0]; simpl in *; [|discriminate].
  destruct (py_secure_filename raw) as [slug|r0]; simpl in *; [|discriminate].
  rewrite Hreq. simpl. rewrite Hins. simpl.
  pose proof (create_organization_params_slug _ _ _ Hreq) as Hslug.
  apply insert_organization_Go in Hins as (name & Hname & Hnext & Hfree & ->).
  exists name. split; [done|].
  apply next_rowid_Go in Hnext as (_ & _ & Hfresh).
  pose proof (select_org_by_slug_inserted s id (new_org_row now name p) Hfresh Hfree) as Hsel.
  simpl in Hsel. rewrite Hslug in Hsel. rewrite Hsel. done.
Qed.

(** The three cases are all there is: a 201 comes from an INSERT. *)
Lemma api_create_organization_201 now s data s' b :
  api_create_organization now s data = (s', Reply b 201) →
  ∃ p id name,
    organization_request data = Go p ∧
    insert_organization now s p = Go (s', id) ∧
    text_affinity (op_name p) = Some name ∧
    b = Row (org_dict (id, new_org_row now name p)).
Proof.
  intros Hrun.
  destruct (organization_request data) as [p|r] eqn:Hreq.
  - destruct (insert_organization now s p) as [[s1 id]|r] eqn:Hins.
    + destruct (api_create_organization_inserted _ _ _ _ _ _ Hreq Hins)
        as (name & Hname & Heq).
      rewrite Heq in Hrun. injection Hrun as <- <-. by exists p, id, name.
    + rewrite (api_create_organization_failed _ _ _ _ _ Hreq Hins) in Hrun.
      by apply insert_organization_Stop in Hins as [->| ->].
  - rewrite (api_create_organization_rejected _ _ _ _ Hreq) in Hrun.
    injection Hrun as _ ->.
    exfalso. unfold organization_request in Hreq.
    apply bind_Stop in Hreq as [Hreq | (? & _ & Hreq)].
    { apply require_Stop in Hreq as [|(k & _ & ?)]; discriminate. }
    apply bind_Stop in Hreq as [Hreq | (raw & _ & Hreq)].
    { destruct data; simpl in Hreq; try discriminate.
      destruct (assoc _ _); discriminate. }
    apply bind_Stop in Hreq as [Hreq | (? & _ & Hreq)].
    { destruct raw; discriminate. }
    apply create_organization_params_Stop in Hreq.
    by eapply argument_error_not_reply.
Qed.
End CreateOrganization.

Section OrganizationRequest.
Context {E : Externals}.

(** What a body that reaches the INSERT looks like, and where the bound
    parameters come from. *)
Lemma organization_request_Go data p :
  organization_request data = Go p →
  ∃ fields name raw,
    data = JObj fields ∧
    assoc "name" fields = Some name ∧ truthy name = true ∧
    assoc "slug" fields = Some (JStr raw) ∧ raw ≠ EmptyString ∧
    bind_param name = Go (op_name p) ∧
    op_slug p = sanitize raw ∧
    (v ← py_int (py_or (default JNull (assoc "max_coordinators" fields)) (JInt 5));
     bind_int v) = Go (op_max_coordinators p) ∧
    (v ← py_int (py_or (default JNull (assoc "pending_requests" fields)) (JInt 0));
     bind_int v) = Go (op_pending_requests p).
Proof.
  unfold organization_request. intros Hreq.
  apply bind_Go in Hreq as ([] & Hrequire & Hreq).
  apply require_Go in Hrequire as (fields & -> & Hfields).
  destruct (Hfields "name"%string) as (name & Hname & Hname_true); [set_solver|].
  destruct (Hfields "slug"%string) as (slugv & Hslug & Hslug_true); [set_solver|].
  apply bind_Go in Hreq as (raw' & Hget & Hreq).
  cbn in Hget. rewrite Hslug in Hget. injection Hget as <-.
  apply bind_Go in Hreq as (slug & Hsan & Hreq).
  apply fmap_Go in Hsan as (san & Hsan & ->).
  destruct slugv as [| | | |raw| |]; try discriminate. injection Hsan as <-.
  exists fields, name, raw. split_and!; try done.
  - intros ->. discriminate.
  - unfold create_organization_params in Hreq. rewrite !py_get_object in Hreq.
    cbn [mbind flow_bind] in Hreq. rewrite Hname in Hreq. cbn [default] in Hreq.
    go_steps Hreq.
    injection Hreq as <-. done.
  - by apply create_organization_params_slug in Hreq.
  - unfold create_organization_params in Hreq. rewrite !py_get_object in Hreq.
    cbn [mbind flow_bind] in Hreq.
    apply bind_Go in Hreq as (mc & Hmc & Hreq).
    go_steps Hreq.
    injection Hreq as <-. cbn [op_max_coordinators].
    rewrite Hmc. done.
  - unfold create_organization_params in Hreq. rewrite !py_get_object in Hreq.
    cbn [mbind flow_bind] in Hreq.
    apply bind_Go in Hreq as (mc & Hmc & Hreq).
    apply bind_Go in Hreq as (pr & Hpr & Hreq).
    go_steps Hreq.
    injection Hreq as <-. cbn [op_pending_requests].
    rewrite Hpr. done.
Qed.
End OrganizationRequest.

(** ** The invariant of the store *)

Section Invariant.
Context {E : Externals}.

Lemma rowids_fit_insert {A} seq (m : gmap Z A) id x :
  rowids_fit seq m → fits_int64 id = true → rowids_fit id (<[id := x]> m).
Proof.
  intros [_ Hkeys] Hid. split; [done|].
  intros i [y Hy]. destruct (decide (id = i)) as [<-|Hne]; [done|].
  rewrite lookup_insert_ne in Hy by done. apply Hkeys. eauto.
Qed.

Lemma unique_slugs_insert (m : gmap Z org_row) id o :
  unique_slugs m →
  (∀ i x, m !! i = Some x → o_slug x ≠ o_slug o) →
  unique_slugs (<[id := o]> m).
Proof.
  intros Huniq Hfree i j a b Ha Hb Hslug.
  destruct (decide (id = i)) as [<-|Hi], (decide (id = j)) as [<-|Hj]; try done.
  - rewrite lookup_insert_eq in Ha. rewrite lookup_insert_ne in Hb by done.
    injection Ha as <-. destruct (Hfree j b Hb). congruence.
  - rewrite lookup_insert_eq in Hb. rewrite lookup_insert_ne in Ha by done.
    injection Hb as <-. destruct (Hfree i a Ha). congruence.
  - rewrite lookup_insert_ne in Ha, Hb by done. eauto.
Qed.

Lemma unique_slugs_set_status (m : gmap Z org_row) st id :
  unique_slugs m → unique_slugs (alter (set_status st) id m).
Proof.
  intros Huniq i j a b Ha Hb Hslug.
  apply lookup_alter_Some in Ha as [(-> & a' & Ha & ->)|[_ Ha]];
    apply lookup_alter_Some in Hb as [(-> & b' & Hb & ->)|[_ Hb]]; eauto.
Qed.

Lemma unique_slugs_insert_organization now s p s' id :
  unique_slugs (organizations s) → insert_organization now s p = Go (s', id) →
  unique_slugs (organizations s').
Proof.
  intros Huniq Hins.
  apply insert_organization_Go in Hins as (name & _ & _ & Hfree & ->).
  by apply unique_slugs_insert.
Qed.

Lemma insert_user_organizations now s p s' id :
  insert_user now s p = Go (s', id) → organizations s' = organizations s.
Proof.
  intros Hins.
  by apply insert_user_Go in Hins as (name & email & role & _ & _ & _ & _ & ->).
Qed.

Lemma wf_insert_organization now s p s' id :
  wf_store s → insert_organization now s p = Go (s', id) → wf_store s'.
Proof.
  intros (Huniq & Horgs & Husers) Hins.
  split; [by eapply unique_slugs_insert_organization|].
  apply insert_organization_Go in Hins as (name & _ & Hnext & _ & ->).
  split; simpl; [|done].
  eapply rowids_fit_insert; [done|]. eapply next_rowid_fits; [apply Horgs | done].
Qed.

Lemma wf_update_org_status s st id : wf_store s → wf_store (update_org_status s st id).
Proof.
  intros (Huniq & [Hseq Hkeys] & Husers).
  split; [by apply unique_slugs_set_status|]. split; simpl; [|done].
  split; [done|]. intros i [a Ha]. apply Hkeys.
  apply lookup_alter_Some in Ha as [(-> & a' & Ha & ->)|[_ Ha]]; eauto.
Qed.

Lemma wf_insert_user now s p s' id :
  wf_store s → insert_user now s p = Go (s', id) → wf_store s'.
Proof.
  intros (Huniq & Horgs & Husers) Hins.
  apply insert_user_Go in Hins as (name & email & role & _ & _ & _ & Hnext & ->).
  split_and!; simpl; [done|done|].
  eapply rowids_fit_insert; [done|]. eapply next_rowid_fits; [apply Husers | done].
Qed.

Lemma api_create_organization_store now s data :
  (api_create_organization now s data).1 = s ∨
  ∃ p id, insert_organization now s p = Go ((api_create_organization now s data).1, id).
Proof.
  destruct (organization_request data) as [p|r] eqn:Hreq.
  - destruct (insert_organization now s p) as [[s1 id]|r] eqn:Hins.
    + destruct (api_create_organization_inserted _ _ _ _ _ _ Hreq Hins) as (name & _ & ->).
      right. by exists p, id.
    + rewrite (api_create_organization_failed _ _ _ _ _ Hreq Hins). by left.
  - rewrite (api_create_organization_rejected _ _ _ _ Hreq). by left.
Qed.

Lemma api_change_org_status_store s org_id data :
  (api_change_org_status s org_id data).1 = s ∨
  ∃ st, (api_change_org_status s org_id data).1 = update_org_status s st org_id.
Proof.
  unfold api_change_org_status.
  destruct (py_in "status" data) as [[]|]; simpl; [|by left..].
  unfold bind_int. destruct (fits_int64 org_id); simpl; [|by left].
  destruct (fetchone (select_org_by_id s (PInt org_id))); [|by left].
  destruct (py_getitem data "status") as [v|]; simpl; [|by left].
  destruct (bind_param v) as [st|]; simpl; [|by left].
  right. exists st. by destruct (fetchone _).
Qed.

Lemma api_create_user_store now s data :
  (api_create_user now s data).1 = s ∨
  ∃ p id, insert_user now s p = Go ((api_create_user now s data).1, id).
Proof.
  unfold api_create_user.
  destruct (require data _) as [[]|]; simpl; [|by left].
  destruct (py_getitem data "org_id") as [v|]; simpl; [|by left].
  destruct (bind_param v) as [q|]; simpl; [|by left].
  destruct (fetchone (select_org_by_id s q)); [|by left].
  destruct (create_user_params data) as [params|]; simpl; [|by left].
  destruct (insert_user now s params) as [[s' id]|] eqn:Hins; simpl; [|by left].
  right. exists params, id. by destruct (fetchone _).
Qed.

(** Every request leaves a store that the schema allows. *)
Lemma handle_wf s req : wf_store s → wf_store (handle s req).1.
Proof.
  intros Hwf. destruct req; simpl; try done.
  - destruct (api_create_organization_store now s data) as [->|(p & id & Hins)];
      [done | by eapply wf_insert_organization].
  - destruct (api_change_org_status_store s org_id data) as [->|(st & ->)];
      [done | by apply wf_update_org_status].
  - destruct (api_create_user_store now s data) as [->|(p & id & Hins)];
      [done | by eapply wf_insert_user].
Qed.

(** [slug] stays unique under every request. *)
Lemma handle_unique_slugs s req :
  unique_slugs (organizations s) → unique_slugs (organizations (handle s req).1).
Proof.
  intros Huniq. destruct req; simpl; try done.
  - destruct (api_create_organization_store now s data) as [->|(p & id & Hins)];
      [done | by eapply unique_slugs_insert_organization].
  - destruct (api_change_org_status_store s org_id data) as [->|(st & ->)];
      [done | by apply unique_slugs_set_status].
  - destruct (api_create_user_store now s data) as [->|(p & id & Hins)];
      [done | by rewrite (insert_user_organizations _ _ _ _ _ Hins)].
Qed.

Lemma seed_organizations_unique_slugs now s s' :
  unique_slugs (organizations s) → seed_organizations now s = Go s' →
  unique_slugs (organizations s').
Proof.
  unfold seed_organizations. intros Huniq.
  destruct (_ =? _)%nat; [|by intros [= <-]].
  intros Hseed.
  apply bind_Go in Hseed as ([s1 i1] & H1 & Hseed).
  apply bind_Go in Hseed as ([s2 i2] & H2 & Hseed).
  injection Hseed as <-. simpl in *.
  eapply unique_slugs_insert_organization; [|done].
  by eapply unique_slugs_insert_organization.
Qed.

Lemma seed_users_organizations now s s' :
  seed_users now s = Go s' → organizations s' = organizations s.
Proof.
  unfold seed_users.
  destruct (_ =? _)%nat; [|by intros [= <-]].
  intros Hseed.
  apply bind_Go in Hseed as ([s1 i1] & H1 & Hseed).
  apply bind_Go in Hseed as ([s2 i2] & H2 & Hseed).
  apply bind_Go in Hseed as ([s3 i3] & H3 & Hseed).
  injection Hseed as <-. simpl in *.
  apply insert_user_organizations in H1, H2, H3. congruence.
Qed.

(** [slug] stays unique under [init_db]. *)
Lemma init_db_unique_slugs now users_now s :
  unique_slugs (organizations s) →
  unique_slugs (organizations (init_db now users_now s).1).
Proof.
  intros Huniq. unfold init_db.
  destruct (seed_organizations now s) as [s1|] eqn:H1; [|done].
  pose proof (seed_organizations_unique_slugs _ _ _ Huniq H1) as Huniq1.
  destruct (seed_users users_now s1) as [s2|] eqn:H2; [|done].
  simpl. by rewrite (seed_users_organizations _ _ _ H2).
Qed.

Lemma seed_organizations_wf now s s' :
  wf_store s → seed_organizations now s = Go s' → wf_store s'.
Proof.
  unfold seed_organizations. intros Hwf.
  destruct (_ =? _)%nat; [|by intros [= <-]].
  intros Hseed.
  apply bind_Go in Hseed as ([s1 i1] & H1 & Hseed).
  apply bind_Go in Hseed as ([s2 i2] & H2 & Hseed).
  injection Hseed as <-. simpl in *.
  eapply wf_insert_organization; [|done]. by eapply wf_insert_organization.
Qed.

Lemma seed_users_wf now s s' :
  wf_store s → seed_users now s = Go s' → wf_store s'.
Proof.
  unfold seed_users. intros Hwf.
  destruct (_ =? _)%nat; [|by intros [= <-]].
  intros Hseed.
  apply bind_Go in Hseed as ([s1 i1] & H1 & Hseed).
  apply bind_Go in Hseed as ([s2 i2] & H2 & Hseed).
  apply bind_Go in Hseed as ([s3 i3] & H3 & Hseed).
  injection Hseed as <-. simpl in *.
  eapply wf_insert_user; [|done]. eapply wf_insert_user; [|done].
  by eapply wf_insert_user.
Qed.

Lemma init_db_wf now users_now s : wf_store s → wf_store (init_db now users_now s).1.
Proof.
  intros Hwf. unfold init_db.
  destruct (seed_organizations now s) as [s1|] eqn:H1; [|done].
  pose proof (seed_organizations_wf _ _ _ Hwf H1) as Hwf1.
  destruct (seed_users users_now s1) as [s2|] eqn:H2; [|done].
  by eapply seed_users_wf.
Qed.

Lemma wf_empty_store : wf_store empty_store.
Proof.
  split_and!; simpl.
  - intros i j a b Ha. by rewrite lookup_empty in Ha.
  - split; [done|]. intros i [x Hx]. by rewrite lookup_empty in Hx.
  - split; [done|]. intros i [x Hx]. by rewrite lookup_empty in Hx.
Qed.
End Invariant.

Lemma wf_seeded_store : wf_store seeded_store.
Proof. apply init_db_wf, wf_empty_store. Qed.

(** * The claims *)

(** ** Creating an organization *)

Section Claims.
Context {E : Externals}.

(** C1.  A create request for an organization that succeeds (201) has a
    non-empty name and a non-empty slug; the slug of the returned row is
    the sanitized form of the submitted slug ([secure_filename], then
    lowercased), and a get-by-id with the id of the returned row returns
    the very same row with 200. *)
Theorem create_organization_slug_and_get now s data s' row :
  wf_store s →
  api_create_organization now s data = (s', Reply (Row row) 201) →
  ∃ fields name raw id,
    data = JObj fields ∧
    assoc "name" fields = Some name ∧ truthy name = true ∧
    assoc "slug" fields = Some (JStr raw) ∧ raw ≠ EmptyString ∧
    assoc "slug" row = Some (SText (py_lower (secure_filename raw))) ∧
    assoc "id" row = Some (SInt id) ∧
    api_get_organization s' id = Reply (Row row) 200.
Proof.
  intros Hwf Hrun.
  apply api_create_organization_201 in Hrun
    as (p & id & stored & Hreq & Hins & Hstored & Hrow).
  injection Hrow as ->.
  apply organization_request_Go in Hreq
    as (fields & name & raw & -> & Hname & Htrue & Hslug & Hraw & _ & Hsan & _).
  exists fields, name, raw, id. split_and!; try done.
  - cbn. by rewrite Hsan.
  - apply insert_organization_Go in Hins as (stored' & Hstored' & Hnext & _ & ->).
    assert (stored' = stored) as -> by congruence.
    assert (fits_int64 id = true) as Hfits.
    { eapply next_rowid_fits; [|done]. apply Hwf. }
    unfold api_get_organization. cbn [bind_param].
    rewrite bind_int_fits by done. cbn [fmap flow_fmap mbind flow_bind].
    rewrite select_org_by_id_int. cbn [organizations with_organization].
    by rewrite lookup_insert_eq.
Qed.
End Claims.

Lemma create_organization_slug_and_get_witness :
  ∃ s' row,
    wf_store seeded_store ∧
    api_create_organization (E := sample_externals) sample_now seeded_store test_u_request
      = (s', Reply (Row row) 201) ∧
    ∃ fields name raw id,
      test_u_request = JObj fields ∧
      assoc "name" fields = Some name ∧ truthy name = true ∧
      assoc "slug" fields = Some (JStr raw) ∧ raw ≠ EmptyString ∧
      assoc "slug" row = Some (SText (py_lower (secure_filename (Externals := sample_externals) raw))) ∧
      assoc "id" row = Some (SInt id) ∧
      api_get_organization (E := sample_externals) s' id = Reply (Row row) 200.
Proof.
  eexists _, _. split; [apply wf_seeded_store|].
  split; [vm_compute; reflexivity|].
  apply (create_organization_slug_and_get (E := sample_externals) sample_now seeded_store).
  - apply wf_seeded_store.
  - vm_compute. reflexivity.
Defined.

(** ** Two organizations with one slug *)

Lemma slug_free_spec s slug :
  slug_free s slug = true →
  ∀ i o, organizations s !! i = Some o → o_slug o ≠ slug.
Proof.
  unfold slug_free. rewrite forallb_forall. intros Hall i o Ho Hslug.
  specialize (Hall (i, o)). simpl in Hall.
  rewrite Hslug, String.eqb_refl in Hall. discriminate Hall.
  apply list_elem_of_In. by apply elem_of_map_to_list.
Qed.

Lemma count_slug_inserted s id o :
  organizations s !! id = None →
  (∀ i x, organizations s !! i = Some x → o_slug x ≠ o_slug o) →
  count_slug (with_organization s id o) (o_slug o) = 1%nat.
Proof.
  intros Hfresh Hfree. unfold count_slug. simpl.
  rewrite map_to_list_insert by done.
  rewrite filter_cons_True by done. simpl. f_equal.
  rewrite fetchone_filter_None; [done|].
  intros [i x] Hin Hslug. apply elem_of_map_to_list in Hin. by eapply Hfree.
Qed.

Section DuplicateSlug.
Context {E : Externals}.

(** C2, amended.  Take two create requests whose slugs are strings that
    sanitize to the same value, the first of which succeeds.  Then the
    second writes nothing and never succeeds, and the store holds exactly
    one organization with that slug.  When the second request passes the
    handler's own checks on the body (required fields, integer coercion,
    parameter binding) and a rowid is left, it fails with the conflict
    message and 400.  Every request of the API, and [init_db], keep the
    slugs of the organizations unique. *)
Theorem create_organization_duplicate_slug
    now1 now2 s data1 data2 s1 row raw1 raw2
    (s0 : store) (req : request) (now0 : string) (users_now0 : nat → string) :
  api_create_organization now1 s data1 = (s1, Reply (Row row) 201) →
  py_getitem data1 "slug" = Go (JStr raw1) →
  py_getitem data2 "slug" = Go (JStr raw2) →
  sanitize raw1 = sanitize raw2 →
  (api_create_organization now2 s1 data2).1 = s1 ∧
  (∀ b, (api_create_organization now2 s1 data2).2 ≠ Reply b 201) ∧
  count_slug s1 (sanitize raw1) = 1%nat ∧
  (∀ p, organization_request data2 = Go p →
        largest_rowid (organizations_seq s1) (organizations s1) < int64_max →
        api_create_organization now2 s1 data2 =
          (s1, Reply (Err "Slug already exists or invalid data") 400)) ∧
  (unique_slugs (organizations s0) →
     unique_slugs (organizations (handle s0 req).1) ∧
     unique_slugs (organizations (init_db now0 users_now0 s0).1)).
Proof.
  intros Hfirst Hraw1 Hraw2 Hsame.
  apply api_create_organization_201 in Hfirst
    as (p1 & id1 & name1 & Hreq1 & Hins1 & Hname1 & _).
  apply organization_request_Go in Hreq1
    as (fields1 & _ & raw1' & -> & _ & _ & Hslug1 & _ & _ & Hsan1 & _).
  cbn in Hraw1. rewrite Hslug1 in Hraw1. injection Hraw1 as ->.
  apply insert_organization_Go in Hins1 as (name1' & Hname1' & Hnext1 & Hfree1 & ->).
  apply next_rowid_Go in Hnext1 as (_ & _ & Hfresh1).
  set (o1 := new_org_row now1 name1' p1).
  set (s1 := with_organization s id1 o1).
  assert (organizations s1 !! id1 = Some o1) as Hrow1 by apply lookup_insert_eq.
  assert (o_slug o1 = sanitize raw1) as Hslug_o1 by done.
  (* the second request, whenever it reaches the INSERT, carries the same slug *)
  assert (∀ p, organization_request data2 = Go p → op_slug p = o_slug o1) as Hp2.
  { intros p Hreq2.
    apply organization_request_Go in Hreq2
      as (fields2 & _ & raw2' & -> & _ & _ & Hslug2 & _ & _ & Hsan2 & _).
    cbn in Hraw2. rewrite Hslug2 in Hraw2. injection Hraw2 as ->. congruence. }
  split_and!.
  - destruct (organization_request data2) as [p|r] eqn:Hreq2.
    + destruct (insert_organization_taken_Stop now2 s1 p id1 o1) as [r Hr];
        [done | by rewrite Hp2 |].
      by rewrite (api_create_organization_failed _ _ _ _ _ Hreq2 Hr).
    + by rewrite (api_create_organization_rejected _ _ _ _ Hreq2).
  - intros b Hb.
    destruct (api_create_organization now2 s1 data2) as [s2 r2] eqn:Hrun. simpl in Hb. subst r2.
    apply api_create_organization_201 in Hrun as (p & id & name & Hreq2 & Hins2 & _).
    destruct (insert_organization_taken_Stop now2 s1 p id1 o1) as [r Hr];
      [done | by rewrite Hp2 | congruence].
  - rewrite <- Hslug_o1. by apply count_slug_inserted.
  - intros p Hreq2 Hroom.
    rewrite (api_create_organization_failed _ _ _ _ (Uncaught IntegrityError) Hreq2); [done|].
    eapply insert_organization_taken; [done | by rewrite Hp2 | done].
  - intros Huniq. split; [by apply handle_unique_slugs | by apply init_db_unique_slugs].
Qed.
End DuplicateSlug.

(** C2 as stated fails: the second of two requests with the same sanitized
    slug can leave with an uncaught [ValueError] (a 500), not with the
    conflict answer. *)
Lemma duplicate_slug_not_always_conflict :
  ∃ s1 row,
    api_create_organization (E := sample_externals) sample_now seeded_store test_u_request
      = (s1, Reply (Row row) 201) ∧
    sanitize (E := sample_externals) "Test U!" = sanitize (E := sample_externals) "TEST u" ∧
    api_create_organization (E := sample_externals) sample_now s1 shouting_request
      = (s1, Uncaught ValueError).
Proof. eexists _, _. split_and!; vm_compute; reflexivity. Qed.

Lemma create_organization_duplicate_slug_witness :
  (api_create_organization (E := sample_externals) sample_now store_with_test_u
     capitals_request).1 = store_with_test_u ∧
  count_slug store_with_test_u "test_u" = 1%nat ∧
  api_create_organization (E := sample_externals) sample_now store_with_test_u capitals_request =
    (store_with_test_u, Reply (Err "Slug already exists or invalid data") 400) ∧
  unique_slugs (organizations (handle (E := sample_externals) seeded_store GetUsers).1).
Proof.
  destruct (create_organization_duplicate_slug (E := sample_externals)
              sample_now sample_now seeded_store test_u_request capitals_request
              store_with_test_u (row_of test_u_outcome.2) "Test U!" "TEST u"
              seeded_store GetUsers sample_now (λ _, sample_now))
    as (Hstore & _ & Hcount & Hconflict & Hinv).
  - vm_compute. reflexivity.
  - reflexivity.
  - reflexivity.
  - vm_compute. reflexivity.
  - split_and!.
    + exact Hstore.
    + exact Hcount.
    + eapply Hconflict; [vm_compute; reflexivity | vm_compute; reflexivity].
    + apply Hinv, wf_seeded_store.
Defined.

(** ** Creating a user *)

Section CreateUser.
Context {E : Externals}.

(** Without a lookup that finds the organization, [api_create_user]
    leaves early: nothing is written and the answer is no 201. *)
Lemma api_create_user_no_reference now s data :
  ¬ references_organization s data →
  ∃ r, api_create_user now s data = (s, r) ∧ ∀ b, r ≠ Reply b 201.
Proof.
  unfold api_create_user, references_organization. intros Hno.
  destruct (require data _) as [[]|r0] eqn:Hreq; simpl.
  2:{ exists r0. split; [done|]. intros b ->.
      apply require_Stop in Hreq as [|(k & _ & ?)]; discriminate. }
  destruct (py_getitem data "org_id") as [v|r0] eqn:Hget; simpl.
  2:{ exists r0. split; [done|]. intros b ->.
      destruct data; simpl in Hget; try discriminate. destruct (assoc _ _); discriminate. }
  destruct (bind_param v) as [p|r0] eqn:Hbind; simpl.
  2:{ exists r0. split; [done|]. intros b ->.
      apply bind_param_Stop in Hbind. by eapply argument_error_not_reply. }
  destruct (fetchone (select_org_by_id s p)) as [row|] eqn:Hsel.
  - destruct Hno. by exists v, p, row.
  - eexists. split; [done|]. discriminate.
Qed.

(** C3, amended.  A create request for a user whose [org_id] references no
    organization inserts nothing and never succeeds.  When the body is an
    object whose [org_id] is absent, falsy, or a value that the lookup can
    bind (null, a boolean, an integer of 64 bits, a float, a string), the
    answer is a 400 with a validation message, never a 404. *)
Theorem create_user_unknown_organization now s data :
  ¬ references_organization s data →
  (api_create_user now s data).1 = s ∧
  (∀ b, (api_create_user now s data).2 ≠ Reply b 201) ∧
  (∀ fields, data = JObj fields →
     (∀ v, assoc "org_id" fields = Some v → truthy v = true → bindable v) →
     ∃ msg, api_create_user now s data = (s, Reply (Err msg) 400) ∧
       (msg = "Organization does not exist"%string ∨
        ∃ k, k ∈ ["name"; "email"; "role"; "org_id"]%string ∧ msg = k +:+ " is required")).
Proof.
  intros Hno.
  destruct (api_create_user_no_reference now s data Hno) as (r & Hrun & Hr).
  split_and!.
  - by rewrite Hrun.
  - rewrite Hrun. apply Hr.
  - clear r Hrun Hr. intros fields -> Hbindable. unfold api_create_user.
    destruct (require (JObj fields) _) as [[]|r0] eqn:Hreq; simpl.
    + apply require_Go in Hreq as (fields' & [= <-] & Hfields).
      destruct (Hfields "org_id"%string) as (v & Hv & Htrue); [set_solver|].
      rewrite Hv. simpl.
      destruct (Hbindable v Hv Htrue) as [p Hp]. rewrite Hp. simpl.
      destruct (fetchone (select_org_by_id s p)) as [row|] eqn:Hsel.
      * destruct Hno. exists v, p, row. simpl. by rewrite Hv.
      * eexists. split; [done|]. by left.
    + pose proof Hreq as Hstop.
      apply require_Stop in Hstop as [->|(k & Hk & ->)].
      * exfalso. clear -Hreq.
        revert Hreq. generalize ["name"; "email"; "role"; "org_id"]%string.
        intros ks. induction ks as [|k ks IH]; [discriminate|].
        rewrite require_object_cons.
        destruct (assoc k fields) as [v|]; [|discriminate].
        destruct (truthy v); [done|discriminate].
      * eexists. split; [done|]. right. eauto.
Qed.
End CreateUser.

(** C3 as stated fails: an [org_id] that references no organization
    because it is larger than any rowid leaves the handler with an
    uncaught [OverflowError] (a 500), not with a 400. *)
Lemma unknown_org_id_not_always_400 :
  ¬ @references_organization sample_externals seeded_store far_org_request ∧
  api_create_user (E := sample_externals) sample_now seeded_store far_org_request
    = (seeded_store, Uncaught OverflowError).
Proof.
  split; [|vm_compute; reflexivity].
  intros (v & p & row & Hget & Hbind & _).
  cbn in Hget. injection Hget as <-. vm_compute in Hbind. discriminate.
Qed.

Lemma create_user_unknown_organization_witness :
  ¬ @references_organization sample_externals seeded_store (JObj unknown_org_fields) ∧
  api_create_user (E := sample_externals) sample_now seeded_store (JObj unknown_org_fields)
    = (seeded_store, Reply (Err "Organization does not exist") 400).
Proof.
  assert (¬ @references_organization sample_externals seeded_store (JObj unknown_org_fields))
    as Hno.
  { intros (v & p & row & Hget & Hbind & Hsel).
    cbn in Hget. injection Hget as <-.
    vm_compute in Hbind. injection Hbind as <-.
    vm_compute in Hsel. discriminate. }
  split; [exact Hno|].
  destruct (create_user_unknown_organization (E := sample_externals)
              sample_now seeded_store (JObj unknown_org_fields) Hno)
    as (_ & _ & Hreply).
  destruct (Hreply unknown_org_fields eq_refl) as (msg & Hrun & _).
  - intros v Hv _. cbn in Hv. injection Hv as <-. eexists. vm_compute. reflexivity.
  - rewrite Hrun. vm_compute in Hrun. injection Hrun as <-. reflexivity.
Defined.

Section CreateUserSucceeds.
Context {E : Externals}.

(** C4, amended.  Take a create request for a user, an object with truthy
    [name], [email] and [role] that a TEXT NOT NULL column can take, with an
    [org_id] for which the lookup finds an organization whose id is
    [int(org_id)], with [phone] and [timezone] absent or bindable, on a
    store with a rowid left for users.  The request succeeds with 201 and
    the [organization_name] of the returned row is the name of that
    organization. *)
Theorem create_user_known_organization now s fields name email role org_id p k o :
  wf_store s →
  assoc "name" fields = Some name → truthy name = true → storable name →
  assoc "email" fields = Some email → truthy email = true → storable email →
  assoc "role" fields = Some role → truthy role = true → storable role →
  assoc "org_id" fields = Some org_id → truthy org_id = true →
  bind_param org_id = Go p → fetchone (select_org_by_id s p) = Some (k, o) →
  py_int org_id = Go k →
  bindable (default JNull (assoc "phone" fields)) →
  bindable (default JNull (assoc "timezone" fields)) →
  largest_rowid (users_seq s) (users s) < int64_max →
  ∃ s' row,
    api_create_user now s (JObj fields) = (s', Reply (Row row) 201) ∧
    assoc "organization_name" row = Some (SText (o_name o)) ∧
    organizations s' = organizations s.
Proof.
  intros Hwf Hname Hname_true (pn & tn & Hpn & Htn) Hemail Hemail_true (pe & te & Hpe & Hte)
    Hrole Hrole_true (pr & tr & Hpr & Htr) Horg Horg_true Hp Hsel Hint
    [pp Hpp] [pt Hpt] Hroom.
  apply select_org_by_id_Some in Hsel as Hfound. destruct Hfound as [_ Ho].
  assert (fits_int64 k = true) as Hk.
  { destruct Hwf as (_ & [_ Hkeys] & _). apply Hkeys. eauto. }
  unfold api_create_user.
  rewrite require_object.
  2:{ intros key Hkey. repeat (apply elem_of_cons in Hkey as [->|Hkey]; [eauto|]).
      by apply elem_of_nil in Hkey. }
  cbn [mbind flow_bind py_getitem]. rewrite Horg. cbn [mbind flow_bind].
  rewrite Hp. cbn [mbind flow_bind]. rewrite Hsel.
  unfold create_user_params. cbn [py_getitem py_get].
  rewrite Horg, Hname, Hemail, Hrole. cbn [mbind flow_bind]. rewrite Hint.
  cbn [mbind flow_bind]. rewrite (bind_int_fits k Hk). cbn [mbind flow_bind].
  rewrite Hpn, Hpe, Hpr. cbn [mbind flow_bind]. rewrite Hpp, Hpt.
  cbn [mbind flow_bind].
  unfold insert_user. rewrite next_rowid_room by done. cbn [mbind flow_bind].
  cbn [up_name up_email up_role]. rewrite Htn, Hte, Htr.
  cbn [run mbind flow_bind].
  rewrite select_user_by_rowid_inserted.
  eexists _, _. split; [reflexivity|]. split; [|done].
  cbn. by rewrite Ho.
Qed.
End CreateUserSucceeds.

(** C4 as stated fails: with the required fields present and the
    organization found, a [phone] that is a JSON object leaves the handler
    with an uncaught binding error (a 500), and nothing is inserted. *)
Lemma known_org_not_always_created :
  @references_organization sample_externals seeded_store structured_phone_request ∧
  api_create_user (E := sample_externals) sample_now seeded_store structured_phone_request
    = (seeded_store, Uncaught BindingError).
Proof.
  split; [|vm_compute; reflexivity].
  eexists _, _, _. split_and!; [reflexivity | reflexivity | vm_compute; reflexivity].
Qed.

Lemma create_user_known_organization_witness :
  ∃ s' row,
    api_create_user (E := sample_externals) sample_now seeded_store (JObj known_org_fields)
      = (s', Reply (Row row) 201) ∧
    assoc "organization_name" row = Some (SText "Massachusetts Institute of Technology").
Proof.
  edestruct (create_user_known_organization (E := sample_externals)
               sample_now seeded_store known_org_fields)
    as (s' & row & Hrun & Hname & _).
  - apply wf_seeded_store.
  - reflexivity.
  - reflexivity.
  - eexists _, _. split; reflexivity.
  - reflexivity.
  - reflexivity.
  - eexists _, _. split; reflexivity.
  - reflexivity.
  - reflexivity.
  - eexists _, _. split; reflexivity.
  - reflexivity.
  - reflexivity.
  - reflexivity.
  - vm_compute. reflexivity.
  - reflexivity.
  - eexists. reflexivity.
  - eexists. reflexivity.
  - vm_compute. reflexivity.
  - exists s', row. split; [exact Hrun | exact Hname].
Defined.

(** ** Changing the status of an organization *)

Section ChangeStatus.
Context {E : Externals}.

Lemma same_but_status_refl o : same_but_status o o.
Proof. by repeat split. Qed.

Lemma same_but_status_set st o : same_but_status o (set_status st o).
Proof. by repeat split. Qed.

(** C6, amended.  A status update for an id that no organization has
    leaves the store as it is, whatever the body.  When the body holds a
    [status] key and the id is an integer of 64 bits, the answer is
    NotFound (404). *)
Theorem change_status_unknown_organization s org_id data :
  organizations s !! org_id = None →
  (api_change_org_status s org_id data).1 = s ∧
  (py_in "status" data = Go true → fits_int64 org_id = true →
     api_change_org_status s org_id data = (s, Reply (Err "Organization not found") 404)).
Proof.
  intros Hnone. unfold api_change_org_status. split.
  - destruct (py_in "status" data) as [[]|]; simpl; [|done..].
    unfold bind_int. destruct (fits_int64 org_id); simpl; [|done].
    by rewrite select_org_by_id_int, Hnone.
  - intros -> Hfits. simpl. rewrite bind_int_fits by done. simpl.
    by rewrite select_org_by_id_int, Hnone.
Qed.

(** C7, amended.  A status update changes nothing but the [status] of the
    row with that id: the users, the other organizations and the other
    columns of that row stay, whatever the body.  On an existing id, with a
    body that is an object whose [status] is a value that can be bound
    (null, a boolean, an integer of 64 bits, a float, a string), the row
    gets the TEXT form of that value as its status (the string itself for
    a string) and is returned, refreshed, with 200. *)
Theorem change_status_frame s org_id data :
  let s' := (api_change_org_status s org_id data).1 in
  (users s' = users s ∧ users_seq s' = users_seq s ∧
   organizations_seq s' = organizations_seq s ∧
   (∀ j, j ≠ org_id → organizations s' !! j = organizations s !! j) ∧
   (∀ o, organizations s !! org_id = Some o →
      ∃ o', organizations s' !! org_id = Some o' ∧ same_but_status o o')) ∧
  (∀ fields v p o,
     wf_store s → organizations s !! org_id = Some o →
     data = JObj fields → assoc "status" fields = Some v → bind_param v = Go p →
     let o' := set_status (text_affinity p) o in
     api_change_org_status s org_id data = (s', Reply (Row (org_dict (org_id, o'))) 200) ∧
     organizations s' !! org_id = Some o' ∧
     assoc "status" (org_dict (org_id, o')) = Some (text_val (text_affinity p)) ∧
     (∀ t, v = JStr t → o_status o' = Some t)).
Proof.
  intros s'. split.
  - subst s'.
    destruct (api_change_org_status_store s org_id data) as [->|(st & ->)].
    + split_and!; try done. intros o Ho. exists o. split; [done|].
      apply same_but_status_refl.
    + split_and!; try done; simpl.
      * intros j Hj. by apply lookup_alter_ne.
      * intros o Ho. exists (set_status (text_affinity st) o). split.
        -- by rewrite lookup_alter_eq, Ho.
        -- apply same_but_status_set.
  - intros fields v p o Hwf Ho -> Hv Hp o'. subst s'.
    assert (fits_int64 org_id = true) as Hfits.
    { destruct Hwf as (_ & [_ Hkeys] & _). apply Hkeys. eauto. }
    assert (api_change_org_status s org_id (JObj fields) =
            (update_org_status s p org_id, Reply (Row (org_dict (org_id, o'))) 200)) as Hrun.
    { unfold api_change_org_status. rewrite py_in_object.
      rewrite bool_decide_true by (rewrite Hv; eauto).
      cbn [negb mbind flow_bind bind_param fmap flow_fmap].
      rewrite bind_int_fits by done. cbn [mbind flow_bind fmap flow_fmap].
      rewrite select_org_by_id_int, Ho. cbn [fmap option_fmap option_map py_getitem].
      rewrite Hv. cbn [mbind flow_bind]. rewrite Hp. cbn [mbind flow_bind].
      rewrite select_org_by_id_int. cbn [organizations update_org_status].
      rewrite lookup_alter_eq, Ho. done. }
    rewrite Hrun. cbn [fst]. split_and!; try done.
    + cbn [organizations update_org_status]. by rewrite lookup_alter_eq, Ho.
    + intros t ->. injection Hp as <-. done.
Qed.
End ChangeStatus.

(** C6 as stated fails: without a [status] key the answer is the
    validation error (400), also for an id that no organization has. *)
Lemma unknown_id_not_always_404 :
  organizations seeded_store !! 99 = None ∧
  api_change_org_status (E := sample_externals) seeded_store 99 no_status_request
    = (seeded_store, Reply (Err "status required") 400).
Proof. split; vm_compute; reflexivity. Qed.

Lemma change_status_unknown_organization_witness :
  (api_change_org_status (E := sample_externals) seeded_store 99 (JObj suspend_fields)).1
    = seeded_store ∧
  api_change_org_status (E := sample_externals) seeded_store 99 (JObj suspend_fields)
    = (seeded_store, Reply (Err "Organization not found") 404).
Proof.
  destruct (change_status_unknown_organization (E := sample_externals)
              seeded_store 99 (JObj suspend_fields)) as [Hstore Hreply].
  - vm_compute. reflexivity.
  - split; [exact Hstore|]. apply Hreply; vm_compute; reflexivity.
Defined.

(** C7 as stated fails: with a [status] key whose value is a list the
    handler leaves with an uncaught binding error (a 500), and no row is
    returned. *)
Lemma status_key_not_always_200 :
  is_Some (organizations seeded_store !! 1) ∧
  py_in "status" status_list_request = Go true ∧
  api_change_org_status (E := sample_externals) seeded_store 1 status_list_request
    = (seeded_store, Uncaught BindingError).
Proof. split_and!; [vm_compute; eauto | reflexivity | vm_compute; reflexivity]. Qed.

Lemma change_status_frame_witness :
  ∃ s' row,
    api_change_org_status (E := sample_externals) seeded_store 1 (JObj suspend_fields)
      = (s', Reply (Row row) 200) ∧
    assoc "status" row = Some (SText "Suspended") ∧
    users s' = users seeded_store.
Proof.
  destruct (change_status_frame (E := sample_externals) seeded_store 1 (JObj suspend_fields))
    as [(Husers & _) Hreply].
  edestruct (Hreply suspend_fields (JStr "Suspended") (PText "Suspended"))
    as (Hrun & _ & Hstatus & _).
  - apply wf_seeded_store.
  - vm_compute. reflexivity.
  - reflexivity.
  - reflexivity.
  - reflexivity.
  - eexists _, _. split; [exact Hrun|]. split; [exact Hstatus | exact Husers].
Defined.

(** ** The numeric fields of a new organization *)

Lemma py_int_raises v r :
  py_int v = Stop r →
  r = Uncaught TypeError ∧ (v = JNull ∨ (∃ l, v = JArr l) ∨ (∃ l, v = JObj l)) ∨
  r = Uncaught ValueError ∧ ((∃ t, v = JStr t ∧ py_int_of_str t = None) ∨ v = JFloat S754_nan) ∨
  r = Uncaught OverflowError ∧ (∃ b, v = JFloat (S754_infinity b)).
Proof.
  destruct v as [|b|n|f|t|l|l]; simpl; try discriminate.
  - intros [= <-]. left. eauto.
  - destruct f; try discriminate; intros [= <-]; [right; right | right; left]; eauto.
  - destruct (py_int_of_str t) eqn:Ht; [discriminate|]. intros [= <-]. right. left. eauto.
  - intros [= <-]. left. eauto 6.
  - intros [= <-]. left. eauto 6.
Qed.

(** [int] skips the whitespace of C around a number, not the separators
    that [str.strip] removes. *)
Example py_int_whitespace :
  py_int (JStr " 12 ") = Go 12 ∧
  py_strip separator_twelve = "12"%string ∧
  py_int (JStr separator_twelve) = raise ValueError.
Proof. split_and!; reflexivity. Qed.

Section Numbers.
Context {E : Externals}.

(** The handler on a body whose required fields are there, up to the
    argument tuple. *)
Lemma api_create_organization_object now s fields name raw :
  assoc "name" fields = Some name → truthy name = true →
  assoc "slug" fields = Some (JStr raw) → raw ≠ EmptyString →
  api_create_organization now s (JObj fields) =
    match create_organization_params (JObj fields) (sanitize raw) with
    | Stop r => (s, r)
    | Go p =>
        match insert_organization now s p with
        | Stop r => (s, insert_failure r)
        | Go (s', id) =>
            (s', Reply (Row (org_dict (id, new_org_row now
                                             (default EmptyString (text_affinity (op_name p))) p))) 201)
        end
    end.
Proof.
  intros Hname Hname_true Hslug Hraw.
  assert (organization_request (JObj fields) =
          create_organization_params (JObj fields) (sanitize raw)) as Hreq.
  { unfold organization_request. rewrite require_object.
    - cbn [mbind flow_bind py_getitem]. by rewrite Hslug.
    - intros k Hk. repeat (apply elem_of_cons in Hk as [->|Hk]; [eauto|]).
      + eexists. split; [done|]. simpl. destruct raw; [done|]. done.
      + by apply elem_of_nil in Hk. }
  destruct (create_organization_params _ _) as [p|r] eqn:Hp.
  - destruct (insert_organization now s p) as [[s' id]|r] eqn:Hins.
    + destruct (api_create_organization_inserted _ _ _ _ _ _ Hreq Hins) as (stored & -> & ->).
      done.
    + by apply (api_create_organization_failed _ _ _ p).
  - by apply api_create_organization_rejected.
Qed.

(** C8, amended.  In the row of a created organization,
    [max_coordinators] is 5 when the submitted value is absent or falsy and
    [int] of it when it is truthy; [pending_requests] likewise with 0.  On a
    body whose name is truthy and whose slug is a non-empty string, a
    truthy value on which [int] fails makes the handler leave with that
    exception,
    uncaught: a [TypeError] for a list or an object, a [ValueError] for a
    string that is no integer or for a NaN, an [OverflowError] for an
    infinity.  Whatever the rest of the body, a truthy value on which
    [int] fails keeps the create from succeeding, and nothing is written.
    Whenever the handler leaves with an exception, no row is written. *)
Theorem create_organization_numbers now s data :
  (∀ s' row,
     api_create_organization now s data = (s', Reply (Row row) 201) →
     ∃ fields id o n m,
       data = JObj fields ∧
       organizations s' !! id = Some o ∧ row = org_dict (id, o) ∧
       o_max_coordinators o = Some n ∧ o_pending_requests o = Some m ∧
       assoc "max_coordinators" row = Some (SInt n) ∧
       assoc "pending_requests" row = Some (SInt m) ∧
       let mc := default JNull (assoc "max_coordinators" fields) in
       let pr := default JNull (assoc "pending_requests" fields) in
       (truthy mc = false → n = 5) ∧ (truthy mc = true → py_int mc = Go n) ∧
       (truthy pr = false → m = 0) ∧ (truthy pr = true → py_int pr = Go m)) ∧
  (∀ fields name raw r,
     data = JObj fields →
     assoc "name" fields = Some name → truthy name = true →
     assoc "slug" fields = Some (JStr raw) → raw ≠ EmptyString →
     let mc := default JNull (assoc "max_coordinators" fields) in
     let pr := default JNull (assoc "pending_requests" fields) in
     (truthy mc = true ∧ py_int mc = Stop r) ∨
     ((∃ n, py_int (py_or mc (JInt 5)) = Go n) ∧ truthy pr = true ∧ py_int pr = Stop r) →
     api_create_organization now s data = (s, r) ∧
     (r = Uncaught TypeError ∨ r = Uncaught ValueError ∨ r = Uncaught OverflowError)) ∧
  (∀ fields r,
     data = JObj fields →
     let mc := default JNull (assoc "max_coordinators" fields) in
     let pr := default JNull (assoc "pending_requests" fields) in
     (truthy mc = true ∧ py_int mc = Stop r) ∨ (truthy pr = true ∧ py_int pr = Stop r) →
     (api_create_organization now s data).1 = s ∧
     ∀ b, (api_create_organization now s data).2 ≠ Reply b 201) ∧
  (∀ e, (api_create_organization now s data).2 = Uncaught e →
        (api_create_organization now s data).1 = s).
Proof.
  split_and!; [| |intros fields r -> mc pr Hfail|].
  - intros s' row Hrun.
    apply api_create_organization_201 in Hrun
      as (p & id & stored & Hreq & Hins & Hstored & [= ->]).
    apply organization_request_Go in Hreq
      as (fields & _ & raw & -> & _ & _ & _ & _ & _ & _ & Hmc & Hpr).
    apply insert_organization_Go in Hins as (stored' & Hstored' & _ & _ & ->).
    assert (stored' = stored) as -> by congruence.
    apply bind_Go in Hmc as (n & Hn & Hbn). apply bind_int_Go in Hbn as [Hbn _].
    apply bind_Go in Hpr as (m & Hm & Hbm). apply bind_int_Go in Hbm as [Hbm _].
    exists fields, id, (new_org_row now stored p), n, m.
    split_and!; try done.
    + apply lookup_insert_eq.
    + simpl. by rewrite Hbn.
    + simpl. by rewrite Hbm.
    + cbn. by rewrite Hbn.
    + cbn. by rewrite Hbm.
    + intros mc pr. unfold py_or in Hn, Hm. fold mc in Hn. fold pr in Hm.
      split_and!; intros Hb.
      * rewrite Hb in Hn. by injection Hn.
      * by rewrite Hb in Hn.
      * rewrite Hb in Hm. by injection Hm.
      * by rewrite Hb in Hm.
  - intros fields name raw r -> Hname Hname_true Hslug Hraw mc pr Hfail.
    rewrite (api_create_organization_object now s fields name raw) by done.
    assert (create_organization_params (JObj fields) (sanitize raw) = Stop r ∧
            (r = Uncaught TypeError ∨ r = Uncaught ValueError ∨ r = Uncaught OverflowError))
      as [-> Hkind]; [|done].
    unfold create_organization_params. rewrite !py_get_object.
    cbn [mbind flow_bind]. fold mc pr.
    destruct Hfail as [[Htrue Hint]|([n Hn] & Htrue & Hint)].
    + unfold py_or. rewrite Htrue, Hint. split; [done|].
      apply py_int_raises in Hint as [[-> _]|[[-> _]|[-> _]]]; auto.
    + rewrite Hn. cbn [mbind flow_bind].
      unfold py_or at 4. rewrite Htrue, Hint. split; [done|].
      apply py_int_raises in Hint as [[-> _]|[[-> _]|[-> _]]]; auto.
  - destruct (organization_request (JObj fields)) as [p|r0] eqn:Hreq.
    + apply organization_request_Go in Hreq
        as (fields' & _ & raw & [= <-] & _ & _ & _ & _ & _ & _ & Hmc & Hpr).
      fold mc in Hmc. fold pr in Hpr. unfold py_or in Hmc, Hpr.
      destruct Hfail as [[Htrue Hint]|[Htrue Hint]].
      * by rewrite Htrue, Hint in Hmc.
      * by rewrite Htrue, Hint in Hpr.
    + rewrite (api_create_organization_rejected _ _ _ _ Hreq). split; [done|].
      intros b Hb. cbn in Hb. subst r0.
      pose proof (api_create_organization_rejected now s _ _ Hreq) as Hrun.
      apply api_create_organization_201 in Hrun as (p & _ & _ & Hreq' & _).
      congruence.
  - intros e He.
    destruct (organization_request data) as [p|r] eqn:Hreq.
    + destruct (insert_organization now s p) as [[s' id]|r] eqn:Hins.
      * destruct (api_create_organization_inserted _ _ _ _ _ _ Hreq Hins) as (stored & _ & Hrun).
        rewrite Hrun in He. discriminate.
      * by rewrite (api_create_organization_failed _ _ _ _ _ Hreq Hins).
    + by rewrite (api_create_organization_rejected _ _ _ _ Hreq).
Qed.
End Numbers.

(** C8 as stated fails: the required fields are checked before the numbers
    are coerced, so a request without a name whose [max_coordinators] is
    no integer is answered 400 with the message of the missing field; no
    exception of [int] is raised. *)
Lemma not_coercible_not_always_type_error :
  py_int (JStr "many") = raise ValueError ∧
  api_create_organization (E := sample_externals) sample_now seeded_store nameless_request
    = (seeded_store, Reply (Err "name is required") 400).
Proof. split; [reflexivity | vm_compute; reflexivity]. Qed.

Lemma create_organization_numbers_witness :
  ∃ s' row,
    api_create_organization (E := sample_externals) sample_now seeded_store twelve_request
      = (s', Reply (Row row) 201) ∧
    assoc "max_coordinators" row = Some (SInt 12) ∧
    assoc "pending_requests" row = Some (SInt 0).
Proof.
  destruct (create_organization_numbers (E := sample_externals)
              sample_now seeded_store twelve_request) as (Hok & _ & _).
  eexists _, _. split; [vm_compute; reflexivity|].
  edestruct Hok as (fields & id & o & n & m & Hdata & _ & _ & _ & _ & Hmc & Hpr & Hn5 & Hn & Hm0 & Hm).
  { vm_compute. reflexivity. }
  injection Hdata as <-.
  specialize (Hn eq_refl). vm_compute in Hn. injection Hn as <-.
  specialize (Hm0 eq_refl). subst m.
  split; [exact Hmc | exact Hpr].
Defined.

(** ** A slug that sanitizes to nothing *)

(** C9.  The handler checks the submitted slug, not the sanitized one.  A
    body whose name is there and whose slug is absent, empty or otherwise
    falsy is refused with 400 and nothing is written.  With werkzeug's
    [secure_filename] the non-empty slug ["!!!"] passes that check although
    it sanitizes to the empty string: on every store that has no
    organization with an empty slug yet, and a rowid left, the create
    succeeds with 201 and the slug stored and returned is the empty
    string. *)
Theorem create_organization_empty_slug nfkd render read now s :
  (∀ fields name,
     assoc "name" fields = Some name → truthy name = true →
     truthy (field fields "slug") = false →
     api_create_organization (E := werkzeug_externals nfkd render read) now s (JObj fields)
       = (s, Reply (Err "slug is required") 400)) ∧
  ((∀ i o, organizations s !! i = Some o → o_slug o ≠ EmptyString) →
   largest_rowid (organizations_seq s) (organizations s) < int64_max →
   ∃ s' row id o,
     truthy (JStr "!!!") = true ∧
     sanitize (E := werkzeug_externals nfkd render read) "!!!" = EmptyString ∧
     api_create_organization (E := werkzeug_externals nfkd render read) now s bangs_request
       = (s', Reply (Row row) 201) ∧
     assoc "slug" row = Some (SText EmptyString) ∧
     row = org_dict (id, o) ∧
     organizations s' !! id = Some o ∧ o_slug o = EmptyString).
Proof.
  set (E := werkzeug_externals nfkd render read). split.
  - intros fields name Hname Hname_true Hslug.
    unfold api_create_organization.
    rewrite require_object_cons, Hname. cbv beta iota.
    rewrite Hname_true, require_object_cons.
    unfold field in Hslug.
    destruct (assoc "slug" fields) as [v|]; [|done].
    cbn [default from_option id] in Hslug. by rewrite Hslug.
  - intros Hfree Hroom. unfold bangs_request.
    rewrite (api_create_organization_object (E := E) now s _ (JStr "Bang") "!!!") by done.
    assert (sanitize (E := E) "!!!" = EmptyString) as -> by reflexivity.
    assert (create_organization_params
              (JObj [("name", JStr "Bang"); ("slug", JStr "!!!")]%string) EmptyString =
            Go {| op_name := PText "Bang"; op_slug := EmptyString;
                  op_support_email := PNull; op_phone := PNull; op_alt_phone := PNull;
                  op_website := PNull; op_max_coordinators := 5;
                  op_timezone := PText "Asia/Kolkata"; op_language := PText "English";
                  op_status := PText "Active"; op_pending_requests := 0 |}) as ->
      by reflexivity.
    unfold insert_organization. rewrite next_rowid_room by done.
    cbn [mbind flow_bind op_name op_slug text_affinity].
    assert (select_org_by_slug s EmptyString = []) as ->
      by by apply select_org_by_slug_nil.
    eexists _, _, _, _. split_and!; try reflexivity.
    cbn. apply lookup_insert_eq.
Qed.

Lemma create_organization_empty_slug_witness :
  api_create_organization
    (E := werkzeug_externals (λ _, EmptyString) (λ _, "real"%string) plain_integer)
    sample_now seeded_store empty_slug_request
    = (seeded_store, Reply (Err "slug is required") 400) ∧
  ∃ s' row,
    api_create_organization
      (E := werkzeug_externals (λ _, EmptyString) (λ _, "real"%string) plain_integer)
      sample_now seeded_store bangs_request = (s', Reply (Row row) 201) ∧
    assoc "slug" row = Some (SText EmptyString).
Proof.
  destruct (create_organization_empty_slug (λ _, EmptyString) (λ _, "real"%string)
              plain_integer sample_now seeded_store) as [Hrefused Haccepted].
  split.
  - apply (Hrefused _ (JStr "Bang")); reflexivity.
  - destruct Haccepted as (s' & row & id & o & _ & _ & Hrun & Hslug & _).
    + apply slug_free_spec. vm_compute. reflexivity.
    + vm_compute. reflexivity.
    + by exists s', row.
Defined.

(** ** LIKE and occurrence *)

Lemma app_cons c (s t : string) : String c s +:+ t = String c (s +:+ t).
Proof. reflexivity. Qed.

Lemma app_empty_l (t : string) : EmptyString +:+ t = t.
Proof. reflexivity. Qed.

Lemma app_empty_r (s : string) : s +:+ EmptyString = s.
Proof. induction s as [|c s IH]; [done|]. by rewrite app_cons, IH. Qed.

Lemma like_percent_nil p :
  pattern_compare (String "%" p) EmptyString = pattern_compare p EmptyString.
Proof. simpl. by rewrite orb_false_r. Qed.

Lemma like_percent_cons p c t :
  pattern_compare (String "%" p) (String c t)
  = pattern_compare p (String c t) || pattern_compare (String "%" p) t.
Proof. reflexivity. Qed.

(** [%] stands for any prefix. *)
Lemma like_percent p t :
  pattern_compare (String "%" p) t = true ↔
  ∃ pre post, t = pre +:+ post ∧ pattern_compare p post = true.
Proof.
  induction t as [|c t IH].
  - rewrite like_percent_nil. split.
    + intros Hp. by exists EmptyString, EmptyString.
    + intros (pre & post & Heq & Hp). destruct pre; [|discriminate].
      rewrite app_empty_l in Heq. by subst post.
  - rewrite like_percent_cons, orb_true_iff, IH. split.
    + intros [Hp|(pre & post & -> & Hp)].
      * by exists EmptyString, (String c t).
      * by exists (String c pre), post.
    + intros (pre & post & Heq & Hp). destruct pre as [|d pre].
      * rewrite app_empty_l in Heq. subst post. by left.
      * rewrite app_cons in Heq. injection Heq as <- ->. right. by exists pre, post.
Qed.

Lemma like_percent_only t : pattern_compare "%" t = true.
Proof.
  apply like_percent. exists t, EmptyString. split; [|done].
  by rewrite app_empty_r.
Qed.

(** A character that is no wildcard stands for itself, up to case. *)
Lemma like_literal c p t :
  is_wildcard c = false →
  pattern_compare (String c p) t =
  match t with
  | EmptyString => false
  | String d t' => Ascii.eqb (like_fold c) (like_fold d) && pattern_compare p t'
  end.
Proof.
  unfold is_wildcard. intros Hc. apply orb_false_elim in Hc as [Hpercent Hunder].
  simpl. rewrite Hpercent. destruct t; [done|]. by rewrite Hunder.
Qed.

(** A query without wildcards stands for itself, up to case. *)
Lemma like_literal_prefix q p t :
  no_wildcard q = true →
  pattern_compare (q +:+ p) t = true ↔
  ∃ mid post, t = mid +:+ post ∧ fold_case mid = fold_case q ∧ pattern_compare p post = true.
Proof.
  revert t. induction q as [|c q IH]; intros t Hq.
  - rewrite app_empty_l. split.
    + intros Hp. by exists EmptyString, t.
    + intros (mid & post & -> & Hmid & Hp). by destruct mid.
  - simpl in Hq. apply andb_prop in Hq as [Hc Hq]. apply negb_true_iff in Hc.
    rewrite app_cons, like_literal by done. destruct t as [|d t].
    + split; [done|]. intros (mid & post & Heq & Hmid & _).
      destruct mid; [discriminate Hmid | discriminate Heq].
    + rewrite andb_true_iff, IH by done. split.
      * intros [Hcd (mid & post & -> & Hmid & Hp)].
        exists (String d mid), post. split_and!; [done| |done].
        simpl. apply Ascii.eqb_eq in Hcd. by rewrite Hcd, Hmid.
      * intros (mid & post & Heq & Hmid & Hp).
        destruct mid as [|e mid]; [discriminate Hmid|].
        rewrite app_cons in Heq. simpl in Hmid.
        injection Heq as <- ->. injection Hmid as Hcd Hmid.
        split; [apply Ascii.eqb_eq; congruence|]. by exists mid, post.
Qed.

(** The pattern of the search handlers, on a query without wildcards. *)
Lemma like_pattern_occurs q t :
  no_wildcard q = true → pattern_compare (like_pattern q) t = true ↔ occurs_in q t.
Proof.
  intros Hq. unfold like_pattern, occurs_in.
  change ("%" +:+ q +:+ "%")%string with (String "%" (q +:+ "%")).
  rewrite like_percent. split.
  - intros (pre & rest & -> & Hrest).
    apply like_literal_prefix in Hrest as (mid & post & -> & Hmid & _); [|done].
    by exists pre, mid, post.
  - intros (pre & mid & post & -> & Hmid).
    exists pre, (mid +:+ post). split; [done|].
    apply like_literal_prefix; [done|]. exists mid, post.
    split_and!; [done | done | apply like_percent_only].
Qed.

(** A string without U+0000 is its own C string. *)
Lemma c_string_no_nul q : no_nul q = true → c_string q = q.
Proof.
  induction q as [|c q IH]; [done|]. cbn [no_nul c_string].
  intros [Hc Hq]%andb_true_iff. apply negb_true_iff in Hc. by rewrite Hc, IH.
Qed.

Lemma no_nul_app q r : no_nul q = true → no_nul r = true → no_nul (q +:+ r) = true.
Proof.
  induction q as [|c q IH]; [done|]. rewrite app_cons. cbn [no_nul].
  intros [Hc Hq]%andb_true_iff Hr. rewrite Hc. by apply IH.
Qed.

Lemma c_string_like_pattern q :
  no_nul q = true → c_string (like_pattern q) = like_pattern q.
Proof.
  intros Hq. apply c_string_no_nul. unfold like_pattern.
  change ("%" +:+ q +:+ "%")%string with (String "%" (q +:+ "%")).
  cbn [no_nul]. apply andb_true_iff. split; [reflexivity|]. by apply no_nul_app.
Qed.

Lemma like_match_occurs q t :
  no_wildcard q = true → no_nul q = true →
  like_match (like_pattern q) (Some t) = true ↔ occurs_in q (c_string t).
Proof.
  intros Hwild Hnul. unfold like_match.
  rewrite c_string_like_pattern by done. by apply like_pattern_occurs.
Qed.

(** ** The two searches *)

Lemma no_elements {A} (l : list A) : (∀ x, x ∉ l) → l = [].
Proof. destruct l as [|x l]; [done|]. intros Hno. destruct (Hno x). left. Qed.

Lemma org_hits_occurs q (r : Z * org_row) :
  no_wildcard q = true → no_nul q = true →
  org_hits (like_pattern q) r = true ↔
  occurs_in q (c_string (o_name r.2)) ∨ occurs_in q (c_string (o_slug r.2)).
Proof.
  intros Hwild Hnul. unfold org_hits.
  by rewrite orb_true_iff, !like_match_occurs.
Qed.

Lemma user_hits_occurs q (j : joined) :
  no_wildcard q = true → no_nul q = true →
  user_hits (like_pattern q) j = true ↔
  occurs_in q (c_string (u_name j.1.2)) ∨ occurs_in q (c_string (u_email j.1.2)) ∨
  ∃ o, j.2 = Some o ∧ occurs_in q (c_string (o_name o)).
Proof.
  intros Hwild Hnul. destruct j as [[id u] o]. unfold user_hits. cbn [fst snd].
  rewrite !orb_true_iff, !like_match_occurs by done.
  destruct o as [o|]; cbn [fmap option_fmap option_map].
  - rewrite like_match_occurs by done. split.
    + intros [[?|?]|?]; eauto.
    + intros [?|[?|(o' & [= <-] & ?)]]; eauto.
  - split.
    + intros [[?|?]|?]; [eauto | eauto | discriminate].
    + intros [?|[?|(o' & ? & ?)]]; [eauto | eauto | discriminate].
Qed.

(** LIKE within and beyond the limit of the pattern. *)
Lemma like_within pattern text :
  (max_like_pattern_length <? utf8_length pattern) = false →
  like pattern text = Go (like_match pattern text).
Proof. intros Hfits. unfold like. by rewrite Hfits. Qed.

Lemma like_beyond pattern text :
  (max_like_pattern_length <? utf8_length pattern) = true →
  like pattern text = raise OperationalError.
Proof. intros Hlong. unfold like. by rewrite Hlong. Qed.

Lemma org_matches_within pattern r :
  (max_like_pattern_length <? utf8_length pattern) = false →
  org_matches pattern r = Go (org_hits pattern r).
Proof. intros Hfits. unfold org_matches. by rewrite !like_within. Qed.

Lemma user_matches_within pattern j :
  (max_like_pattern_length <? utf8_length pattern) = false →
  user_matches pattern j = Go (user_hits pattern j).
Proof.
  intros Hfits. destruct j as [[id u] o]. unfold user_matches.
  by rewrite !like_within.
Qed.

Lemma org_matches_beyond pattern r :
  (max_like_pattern_length <? utf8_length pattern) = true →
  org_matches pattern r = raise OperationalError.
Proof. intros Hlong. unfold org_matches. rewrite !like_beyond by done. reflexivity. Qed.

Lemma user_matches_beyond pattern j :
  (max_like_pattern_length <? utf8_length pattern) = true →
  user_matches pattern j = raise OperationalError.
Proof.
  intros Hlong. destruct j as [[id u] o]. unfold user_matches.
  rewrite !like_beyond by done. reflexivity.
Qed.

(** A WHERE clause whose test cannot fail is a filter; one whose test
    always fails ends the statement at the first row. *)
Lemma select_where_filter {A} (test : A → flow bool) (hit : A → bool) rows :
  (∀ r, test r = Go (hit r)) →
  select_where test rows = Go (filter (λ r, hit r = true) rows).
Proof.
  intros Htest. induction rows as [|r rows IH]; [done|].
  cbn [select_where]. rewrite Htest, IH. cbn [mbind flow_bind].
  destruct (hit r) eqn:Hr.
  - by rewrite filter_cons_True.
  - rewrite filter_cons_False; [done|]. by rewrite Hr.
Qed.

Lemma select_where_error {A} (test : A → flow bool) rows r0 :
  rows ≠ [] → (∀ r, test r = Stop r0) → select_where test rows = Stop r0.
Proof.
  intros Hrows Htest. destruct rows as [|r rows]; [done|].
  cbn [select_where]. by rewrite Htest.
Qed.

Lemma pattern_too_long_not_empty q :
  pattern_too_long q = true → String.eqb q EmptyString = false.
Proof. destruct q; [discriminate | done]. Qed.

(** The search of organizations, case by case. *)
Lemma api_search_orgs_cases s q :
  api_search_orgs s q =
  if String.eqb (query_arg q) EmptyString then api_get_organizations s
  else if pattern_too_long (query_arg q) then
    if bool_decide (organizations s = ∅) then Reply (Rows []) 200
    else Uncaught OperationalError
  else
    Reply (Rows (org_dict <$>
                 filter (λ r, org_hits (like_pattern (query_arg q)) r = true)
                        (rows_desc (organizations s)))) 200.
Proof.
  unfold api_search_orgs, api_get_organizations. cbv zeta.
  destruct (String.eqb (query_arg q) EmptyString); [done|].
  unfold pattern_too_long.
  destruct (max_like_pattern_length <? utf8_length (like_pattern (query_arg q))) eqn:Hlong.
  - case_bool_decide as Hempty.
    + by rewrite (proj2 (rows_desc_nil _) Hempty).
    + rewrite (select_where_error _ _ (Uncaught OperationalError)); [done| |].
      * by rewrite rows_desc_nil.
      * intros r. by apply org_matches_beyond.
  - rewrite (select_where_filter _ (org_hits (like_pattern (query_arg q)))); [done|].
    intros r. by apply org_matches_within.
Qed.

(** The search of users, case by case. *)
Lemma api_search_users_cases s q :
  api_search_users s q =
  if String.eqb (query_arg q) EmptyString then api_get_users s
  else if pattern_too_long (query_arg q) then
    if bool_decide (users s = ∅) then Reply (Rows []) 200
    else Uncaught OperationalError
  else
    Reply (Rows (user_dict <$>
                 filter (λ j, user_hits (like_pattern (query_arg q)) j = true)
                        (join_org s <$> rows_desc (users s)))) 200.
Proof.
  unfold api_search_users, api_get_users. cbv zeta.
  destruct (String.eqb (query_arg q) EmptyString); [done|].
  unfold pattern_too_long.
  destruct (max_like_pattern_length <? utf8_length (like_pattern (query_arg q))) eqn:Hlong.
  - case_bool_decide as Hempty.
    + by rewrite (proj2 (rows_desc_nil _) Hempty).
    + rewrite (select_where_error _ _ (Uncaught OperationalError)); [done| |].
      * intros Hnil. apply fmap_nil_inv in Hnil. by apply rows_desc_nil in Hnil.
      * intros j. by apply user_matches_beyond.
  - rewrite (select_where_filter _ (user_hits (like_pattern (query_arg q)))); [done|].
    intros j. by apply user_matches_within.
Qed.

(** C5, amended.  When the query is absent or empty once trimmed, each
    search returns exactly what its List endpoint returns.  When the
    pattern [%q%] of the trimmed query is within the 50000 bytes SQLite
    takes for a LIKE pattern, both searches answer 200 with an array; if
    moreover the query has neither [%] nor [_] nor U+0000, an organization
    is returned iff the query occurs, up to the case of ASCII letters, in
    its name or its slug, each read up to its first U+0000, and a user iff
    it occurs so in its name, its email or the name of the organization
    joined to it; a query that occurs nowhere gives the empty array.  When
    the pattern is longer, a search of an empty table gives the empty
    array and a search of any other table fails with an uncaught
    [OperationalError]. *)
Theorem search_matches s q :
  (query_arg q = EmptyString →
     api_search_orgs s q = api_get_organizations s ∧
     api_search_users s q = api_get_users s) ∧
  (query_arg q ≠ EmptyString → pattern_too_long (query_arg q) = false →
     (∃ org_rows user_rows,
        api_search_orgs s q = Reply (Rows org_rows) 200 ∧
        api_search_users s q = Reply (Rows user_rows) 200) ∧
     (no_wildcard (query_arg q) = true → no_nul (query_arg q) = true →
      ∃ (found_orgs : list (Z * org_row)) (found_users : list joined),
        api_search_orgs s q = Reply (Rows (org_dict <$> found_orgs)) 200 ∧
        api_search_users s q = Reply (Rows (user_dict <$> found_users)) 200 ∧
        (∀ r, r ∈ found_orgs ↔
           organizations s !! r.1 = Some r.2 ∧
           (occurs_in (query_arg q) (c_string (o_name r.2)) ∨
            occurs_in (query_arg q) (c_string (o_slug r.2)))) ∧
        (∀ j, j ∈ found_users ↔
           (∃ id u, users s !! id = Some u ∧ j = join_org s (id, u)) ∧
           (occurs_in (query_arg q) (c_string (u_name j.1.2)) ∨
            occurs_in (query_arg q) (c_string (u_email j.1.2)) ∨
            ∃ o, j.2 = Some o ∧ occurs_in (query_arg q) (c_string (o_name o)))) ∧
        ((∀ id o, organizations s !! id = Some o →
            ¬ occurs_in (query_arg q) (c_string (o_name o)) ∧
            ¬ occurs_in (query_arg q) (c_string (o_slug o))) →
         api_search_orgs s q = Reply (Rows []) 200))) ∧
  (pattern_too_long (query_arg q) = true →
     api_search_orgs s q =
       (if bool_decide (organizations s = ∅) then Reply (Rows []) 200
        else Uncaught OperationalError) ∧
     api_search_users s q =
       (if bool_decide (users s = ∅) then Reply (Rows []) 200
        else Uncaught OperationalError)).
Proof.
  rewrite api_search_orgs_cases, api_search_users_cases. split_and!.
  - intros Hq. by rewrite Hq.
  - intros Hq Hfits.
    destruct (String.eqb_spec (query_arg q) EmptyString) as [|_]; [done|].
    rewrite Hfits. split; [eauto|]. intros Hwild Hnul.
    assert (∀ r : Z * org_row,
              r ∈ filter (λ r, org_hits (like_pattern (query_arg q)) r = true)
                         (rows_desc (organizations s)) ↔
              organizations s !! r.1 = Some r.2 ∧
              (occurs_in (query_arg q) (c_string (o_name r.2)) ∨
               occurs_in (query_arg q) (c_string (o_slug r.2))))
      as Horgs.
    { intros r. rewrite list_elem_of_filter, elem_of_rows_desc, org_hits_occurs by done.
      tauto. }
    eexists _, _. split_and!; [reflexivity | reflexivity | exact Horgs | |].
    + intros j. rewrite list_elem_of_filter, user_hits_occurs by done.
      rewrite list_elem_of_fmap. split.
      * intros [Hocc ([id u] & -> & Hin)]. apply elem_of_rows_desc in Hin. eauto.
      * intros [(id & u & Hu & ->) Hocc]. split; [done|].
        exists (id, u). split; [done|]. by apply elem_of_rows_desc.
    + intros Hnone.
      rewrite (no_elements (filter _ _)); [done|].
      intros r Hr. apply Horgs in Hr as [Hr Hocc].
      destruct (Hnone _ _ Hr). tauto.
  - intros Hlong. by rewrite (pattern_too_long_not_empty _ Hlong), Hlong.
Qed.

(** C5 as stated fails: LIKE folds the case of ASCII letters and reads [_]
    in the query as a wildcard, so a row is returned although the query is
    a substring neither of its name nor of its slug. *)
Lemma search_is_not_substring_match :
  py_str_contains "MIT" "Massachusetts Institute of Technology" = false ∧
  py_str_contains "MIT" "mit" = false ∧
  py_str_contains "m_t" "Massachusetts Institute of Technology" = false ∧
  py_str_contains "m_t" "mit" = false ∧
  ∃ row,
    api_search_orgs seeded_store (Some "MIT"%string) = Reply (Rows [row]) 200 ∧
    api_search_orgs seeded_store (Some "m_t"%string) = Reply (Rows [row]) 200 ∧
    assoc "name" row = Some (SText "Massachusetts Institute of Technology") ∧
    assoc "slug" row = Some (SText "mit").
Proof.
  split_and!; try reflexivity.
  eexists. split_and!; [vm_compute; reflexivity | vm_compute; reflexivity | reflexivity..].
Qed.

Lemma search_matches_witness :
  api_search_orgs seeded_store (Some "   "%string) = api_get_organizations seeded_store ∧
  api_search_orgs seeded_store (Some "harvard"%string) = Reply (Rows []) 200.
Proof.
  split.
  - destruct (search_matches seeded_store (Some "   "%string)) as (Hlist & _ & _).
    apply Hlist. reflexivity.
  - destruct (search_matches seeded_store (Some "harvard"%string)) as (_ & Hquery & _).
    destruct Hquery as [_ Hquery]; [vm_compute; discriminate | vm_compute; reflexivity |].
    destruct Hquery as (found_orgs & found_users & Horgs & _ & Hiff & _ & _);
      [reflexivity | reflexivity |].
    rewrite Horgs. rewrite (no_elements found_orgs); [done|].
    intros r Hr. apply Hiff in Hr as [Hr Hocc].
    change (query_arg (Some "harvard"%string)) with "harvard"%string in Hocc.
    rewrite <- org_hits_occurs in Hocc by reflexivity.
    apply elem_of_map_to_list' in Hr.
    assert (forallb (λ r, negb (org_hits (like_pattern "harvard") r))
                    (map_to_list (organizations seeded_store)) = true) as Hall
      by (vm_compute; reflexivity).
    rewrite forallb_forall in Hall. apply list_elem_of_In, Hall in Hr.
    rewrite Hocc in Hr. discriminate Hr.
Defined.

(** LIKE at its edges: the query [y], U+0000, [zzz] is read as [y] and
    finds both seeded organizations, whose names end in [y]; a query of
    49998 letters gives a pattern of 50000 bytes and finds nothing; one
    letter more and the search of a table that has a row fails. *)
Example search_edges :
  (∃ mit gitam,
     api_search_orgs seeded_store (Some nul_query) = Reply (Rows [gitam; mit]) 200 ∧
     assoc "slug" mit = Some (SText "mit") ∧ assoc "slug" gitam = Some (SText "gitam")) ∧
  api_search_orgs seeded_store (Some (repeat_char "a" (Z.to_nat 49998))) = Reply (Rows []) 200 ∧
  api_search_orgs seeded_store (Some (repeat_char "a" (Z.to_nat 49999))) = Uncaught OperationalError ∧
  api_search_users seeded_store (Some (repeat_char "a" (Z.to_nat 49999))) = Uncaught OperationalError ∧
  api_search_orgs empty_store (Some (repeat_char "a" (Z.to_nat 49999))) = Reply (Rows []) 200.
Proof.
  split_and!; [|vm_compute; reflexivity..].
  eexists _, _. split_and!; [vm_compute; reflexivity | reflexivity..].
Qed.

(** ** The shape of the rows of a user search *)

(** C10.  With a query that is not empty once trimmed, every row the user
    search returns has [organization_name] and no [organization_slug].
    Rows are returned: when the pattern is within the limit of LIKE the
    search answers 200, and every user in whose name the query occurs
    (the query holding no wildcard and no U+0000) is among the rows.
    Every row of the user list has both fields, and so has every row of a
    search with an absent or empty query, which is the list. *)
Theorem search_users_row_shape s q :
  (query_arg q ≠ EmptyString →
     (∀ b status, api_search_users s q = Reply b status →
        ∃ rows, b = Rows rows ∧ status = 200 ∧
          ∀ row, row ∈ rows →
            is_Some (assoc "organization_name" row) ∧
            assoc "organization_slug" row = None) ∧
     (pattern_too_long (query_arg q) = false →
        ∃ rows, api_search_users s q = Reply (Rows rows) 200 ∧
          ∀ id u, users s !! id = Some u →
            no_wildcard (query_arg q) = true → no_nul (query_arg q) = true →
            occurs_in (query_arg q) (c_string (u_name u)) →
            user_dict (join_org s (id, u)) ∈ rows ∧
            assoc "organization_slug" (user_dict (join_org s (id, u))) = None)) ∧
  (∃ rows, api_get_users s = Reply (Rows rows) 200 ∧
     ∀ row, row ∈ rows →
       is_Some (assoc "organization_name" row) ∧ is_Some (assoc "organization_slug" row)) ∧
  (query_arg q = EmptyString → api_search_users s q = api_get_users s).
Proof.
  assert (∀ rows : list joined, ∀ row, row ∈ user_dict <$> rows →
            is_Some (assoc "organization_name" row) ∧
            assoc "organization_slug" row = None) as Hshape.
  { intros rows row Hrow. apply list_elem_of_fmap in Hrow as ([[id u] o] & -> & _).
    cbn. eauto. }
  rewrite api_search_users_cases. split_and!.
  - intros Hq. destruct (String.eqb_spec (query_arg q) EmptyString) as [|_]; [done|].
    split.
    + intros b status Hrun. destruct (pattern_too_long (query_arg q)).
      * case_bool_decide; [|discriminate]. injection Hrun as <- <-.
        eexists. split_and!; [done | done |]. intros row Hrow. by apply elem_of_nil in Hrow.
      * injection Hrun as <- <-. eexists. split_and!; [done | done |]. apply Hshape.
    + intros ->. eexists. split; [done|]. intros id u Hu Hwild Hnul Hocc. split.
      * apply list_elem_of_fmap. exists (join_org s (id, u)). split; [done|].
        apply list_elem_of_filter. split.
        -- apply user_hits_occurs; [done | done |]. by left.
        -- apply list_elem_of_fmap. exists (id, u). split; [done|].
           by apply elem_of_rows_desc.
      * apply (Hshape [join_org s (id, u)]). cbn [fmap list_fmap]. apply list_elem_of_here.
  - eexists. split; [reflexivity|].
    intros row Hrow. apply list_elem_of_fmap in Hrow as ([[id u] o] & -> & _).
    cbn. eauto.
  - intros Hq. by rewrite Hq.
Qed.

Lemma search_users_row_shape_witness :
  (∃ row,
     api_search_users seeded_store (Some " dave "%string) = Reply (Rows [row]) 200 ∧
     assoc "name" row = Some (SText "Dave Richards") ∧
     assoc "organization_name" row = Some (SText "GITAM Institute of Technology") ∧
     assoc "organization_slug" row = None) ∧
  (∃ listed,
     api_get_users seeded_store = Reply (Rows listed) 200 ∧
     ∀ row, row ∈ listed → is_Some (assoc "organization_slug" row)).
Proof.
  destruct (search_users_row_shape seeded_store (Some " dave "%string))
    as (Hsearch & (listed & Hlist & Hlisted) & _).
  destruct Hsearch as [Hshape _]; [vm_compute; discriminate|].
  split.
  - edestruct Hshape as (rows & Heq & _ & Hrows); [vm_compute; reflexivity|].
    injection Heq as <-.
    eexists. split; [vm_compute; reflexivity|].
    split; [reflexivity|]. split; [reflexivity|].
    apply Hrows, list_elem_of_here.
  - exists listed. split; [exact Hlist|]. intros row Hrow. by apply Hlisted.
Defined.

(** ** The end-to-end run of the specification *)

(** POST [{name: "Test U", slug: "Test U!"}] gives 201 with the slug
    ["test_u"]; GET by the new id gives the same row; PUT
    [{status: "Suspended"}] gives 200 with that status, and GET shows it. *)
Example end_to_end :
  let E := sample_externals in
  ∃ s1 s2 row row',
    api_create_organization sample_now seeded_store test_u_request
      = (s1, Reply (Row row) 201) ∧
    assoc "slug" row = Some (SText "test_u") ∧
    assoc "id" row = Some (SInt 3) ∧
    api_get_organization s1 3 = Reply (Row row) 200 ∧
    api_change_org_status s1 3 (JObj suspend_fields) = (s2, Reply (Row row') 200) ∧
    assoc "status" row' = Some (SText "Suspended") ∧
    api_get_organization s2 3 = Reply (Row row') 200.
Proof. eexists _, _, _, _. split_and!; vm_compute; reflexivity. Qed.

(** * Further properties of the handlers *)

(** ** The order of a listing *)

#[local] Instance id_ge_trans {A} : Transitive (@id_ge A).
Proof. intros a b c. unfold id_ge. lia. Qed.

#[local] Instance id_ge_total {A} : Total (@id_ge A).
Proof. intros a b. unfold id_ge. lia. Qed.

Lemma rows_desc_perm {A} (m : gmap Z A) : rows_desc m ≡ₚ map_to_list m.
Proof. apply merge_sort_Permutation. Qed.

Lemma rows_desc_NoDup_ids {A} (m : gmap Z A) : NoDup (rows_desc m).*1.
Proof. rewrite rows_desc_perm. apply NoDup_fst_map_to_list. Qed.

Lemma strictly_sorted {A} (l : list (Z * A)) :
  StronglySorted id_ge l → NoDup l.*1 → StronglySorted id_gt l.
Proof.
  induction 1 as [|a l Hsorted IH Hall]; intros Hnodup; [constructor|].
  rewrite fmap_cons in Hnodup. apply NoDup_cons in Hnodup as [Hnotin Hnodup].
  constructor; [by apply IH|].
  rewrite Forall_forall in Hall. apply Forall_forall. intros b Hb.
  specialize (Hall b Hb). unfold id_ge, id_gt in *.
  destruct (decide (a.1 = b.1)) as [Heq|]; [|lia].
  destruct Hnotin. rewrite Heq. apply list_elem_of_fmap. eauto.
Qed.

(** A listing is in strictly descending order of id. *)
Lemma rows_desc_sorted {A} (m : gmap Z A) : StronglySorted id_gt (rows_desc m).
Proof.
  apply strictly_sorted; [|apply rows_desc_NoDup_ids].
  apply StronglySorted_merge_sort; apply _.
Qed.

Lemma rows_desc_length {A} (m : gmap Z A) : length (rows_desc m) = size m.
Proof. by rewrite rows_desc_perm, length_map_to_list. Qed.

(** A row above every id of the table comes first in the listing. *)
Lemma rows_desc_insert_top {A} (m : gmap Z A) id x :
  (∀ i, is_Some (m !! i) → i < id) →
  rows_desc (<[id := x]> m) = (id, x) :: rows_desc m.
Proof.
  intros Htop.
  assert (m !! id = None) as Hfresh.
  { destruct (m !! id) eqn:Hid; [|done]. specialize (Htop id). rewrite Hid in Htop.
    assert (id < id) by eauto. lia. }
  apply (StronglySorted_unique_strong id_gt).
  - intros a b _ _. unfold id_gt. lia.
  - apply rows_desc_sorted.
  - constructor; [apply rows_desc_sorted|].
    apply Forall_forall. intros [i y] Hin. apply elem_of_rows_desc in Hin.
    unfold id_gt. simpl in *. apply Htop. eauto.
  - rewrite !rows_desc_perm. by apply map_to_list_insert.
Qed.

(** ** Listings and lookups *)

(** X1.  The list of organizations holds every row of the table once, and
    nothing else, in strictly descending order of id. *)
Theorem list_organizations_complete_sorted s :
  ∃ l,
    api_get_organizations s = Reply (Rows (org_dict <$> l)) 200 ∧
    (∀ r, r ∈ l ↔ organizations s !! r.1 = Some r.2) ∧
    length l = size (organizations s) ∧
    StronglySorted id_gt l.
Proof.
  exists (rows_desc (organizations s)). split_and!.
  - done.
  - apply elem_of_rows_desc.
  - apply rows_desc_length.
  - apply rows_desc_sorted.
Qed.

(** X2.  The list of users holds every user once, in strictly descending
    order of id, each joined to the organization its [org_id] names: a
    user whose [org_id] is NULL or names no organization is listed all the
    same, with a null [organization_name] and [organization_slug]. *)
Theorem list_users_left_join s :
  ∃ l,
    api_get_users s = Reply (Rows (user_dict_slug <$> (join_org s <$> l))) 200 ∧
    (∀ r, r ∈ l ↔ users s !! r.1 = Some r.2) ∧
    length l = size (users s) ∧
    StronglySorted id_gt l ∧
    ∀ id u, (id, u) ∈ l →
      let row := user_dict_slug (join_org s (id, u)) in
      assoc "id" row = Some (SInt id) ∧
      match u_org_id u ≫= (λ k, organizations s !! k) with
      | Some o =>
          assoc "organization_name" row = Some (SText (o_name o)) ∧
          assoc "organization_slug" row = Some (SText (o_slug o))
      | None =>
          assoc "organization_name" row = Some SNull ∧
          assoc "organization_slug" row = Some SNull
      end.
Proof.
  exists (rows_desc (users s)). split_and!.
  - done.
  - apply elem_of_rows_desc.
  - apply rows_desc_length.
  - apply rows_desc_sorted.
  - intros id u _. unfold join_org. cbn [fst snd].
    destruct (u_org_id u ≫= _) as [o|]; cbn; done.
Qed.

(** X3.  Whatever the query, wildcards included, a search either fails
    with an uncaught [OperationalError], which it does exactly when the
    pattern of the query is longer than LIKE takes and the table has a
    row, or returns rows of the corresponding list, in the order of the
    list: the organizations found are a sublist of the listed ones, and
    the users found are the users of a sublist of the listed ones. *)
Theorem search_is_sublist_of_list s q :
  (if pattern_too_long (query_arg q) && negb (bool_decide (organizations s = ∅))
   then api_search_orgs s q = Uncaught OperationalError
   else
     ∃ found listed,
       api_search_orgs s q = Reply (Rows found) 200 ∧
       api_get_organizations s = Reply (Rows listed) 200 ∧
       found `sublist_of` listed) ∧
  (if pattern_too_long (query_arg q) && negb (bool_decide (users s = ∅))
   then api_search_users s q = Uncaught OperationalError
   else
     ∃ (found listed : list joined),
       api_get_users s = Reply (Rows (user_dict_slug <$> listed)) 200 ∧
       (api_search_users s q = Reply (Rows (user_dict <$> found)) 200 ∨
        api_search_users s q = Reply (Rows (user_dict_slug <$> found)) 200) ∧
       found `sublist_of` listed).
Proof.
  rewrite api_search_orgs_cases, api_search_users_cases.
  unfold api_get_organizations, api_get_users.
  destruct (pattern_too_long (query_arg q)) eqn:Hlong.
  - rewrite (pattern_too_long_not_empty _ Hlong). split.
    + case_bool_decide; cbn [andb negb]; [|done].
      eexists [], _. split_and!; [done | done | apply sublist_nil_l].
    + case_bool_decide; cbn [andb negb]; [|done].
      exists [], (join_org s <$> rows_desc (users s)).
      split_and!; [done | by left | apply sublist_nil_l].
  - cbn [andb]. split.
    + destruct (String.eqb _ _).
      * eexists _, _. split_and!; [done | done | done].
      * eexists _, _. split_and!; [done | done |].
        apply fmap_sublist, sublist_filter.
    + destruct (String.eqb _ _).
      * eexists _, _. split_and!; [done | by right | done].
      * eexists _, _. split_and!; [done | by left | apply sublist_filter].
Qed.

Section GetOrganization.
Context {E : Externals}.

Lemma api_get_organization_fits s org_id :
  fits_int64 org_id = true →
  api_get_organization s org_id =
  match organizations s !! org_id with
  | Some o => Reply (Row (org_dict (org_id, o))) 200
  | None => Reply (Err "Organization not found") 404
  end.
Proof.
  intros Hfits. unfold api_get_organization. cbn [bind_param]. unfold bind_int.
  rewrite Hfits. cbn [fmap flow_fmap mbind flow_bind]. rewrite select_org_by_id_int.
  by destruct (organizations s !! org_id).
Qed.

Lemma api_get_organization_overflow s org_id :
  fits_int64 org_id = false → api_get_organization s org_id = Uncaught OverflowError.
Proof.
  intros Hfits. unfold api_get_organization. cbn [bind_param]. unfold bind_int.
  by rewrite Hfits.
Qed.

(** X4.  A get by id answers 200 with the row stored under that id, 404
    when no organization has the id, and leaves with an uncaught
    [OverflowError] when the id is beyond the INTEGERs of SQLite. *)
Theorem get_organization_by_id s org_id :
  api_get_organization s org_id =
  if fits_int64 org_id then
    match organizations s !! org_id with
    | Some o => Reply (Row (org_dict (org_id, o))) 200
    | None => Reply (Err "Organization not found") 404
    end
  else Uncaught OverflowError.
Proof.
  destruct (fits_int64 org_id) eqn:Hfits.
  - rewrite api_get_organization_fits by done.
    by destruct (organizations s !! org_id).
  - by apply api_get_organization_overflow.
Qed.
End GetOrganization.

(** ** Bodies that are turned down *)

Lemma require_first_missing fields ks :
  require (JObj fields) ks =
  match first_missing fields ks with
  | Some k => reply (Err (k +:+ " is required")) 400
  | None => Go ()
  end.
Proof.
  induction ks as [|k ks IH]; [done|].
  rewrite require_object_cons. cbn [first_missing].
  destruct (assoc k fields) as [v|]; [|done]. by destruct (truthy v).
Qed.

Lemma require_scalar data k ks :
  is_scalar_body data = true → require data (k :: ks) = raise TypeError.
Proof. by destruct data. Qed.

Section TurnedDown.
Context {E : Externals}.

(** X5.  On an object body, the create of an organization names the first
    of [name], [slug] that is absent or falsy in a 400, and writes
    nothing: a missing [name] is reported whatever the slug. *)
Theorem create_organization_missing_field now s fields k :
  first_missing fields ["name"; "slug"]%string = Some k →
  api_create_organization now s (JObj fields) = (s, Reply (Err (k +:+ " is required")) 400) ∧
  (truthy (field fields "name") = false → k = "name"%string).
Proof.
  intros Hmiss. split.
  - unfold api_create_organization. by rewrite require_first_missing, Hmiss.
  - unfold field. cbn [first_missing] in Hmiss.
    destruct (assoc "name" fields) as [v|].
    + intros Hv. change (truthy v = false) in Hv. rewrite Hv in Hmiss. by injection Hmiss.
    + intros _. by injection Hmiss.
Qed.

(** X6.  On an object body, the create of a user names the first of
    [name], [email], [role], [org_id] that is absent or falsy in a 400,
    before it looks at the organization, and writes nothing. *)
Theorem create_user_missing_field now s fields k :
  first_missing fields ["name"; "email"; "role"; "org_id"]%string = Some k →
  api_create_user now s (JObj fields) = (s, Reply (Err (k +:+ " is required")) 400).
Proof.
  intros Hmiss. unfold api_create_user. by rewrite require_first_missing, Hmiss.
Qed.

Lemma require_not_object data k ks :
  (∀ fields, data ≠ JObj fields) →
  ∃ r, require data (k :: ks) = Stop r ∧ is_rejection r.
Proof.
  intros Hno. destruct (require data (k :: ks)) as [[]|r] eqn:Hreq.
  - apply require_is_object in Hreq as [fields ->]. by destruct (Hno fields).
  - exists r. split; [done|].
    apply require_Stop in Hreq as [->|(k' & _ & ->)]; [left | right]; eauto.
Qed.

(** X7.  A body that is no JSON object is never accepted by a writing
    handler: nothing is written and the answer is an error message or an
    uncaught exception.  When the body is null, a boolean or a number the
    exception is a [TypeError], raised by the test [key in data]. *)
Theorem non_object_body_rejected now s org_id data :
  (∀ fields, data ≠ JObj fields) →
  (∃ r, api_create_organization now s data = (s, r) ∧ is_rejection r) ∧
  (∃ r, api_create_user now s data = (s, r) ∧ is_rejection r) ∧
  (∃ r, api_change_org_status s org_id data = (s, r) ∧ is_rejection r) ∧
  (is_scalar_body data = true →
     api_create_organization now s data = (s, Uncaught TypeError) ∧
     api_create_user now s data = (s, Uncaught TypeError) ∧
     api_change_org_status s org_id data = (s, Uncaught TypeError)).
Proof.
  intros Hno. split_and!.
  - destruct (require_not_object data "name" ["slug"]%string Hno) as (r & Hreq & Hr).
    exists r. split; [|done]. unfold api_create_organization. by rewrite Hreq.
  - destruct (require_not_object data "name" ["email"; "role"; "org_id"]%string Hno)
      as (r & Hreq & Hr).
    exists r. split; [|done]. unfold api_create_user. by rewrite Hreq.
  - unfold api_change_org_status.
    destruct (py_in "status" data) as [[]|r] eqn:Hin; cbn [mbind flow_bind negb].
    + cbn [bind_param]. unfold bind_int.
      destruct (fits_int64 org_id); cbn [fmap flow_fmap mbind flow_bind run].
      * destruct (fetchone _).
        -- assert (py_getitem data "status" = raise TypeError) as ->.
           { destruct data; try done. by destruct (Hno fields). }
           eexists. split; [done|]. left. eauto.
        -- eexists. split; [done|]. right. eauto.
      * eexists. split; [done|]. left. eauto.
    + eexists. split; [done|]. right. eauto.
    + eexists. split; [done|].
      destruct data; try discriminate; injection Hin as <-; left; eauto.
  - intros Hscalar. by destruct data.
Qed.

(** X8.  A slug that is truthy but no string (a number, [true], a list,
    an object) passes the check of the required fields and makes the
    sanitizer raise: the create of the organization leaves with an
    uncaught [TypeError] and writes nothing. *)
Theorem create_organization_slug_not_string now s fields name slug :
  assoc "name" fields = Some name → truthy name = true →
  assoc "slug" fields = Some slug → truthy slug = true →
  (∀ t, slug ≠ JStr t) →
  api_create_organization now s (JObj fields) = (s, Uncaught TypeError).
Proof.
  intros Hname Hname_true Hslug Hslug_true Hnostr.
  unfold api_create_organization. rewrite require_first_missing.
  cbn [first_missing]. rewrite Hname, Hname_true, Hslug, Hslug_true.
  cbn [mbind flow_bind py_getitem]. rewrite Hslug. cbn [mbind flow_bind].
  destruct slug; try done. by destruct (Hnostr s0).
Qed.
End TurnedDown.

Lemma create_organization_missing_field_witness :
  api_create_organization (E := sample_externals) sample_now seeded_store
    (JObj [("slug", JStr "acme"); ("name", JStr "")]%string)
  = (seeded_store, Reply (Err "name is required") 400).
Proof.
  by apply (create_organization_missing_field (E := sample_externals)
              sample_now seeded_store _ "name").
Defined.

Lemma create_user_missing_field_witness :
  api_create_user (E := sample_externals) sample_now seeded_store
    (JObj [("name", JStr "Ada"); ("email", JStr "ada@example.com");
           ("org_id", JInt 99)]%string)
  = (seeded_store, Reply (Err "role is required") 400).
Proof.
  by apply (create_user_missing_field (E := sample_externals)
              sample_now seeded_store _ "role").
Defined.

Lemma non_object_body_rejected_witness :
  api_create_organization (E := sample_externals) sample_now seeded_store list_body
    = (seeded_store, Uncaught TypeError) ∧
  api_change_org_status (E := sample_externals) seeded_store 99 list_body
    = (seeded_store, Reply (Err "Organization not found") 404).
Proof.
  destruct (non_object_body_rejected (E := sample_externals)
              sample_now seeded_store 99 list_body) as ((r1 & H1 & _) & _ & (r3 & H3 & _) & _).
  - discriminate.
  - split.
    + rewrite H1. vm_compute in H1. by injection H1 as <-.
    + rewrite H3. vm_compute in H3. by injection H3 as <-.
Defined.

Lemma create_organization_slug_not_string_witness :
  api_create_organization (E := sample_externals) sample_now seeded_store
    (JObj [("name", JStr "Acme"); ("slug", JInt 7)]%string)
  = (seeded_store, Uncaught TypeError).
Proof.
  by apply (create_organization_slug_not_string (E := sample_externals)
              sample_now seeded_store _ (JStr "Acme") (JInt 7)).
Defined.

(** ** What a create leaves behind *)

Lemma largest_rowid_above {A} seq (m : gmap Z A) i :
  is_Some (m !! i) → i < largest_rowid seq m + 1.
Proof. intros Hi. pose proof (largest_rowid_key seq m i Hi). lia. Qed.

Section AfterCreate.
Context {E : Externals}.

(** X9.  A create of an organization that succeeds adds one row and
    touches nothing else: the new id is one more than the largest id the
    table holds or has held, so it is above every id in use; the other
    organizations and all users are as before; [created_at] is the time of
    the insert. *)
Theorem create_organization_frame now s data s' row :
  api_create_organization now s data = (s', Reply (Row row) 201) →
  ∃ id o,
    row = org_dict (id, o) ∧
    id = largest_rowid (organizations_seq s) (organizations s) + 1 ∧
    (∀ i, is_Some (organizations s !! i) → i < id) ∧
    organizations s !! id = None ∧
    organizations s' = <[id := o]> (organizations s) ∧
    organizations_seq s' = id ∧
    users s' = users s ∧ users_seq s' = users_seq s ∧
    o_created_at o = Some now.
Proof.
  intros Hrun.
  apply api_create_organization_201 in Hrun
    as (p & id & name & _ & Hins & Hname & [= ->]).
  apply insert_organization_Go in Hins as (name' & Hname' & Hnext & _ & ->).
  assert (name' = name) as -> by congruence.
  apply next_rowid_Go in Hnext as (Hid & _ & Hfresh).
  exists id, (new_org_row now name p). split_and!; try done.
  intros i Hi. rewrite Hid. by apply largest_rowid_above.
Qed.

(** X10.  After a create of an organization that succeeds, the list of
    organizations is the new row followed by the list as it was. *)
Theorem create_organization_then_list now s data s' row :
  api_create_organization now s data = (s', Reply (Row row) 201) →
  ∃ listed,
    api_get_organizations s = Reply (Rows listed) 200 ∧
    api_get_organizations s' = Reply (Rows (row :: listed)) 200.
Proof.
  intros Hrun.
  apply api_create_organization_201 in Hrun
    as (p & id & name & _ & Hins & Hname & [= ->]).
  apply insert_organization_Go in Hins as (name' & Hname' & Hnext & _ & ->).
  assert (name' = name) as -> by congruence.
  apply next_rowid_Go in Hnext as (-> & _ & _).
  eexists. split; [done|]. unfold api_get_organizations.
  cbn [organizations with_organization].
  by rewrite rows_desc_insert_top by (intros i Hi; by apply largest_rowid_above).
Qed.
End AfterCreate.

Lemma create_organization_frame_witness :
  ∃ s' row id o,
    api_create_organization (E := sample_externals) sample_now seeded_store test_u_request
      = (s', Reply (Row row) 201) ∧
    row = org_dict (id, o) ∧ id = 3 ∧
    organizations s' = <[id := o]> (organizations seeded_store) ∧
    users s' = users seeded_store.
Proof.
  edestruct (create_organization_frame (E := sample_externals)
               sample_now seeded_store test_u_request)
    as (id & o & Hrow & Hid & _ & _ & Horgs & _ & Husers & _).
  { vm_compute. reflexivity. }
  eexists _, _, id, o. split; [vm_compute; reflexivity|].
  split_and!; [exact Hrow | | exact Horgs | exact Husers].
  rewrite Hid. vm_compute. reflexivity.
Defined.

Lemma create_organization_then_list_witness :
  ∃ s' row listed,
    api_create_organization (E := sample_externals) sample_now seeded_store test_u_request
      = (s', Reply (Row row) 201) ∧
    api_get_organizations seeded_store = Reply (Rows listed) 200 ∧
    api_get_organizations s' = Reply (Rows (row :: listed)) 200.
Proof.
  edestruct (create_organization_then_list (E := sample_externals)
               sample_now seeded_store test_u_request)
    as (listed & Hold & Hnew).
  { vm_compute. reflexivity. }
  eexists _, _, listed. split; [vm_compute; reflexivity|]. split; [exact Hold | exact Hnew].
Defined.

(** ** Creating users, once and again *)

Lemma largest_rowid_inserted {A} seq (m : gmap Z A) x :
  largest_rowid (largest_rowid seq m + 1) (<[largest_rowid seq m + 1 := x]> m)
  = largest_rowid seq m + 1.
Proof.
  set (id := largest_rowid seq m + 1). apply Z.le_antisymm; [|apply largest_rowid_seq].
  apply foldr_max_bound; [done|].
  intros i Hi. apply list_elem_of_fmap in Hi as ([j y] & -> & Hj).
  apply elem_of_map_to_list in Hj. simpl.
  destruct (decide (id = j)) as [<-|Hne]; [done|].
  rewrite lookup_insert_ne in Hj by done.
  assert (j < id) by (apply largest_rowid_above; eauto). lia.
Qed.

Lemma argument_error_uncaught r : argument_error r → ∃ e, r = Uncaught e.
Proof. unfold argument_error. intros [->|[->|[->|[->| ->]]]]; eauto. Qed.

Lemma py_getitem_Stop data k r : py_getitem data k = Stop r → ∃ e, r = Uncaught e.
Proof.
  destruct data; cbn; try (intros [= <-]; eauto).
  destruct (assoc _ _); [discriminate | intros [= <-]; eauto].
Qed.

Lemma create_user_params_Stop data r :
  create_user_params data = Stop r → ∃ e, r = Uncaught e.
Proof.
  unfold create_user_params. intros Hp. stop_cases Hp;
    eauto using py_getitem_Stop, argument_error_uncaught, py_get_Stop, py_int_Stop,
      bind_int_Stop, bind_param_Stop.
  discriminate.
Qed.

Lemma insert_user_Stop now `{Externals} s p r :
  insert_user now s p = Stop r → ∃ e, r = Uncaught e.
Proof.
  unfold insert_user, next_rowid.
  destruct (_ <? _); cbn; [|intros [= <-]; eauto].
  repeat (destruct (text_affinity _); [|intros [= <-]; eauto]). discriminate.
Qed.

Section CreateUserAgain.
Context {E : Externals}.

Lemma select_org_by_id_same_organizations s s' p :
  organizations s' = organizations s → select_org_by_id s' p = select_org_by_id s p.
Proof. unfold select_org_by_id. by intros ->. Qed.

(** The handler on an object body that has the required fields and whose
    organization is found. *)
Lemma api_create_user_accepted now s fields v p found :
  first_missing fields ["name"; "email"; "role"; "org_id"]%string = None →
  assoc "org_id" fields = Some v → bind_param v = Go p →
  fetchone (select_org_by_id s p) = Some found →
  api_create_user now s (JObj fields) =
    match create_user_params (JObj fields) with
    | Stop r => (s, r)
    | Go params =>
        match insert_user now s params with
        | Stop r => (s, r)
        | Go (s', id) =>
            (s', match users s' !! id with
                 | Some u => Reply (Row (user_dict (join_org s' (id, u)))) 201
                 | None => Uncaught TypeError
                 end)
        end
    end.
Proof.
  intros Hreq Hv Hp Hfound. unfold api_create_user.
  rewrite require_first_missing, Hreq. cbn [mbind flow_bind py_getitem].
  rewrite Hv. cbn [mbind flow_bind]. rewrite Hp. cbn [mbind flow_bind]. rewrite Hfound.
  destruct (create_user_params (JObj fields)) as [params|r]; [|done].
  cbn [mbind flow_bind].
  destruct (insert_user now s params) as [[s' id]|r] eqn:Hins; [|done].
  cbn [mbind flow_bind run].
  apply insert_user_Go in Hins as (name & email & role & _ & _ & _ & _ & ->).
  rewrite select_user_by_rowid_inserted. cbn [users with_user]. rewrite lookup_insert_eq.
  done.
Qed.

(** A 201 of [api_create_user]: what the body held and what was done. *)
Lemma api_create_user_201 now s data s' b :
  api_create_user now s data = (s', Reply b 201) →
  ∃ fields v p found params id u,
    data = JObj fields ∧
    first_missing fields ["name"; "email"; "role"; "org_id"]%string = None ∧
    assoc "org_id" fields = Some v ∧ bind_param v = Go p ∧
    fetchone (select_org_by_id s p) = Some found ∧
    create_user_params (JObj fields) = Go params ∧
    insert_user now s params = Go (s', id) ∧
    next_rowid (users_seq s) (users s) = Go id ∧
    s' = with_user s id u ∧
    u_org_id u = Some (up_org_id params) ∧ u_created_at u = Some now ∧
    b = Row (user_dict (join_org s' (id, u))).
Proof.
  intros Hrun.
  assert (∃ fields, data = JObj fields) as [fields ->].
  { unfold api_create_user in Hrun.
    destruct (require data _) as [[]|r] eqn:Hreq.
    - by apply require_is_object in Hreq.
    - injection Hrun as _ ->.
      apply require_Stop in Hreq as [|(k & _ & ?)]; discriminate. }
  destruct (first_missing fields ["name"; "email"; "role"; "org_id"]%string) as [k|] eqn:Hmiss.
  { unfold api_create_user in Hrun. rewrite require_first_missing, Hmiss in Hrun.
    discriminate. }
  assert (∃ v, assoc "org_id" fields = Some v) as [v Hv].
  { cbn [first_missing] in Hmiss.
    repeat (destruct (assoc _ fields) as [?|]; [destruct (truthy _)|]; try discriminate).
    eauto. }
  pose proof Hrun as Hrun'. unfold api_create_user in Hrun'.
  rewrite require_first_missing, Hmiss in Hrun'. cbn [mbind flow_bind py_getitem] in Hrun'.
  rewrite Hv in Hrun'. cbn [mbind flow_bind] in Hrun'.
  destruct (bind_param v) as [p|r] eqn:Hp.
  2:{ injection Hrun' as _ ->. apply bind_param_Stop in Hp.
      by eapply argument_error_not_reply in Hp. }
  cbn [mbind flow_bind] in Hrun'.
  destruct (fetchone (select_org_by_id s p)) as [found|] eqn:Hfound; [|discriminate].
  clear Hrun'.
  rewrite (api_create_user_accepted now s fields v p found) in Hrun by done.
  destruct (create_user_params (JObj fields)) as [params|r] eqn:Hparams.
  2:{ injection Hrun as _ ->. by apply create_user_params_Stop in Hparams as [e ?]. }
  destruct (insert_user now s params) as [[s1 id]|r] eqn:Hins.
  2:{ injection Hrun as _ ->. by apply insert_user_Stop in Hins as [e ?]. }
  injection Hrun as <- Hb.
  pose proof Hins as Hins'.
  apply insert_user_Go in Hins' as (name & email & role & _ & _ & _ & Hnext & ->).
  cbn [users with_user] in Hb. rewrite lookup_insert_eq in Hb. injection Hb as <-.
  exists fields, v, p, found, params, id, (new_user_row now name email role params).
  split_and!; done.
Qed.

(** X11.  A create of a user that succeeds adds one user and touches
    nothing else: the new id is above every id in use, the other users and
    all organizations are as before, the user's [org_id] is
    [int(org_id)] of the body, and the row returned is the new user joined
    to the organization of that id. *)
Theorem create_user_frame now s data s' row :
  api_create_user now s data = (s', Reply (Row row) 201) →
  ∃ fields v k id u,
    data = JObj fields ∧ assoc "org_id" fields = Some v ∧ py_int v = Go k ∧
    u_org_id u = Some k ∧ u_created_at u = Some now ∧
    row = user_dict (id, u, organizations s !! k) ∧
    id = largest_rowid (users_seq s) (users s) + 1 ∧
    (∀ i, is_Some (users s !! i) → i < id) ∧
    users s !! id = None ∧
    users s' = <[id := u]> (users s) ∧ users_seq s' = id ∧
    organizations s' = organizations s ∧
    organizations_seq s' = organizations_seq s.
Proof.
  intros Hrun.
  apply api_create_user_201 in Hrun
    as (fields & v & p & found & params & id & u & -> & _ & Hv & _ & _ & Hparams &
        _ & Hnext & -> & Horg & Hcreated & [= ->]).
  apply next_rowid_Go in Hnext as (Hid & _ & Hfresh).
  assert (py_int v = Go (up_org_id params)) as Hint.
  { unfold create_user_params in Hparams. cbn [py_getitem] in Hparams.
    rewrite Hv in Hparams. cbn [mbind flow_bind] in Hparams.
    apply bind_Go in Hparams as (k & Hk & Hparams).
    go_steps Hparams. injection Hparams as <-. cbn [up_org_id].
    match goal with H : bind_int k = Go _ |- _ => apply bind_int_Go in H as [-> _] end.
    done. }
  exists fields, v, (up_org_id params), id, u. split_and!; try done.
  - assert (u_org_id u ≫= (λ k, organizations s !! k) =
            organizations s !! up_org_id params) as Hjoin by by rewrite Horg.
    unfold join_org. cbn [fst snd organizations with_user]. by rewrite Hjoin.
  - intros i Hi. rewrite Hid. by apply largest_rowid_above.
Qed.

(** X12.  After a create of a user that succeeds, the list of users is
    the new row, with its [organization_slug] added, followed by the list
    as it was. *)
Theorem create_user_then_list now s data s' row :
  api_create_user now s data = (s', Reply (Row row) 201) →
  ∃ slug listed,
    api_get_users s = Reply (Rows listed) 200 ∧
    api_get_users s' =
      Reply (Rows ((row ++ [("organization_slug"%string, slug)]) :: listed)) 200.
Proof.
  intros Hrun.
  apply api_create_user_201 in Hrun
    as (fields & v & p & found & params & id & u & _ & _ & _ & _ & _ & _ &
        _ & Hnext & -> & _ & _ & [= ->]).
  apply next_rowid_Go in Hnext as (-> & _ & _).
  exists (text_val (o_slug <$> (u_org_id u ≫= λ k, organizations s !! k))).
  eexists. split; [done|]. unfold api_get_users. cbn [users with_user].
  rewrite rows_desc_insert_top by (intros i Hi; by apply largest_rowid_above).
  rewrite !fmap_cons.
  set (s' := with_user s _ u).
  assert (∀ r, join_org s' r = join_org s r) as Hjoin by done.
  rewrite (list_fmap_ext (join_org s') (join_org s)) by (intros; apply Hjoin).
  rewrite Hjoin.
  unfold join_org, user_dict_slug, user_dict. cbn [fst snd].
  reflexivity.
Qed.

(** X13.  Users are not unique in anything but their id: when a create of
    a user has succeeded and a rowid is left, the same body is accepted
    again, and the second row differs from the first in [id], which is one
    more, and in [created_at] only. *)
Theorem create_user_twice now now' s data s' row id :
  api_create_user now s data = (s', Reply (Row row) 201) →
  assoc "id" row = Some (SInt id) →
  id < int64_max →
  ∃ s'' row',
    api_create_user now' s' data = (s'', Reply (Row row') 201) ∧
    assoc "id" row' = Some (SInt (id + 1)) ∧
    assoc "created_at" row' = Some (SText now') ∧
    ∀ k, k ≠ "id"%string → k ≠ "created_at"%string → assoc k row' = assoc k row.
Proof.
  intros Hrun Hid Hroom.
  apply api_create_user_201 in Hrun
    as (fields & v & p & found & params & id0 & u & -> & Hmiss & Hv & Hp & Hfound &
        Hparams & Hins & Hnext & -> & Horg & Hcreated & [= ->]).
  cbn in Hid. injection Hid as ->.
  apply next_rowid_Go in Hnext as (Hid & _ & _).
  rewrite (api_create_user_accepted now' _ fields v p found); try done.
  rewrite Hparams.
  apply insert_user_Go in Hins as (name & email & role & Hname & Hemail & Hrole & _ & Hs).
  apply (f_equal users) in Hs as Hu. cbn [users with_user] in Hu.
  apply (f_equal (lookup id)) in Hu. rewrite !lookup_insert_eq in Hu. injection Hu as ->.
  unfold insert_user. cbn [users_seq users with_user].
  subst id. rewrite next_rowid_room.
  2:{ rewrite largest_rowid_inserted. lia. }
  rewrite largest_rowid_inserted.
  cbn [mbind flow_bind]. rewrite Hname, Hemail, Hrole.
  cbn [users with_user]. rewrite lookup_insert_eq.
  eexists _, _. split; [reflexivity|].
  split; [done|]. split; [done|].
  intros k Hk1 Hk2. unfold join_org. cbn [fst snd organizations with_user new_user_row u_org_id].
  unfold user_dict, user_columns. cbn [app assoc].
  destruct (String.eqb_spec "id" k) as [<-|_]; [done|].
  repeat (destruct (String.eqb _ k); [done|]).
  destruct (String.eqb_spec "created_at" k) as [<-|_]; [done|].
  done.
Qed.
End CreateUserAgain.

Lemma create_user_frame_witness :
  ∃ s' row fields v k id u,
    api_create_user (E := sample_externals) sample_now seeded_store (JObj known_org_fields)
      = (s', Reply (Row row) 201) ∧
    JObj known_org_fields = JObj fields ∧ assoc "org_id" fields = Some v ∧
    py_int v = Go k ∧ u_org_id u = Some k ∧
    users s' = <[id := u]> (users seeded_store) ∧
    organizations s' = organizations seeded_store.
Proof.
  edestruct (create_user_frame (E := sample_externals)
               sample_now seeded_store (JObj known_org_fields))
    as (fields & v & k & id & u & Hdata & Hv & Hk & Horg & _ & _ & _ & _ & _ & Husers & _ & Horgs & _).
  { vm_compute. reflexivity. }
  eexists _, _, fields, v, k, id, u. split; [vm_compute; reflexivity|].
  split_and!; [exact Hdata | exact Hv | exact Hk | exact Horg | exact Husers | exact Horgs].
Defined.

Lemma create_user_then_list_witness :
  ∃ s' row slug listed,
    api_create_user (E := sample_externals) sample_now seeded_store (JObj known_org_fields)
      = (s', Reply (Row row) 201) ∧
    api_get_users seeded_store = Reply (Rows listed) 200 ∧
    api_get_users s' =
      Reply (Rows ((row ++ [("organization_slug"%string, slug)]) :: listed)) 200.
Proof.
  edestruct (create_user_then_list (E := sample_externals)
               sample_now seeded_store (JObj known_org_fields))
    as (slug & listed & Hold & Hnew).
  { vm_compute. reflexivity. }
  eexists _, _, slug, listed. split; [vm_compute; reflexivity|].
  split; [exact Hold | exact Hnew].
Defined.

Lemma create_user_twice_witness :
  ∃ s' row s'' row',
    api_create_user (E := sample_externals) sample_now seeded_store (JObj known_org_fields)
      = (s', Reply (Row row) 201) ∧
    api_create_user (E := sample_externals) "2024-01-03 10:00:00" s' (JObj known_org_fields)
      = (s'', Reply (Row row') 201) ∧
    assoc "id" row = Some (SInt 4) ∧ assoc "id" row' = Some (SInt 5) ∧
    assoc "email" row' = assoc "email" row.
Proof.
  edestruct (create_user_twice (E := sample_externals) sample_now "2024-01-03 10:00:00"
               seeded_store (JObj known_org_fields))
    as (s'' & row' & Hagain & Hid' & _ & Hsame).
  { vm_compute. reflexivity. }
  { reflexivity. }
  { reflexivity. }
  eexists _, _, s'', row'. split; [vm_compute; reflexivity|].
  split_and!; [exact Hagain | reflexivity | exact Hid' | by apply Hsame].
Defined.

(** ** Status updates, once and again *)

Section StatusAgain.
Context {E : Externals}.

(** A status update on an id that fits, held by an organization, with an
    object body whose [status] can be bound. *)
Lemma api_change_org_status_ok s org_id fields v p o :
  fits_int64 org_id = true → organizations s !! org_id = Some o →
  assoc "status" fields = Some v → bind_param v = Go p →
  api_change_org_status s org_id (JObj fields) =
    (update_org_status s p org_id,
     Reply (Row (org_dict (org_id, set_status (text_affinity p) o))) 200).
Proof.
  intros Hfits Ho Hv Hp. unfold api_change_org_status. rewrite py_in_object.
  rewrite bool_decide_true by (rewrite Hv; eauto).
  cbn [negb mbind flow_bind bind_param fmap flow_fmap].
  rewrite bind_int_fits by done. cbn [mbind flow_bind fmap flow_fmap].
  rewrite select_org_by_id_int, Ho. cbn [fmap option_fmap option_map py_getitem].
  rewrite Hv. cbn [mbind flow_bind]. rewrite Hp. cbn [mbind flow_bind].
  rewrite select_org_by_id_int. cbn [organizations update_org_status].
  by rewrite lookup_alter_eq, Ho.
Qed.

(** Every way out of [api_change_org_status]. *)
Lemma api_change_org_status_cases s org_id data :
  (∃ e, api_change_org_status s org_id data = (s, Uncaught e)) ∨
  api_change_org_status s org_id data = (s, Reply (Err "status required") 400) ∨
  api_change_org_status s org_id data = (s, Reply (Err "Organization not found") 404) ∨
  ∃ fields v p o,
    data = JObj fields ∧ assoc "status" fields = Some v ∧ bind_param v = Go p ∧
    fits_int64 org_id = true ∧ organizations s !! org_id = Some o ∧
    api_change_org_status s org_id data =
      (update_org_status s p org_id,
       Reply (Row (org_dict (org_id, set_status (text_affinity p) o))) 200).
Proof.
  unfold api_change_org_status at 1 2 3.
  destruct (py_in "status" data) as [[]|r] eqn:Hin; cbn [mbind flow_bind negb run].
  - cbn [bind_param]. unfold bind_int.
    destruct (fits_int64 org_id) eqn:Hfits; cbn [fmap flow_fmap mbind flow_bind run];
      [|left; eauto].
    rewrite select_org_by_id_int.
    destruct (organizations s !! org_id) as [o|] eqn:Ho; cbn [fmap option_fmap option_map];
      [|by right; right; left].
    destruct (py_getitem data "status") as [v|r] eqn:Hget; cbn [mbind flow_bind run].
    2:{ left. apply py_getitem_Stop in Hget as [e ->]. eauto. }
    apply py_getitem_Go in Hget as (fields & -> & Hv).
    destruct (bind_param v) as [p|r] eqn:Hp; cbn [mbind flow_bind run].
    2:{ left. apply bind_param_Stop, argument_error_uncaught in Hp as [e ->]. eauto. }
    right. right. right. exists fields, v, p, o. split_and!; try done.
    by apply (api_change_org_status_ok s org_id fields v p o).
  - by right; left.
  - left. destruct data; try discriminate; injection Hin as <-; eauto.
Qed.

(** X14.  After a status update that succeeds, a get by the same id
    returns the very row the update returned, and that row carries the
    submitted status: the string itself for a string, null for null. *)
Theorem change_status_then_get s org_id data s' row :
  api_change_org_status s org_id data = (s', Reply (Row row) 200) →
  api_get_organization s' org_id = Reply (Row row) 200 ∧
  assoc "id" row = Some (SInt org_id) ∧
  ∃ fields v,
    data = JObj fields ∧ assoc "status" fields = Some v ∧
    (∀ t, v = JStr t → assoc "status" row = Some (SText t)) ∧
    (v = JNull → assoc "status" row = Some SNull).
Proof.
  intros Hrun.
  destruct (api_change_org_status_cases s org_id data)
    as [[e He]|[He|[He|(fields & v & p & o & -> & Hv & Hp & Hfits & Ho & He)]]];
    rewrite He in Hrun; try discriminate.
  injection Hrun as <- <-. split_and!.
  - rewrite api_get_organization_fits by done. cbn [organizations update_org_status].
    by rewrite lookup_alter_eq, Ho.
  - done.
  - exists fields, v. split_and!; try done.
    + intros t ->. by injection Hp as <-.
    + intros ->. by injection Hp as <-.
Qed.

(** X15.  The last status update wins: when two updates of one
    organization succeed one after the other, the store and the row that
    result are those of the second update alone. *)
Theorem change_status_overwrites s org_id data1 data2 s1 row1 s2 row2 :
  api_change_org_status s org_id data1 = (s1, Reply (Row row1) 200) →
  api_change_org_status s1 org_id data2 = (s2, Reply (Row row2) 200) →
  api_change_org_status s org_id data2 = (s2, Reply (Row row2) 200).
Proof.
  intros Hfirst Hsecond.
  destruct (api_change_org_status_cases s org_id data1)
    as [[e He]|[He|[He|(fields1 & v1 & p1 & o & -> & _ & _ & Hfits & Ho & He)]]];
    rewrite He in Hfirst; try discriminate.
  injection Hfirst as <- _.
  destruct (api_change_org_status_cases (update_org_status s p1 org_id) org_id data2)
    as [[e He2]|[He2|[He2|(fields2 & v2 & p2 & o1 & -> & Hv2 & Hp2 & _ & Ho1 & He2)]]];
    rewrite He2 in Hsecond; try discriminate.
  injection Hsecond as <- <-.
  cbn [organizations update_org_status] in Ho1.
  rewrite lookup_alter_eq, Ho in Ho1. injection Ho1 as <-.
  rewrite (api_change_org_status_ok s org_id fields2 v2 p2 o) by done.
  f_equal. unfold update_org_status. cbn [organizations organizations_seq users users_seq].
  f_equal. rewrite alter_alter_eq. by apply alter_ext.
Qed.

(** X16.  Every request is answered in one of four ways: an uncaught
    exception, or an error message with 400 or 404, and then the store is
    as it was; an array of rows with 200, the store as it was; or one row
    with 200 or 201.  So nothing is ever written by a request that
    fails. *)
Theorem handle_well_shaped s req : well_shaped s (handle s req).
Proof.
  destruct req; cbn [handle]; unfold well_shaped; cbn [fst snd].
  - done.
  - destruct (fits_int64 org_id) eqn:Hfits.
    + rewrite api_get_organization_fits by done.
      destruct (organizations s !! org_id); [by left | by split; [|right]].
    + by rewrite api_get_organization_overflow.
  - destruct (organization_request data) as [p|r] eqn:Hreq.
    + destruct (insert_organization now s p) as [[s' id]|r] eqn:Hins.
      * destruct (api_create_organization_inserted _ _ _ _ _ _ Hreq Hins) as (name & _ & ->).
        by right.
      * rewrite (api_create_organization_failed _ _ _ _ _ Hreq Hins).
        apply insert_organization_Stop in Hins as [->| ->]; cbn; [by split; [|left] | done].
    + rewrite (api_create_organization_rejected _ _ _ _ Hreq). cbn [fst snd].
      unfold organization_request in Hreq.
      apply bind_Stop in Hreq as [Hreq | (? & _ & Hreq)].
      { apply require_Stop in Hreq as [->|(k & _ & ->)]; [done | by split; [|left]]. }
      apply bind_Stop in Hreq as [Hreq | (raw & _ & Hreq)].
      { by apply py_getitem_Stop in Hreq as [e ->]. }
      apply bind_Stop in Hreq as [Hreq | (? & _ & Hreq)].
      { destruct raw; try discriminate; by injection Hreq as <-. }
      by apply create_organization_params_Stop, argument_error_uncaught in Hreq as [e ->].
  - destruct (api_change_org_status_cases s org_id data)
      as [[e ->]|[->|[->|(fields & v & p & o & _ & _ & _ & _ & _ & ->)]]]; cbn;
      [done | by split; [|left] | by split; [|right] | by left].
  - done.
  - unfold api_create_user.
    destruct (require data _) as [[]|r] eqn:Hreq; cbn [mbind flow_bind run fst snd].
    2:{ apply require_Stop in Hreq as [->|(k & _ & ->)]; [done | by split; [|left]]. }
    destruct (py_getitem data "org_id") as [v|r] eqn:Hget; cbn [mbind flow_bind run fst snd].
    2:{ by apply py_getitem_Stop in Hget as [e ->]. }
    destruct (bind_param v) as [p|r] eqn:Hp; cbn [mbind flow_bind run fst snd].
    2:{ by apply bind_param_Stop, argument_error_uncaught in Hp as [e ->]. }
    destruct (fetchone (select_org_by_id s p)); [|by split; [|left]].
    destruct (create_user_params data) as [params|r] eqn:Hparams;
      cbn [mbind flow_bind run fst snd].
    2:{ by apply create_user_params_Stop in Hparams as [e ->]. }
    destruct (insert_user now s params) as [[s' id]|r] eqn:Hins;
      cbn [mbind flow_bind run fst snd].
    2:{ by apply insert_user_Stop in Hins as [e ->]. }
    apply insert_user_Go in Hins as (name & email & role & _ & _ & _ & _ & ->).
    rewrite select_user_by_rowid_inserted. cbn. by right.
  - rewrite api_search_orgs_cases. unfold api_get_organizations.
    destruct (String.eqb _ _); [done|].
    destruct (pattern_too_long _); [|done]. by case_bool_decide.
  - rewrite api_search_users_cases. unfold api_get_users.
    destruct (String.eqb _ _); [done|].
    destruct (pattern_too_long _); [|done]. by case_bool_decide.
Qed.
End StatusAgain.

Lemma change_status_then_get_witness :
  ∃ s' row,
    api_change_org_status (E := sample_externals) seeded_store 2 (JObj suspend_fields)
      = (s', Reply (Row row) 200) ∧
    api_get_organization (E := sample_externals) s' 2 = Reply (Row row) 200 ∧
    assoc "status" row = Some (SText "Suspended").
Proof.
  edestruct (change_status_then_get (E := sample_externals)
               seeded_store 2 (JObj suspend_fields))
    as (Hget & _ & fields & v & Hdata & Hv & Hstr & _).
  { vm_compute. reflexivity. }
  eexists _, _. split; [vm_compute; reflexivity|]. split; [exact Hget|].
  injection Hdata as <-. cbn in Hv. injection Hv as <-. by apply Hstr.
Defined.

Lemma change_status_overwrites_witness :
  let s1 := (api_change_org_status (E := sample_externals) seeded_store 2
               (JObj suspend_fields)).1 in
  api_change_org_status (E := sample_externals) seeded_store 2 (JObj archive_fields)
  = api_change_org_status (E := sample_externals) s1 2 (JObj archive_fields).
Proof.
  intros s1.
  set (out := api_change_org_status (E := sample_externals) s1 2 (JObj archive_fields)).
  assert (out = (out.1, Reply (Row (row_of out.2)) 200)) as Hout
    by (vm_compute; reflexivity).
  rewrite Hout.
  apply (change_status_overwrites (E := sample_externals)
           seeded_store 2 (JObj suspend_fields) (JObj archive_fields)
           s1 (row_of (api_change_org_status (E := sample_externals) seeded_store 2
                         (JObj suspend_fields)).2)).
  - vm_compute. reflexivity.
  - exact Hout.
Defined.

(** ** The text columns of a new organization *)

Lemma create_organization_params_object fields slug p :
  create_organization_params (JObj fields) slug = Go p →
  bind_param (field fields "name") = Go (op_name p) ∧
  bind_param (field fields "support_email") = Go (op_support_email p) ∧
  bind_param (field fields "phone") = Go (op_phone p) ∧
  bind_param (field fields "alt_phone") = Go (op_alt_phone p) ∧
  bind_param (field fields "website") = Go (op_website p) ∧
  bind_param (py_or (field fields "timezone") (JStr "Asia/Kolkata")) = Go (op_timezone p) ∧
  bind_param (py_or (field fields "language") (JStr "English")) = Go (op_language p) ∧
  bind_param (py_or (field fields "status") (JStr "Active")) = Go (op_status p).
Proof.
  unfold create_organization_params, field. rewrite !py_get_object.
  cbn [mbind flow_bind]. intros Hp.
  apply bind_Go in Hp as (mc & _ & Hp). apply bind_Go in Hp as (pr & _ & Hp).
  apply bind_Go in Hp as (p1 & H1 & Hp). apply bind_Go in Hp as (p2 & H2 & Hp).
  apply bind_Go in Hp as (p3 & H3 & Hp). apply bind_Go in Hp as (p4 & H4 & Hp).
  apply bind_Go in Hp as (p5 & H5 & Hp). apply bind_Go in Hp as (bmc & _ & Hp).
  apply bind_Go in Hp as (p6 & H6 & Hp). apply bind_Go in Hp as (p7 & H7 & Hp).
  apply bind_Go in Hp as (p8 & H8 & Hp). apply bind_Go in Hp as (bpr & _ & Hp).
  injection Hp as <-. by split_and!.
Qed.

Section TextColumns.
Context {E : Externals}.

(** The row of a create that succeeded, column by column. *)
Lemma api_create_organization_row now s data s' row :
  api_create_organization now s data = (s', Reply (Row row) 201) →
  ∃ fields p,
    data = JObj fields ∧
    create_organization_params (JObj fields) (op_slug p) = Go p ∧
    assoc "name" row = text_val <$> Some (text_affinity (op_name p)) ∧
    assoc "support_email" row = Some (text_val (text_affinity (op_support_email p))) ∧
    assoc "phone" row = Some (text_val (text_affinity (op_phone p))) ∧
    assoc "alt_phone" row = Some (text_val (text_affinity (op_alt_phone p))) ∧
    assoc "website" row = Some (text_val (text_affinity (op_website p))) ∧
    assoc "timezone" row = Some (text_val (text_affinity (op_timezone p))) ∧
    assoc "language" row = Some (text_val (text_affinity (op_language p))) ∧
    assoc "status" row = Some (text_val (text_affinity (op_status p))).
Proof.
  intros Hrun.
  apply api_create_organization_201 in Hrun
    as (p & id & name & Hreq & _ & Hname & [= ->]).
  pose proof Hreq as Hreq'.
  apply organization_request_Go in Hreq'
    as (fields & _ & raw & -> & _ & _ & Hslug & _ & _ & Hsan & _).
  exists fields, p. split; [done|]. split.
  - unfold organization_request in Hreq.
    apply bind_Go in Hreq as ([] & _ & Hreq).
    apply bind_Go in Hreq as (raw' & Hget & Hreq).
    cbn in Hget. rewrite Hslug in Hget. injection Hget as <-.
    cbn [mbind flow_bind fmap flow_fmap py_secure_filename] in Hreq. by rewrite Hsan.
  - cbn. rewrite Hname. by split_and!.
Qed.

(** X17.  In the row of a created organization, [timezone], [language]
    and [status] are ["Asia/Kolkata"], ["English"] and ["Active"] when the
    submitted value is absent or falsy (null, the empty string, 0, ...),
    and the submitted string when it is a non-empty string. *)
Theorem create_organization_text_defaults now s data s' row key fallback :
  api_create_organization now s data = (s', Reply (Row row) 201) →
  (key, fallback) ∈ [("timezone", "Asia/Kolkata"); ("language", "English");
                     ("status", "Active")]%string →
  ∃ fields,
    data = JObj fields ∧
    (truthy (field fields key) = false → assoc key row = Some (SText fallback)) ∧
    (∀ t, field fields key = JStr t → t ≠ EmptyString → assoc key row = Some (SText t)).
Proof.
  intros Hrun Hkey.
  apply api_create_organization_row in Hrun
    as (fields & p & -> & Hp & _ & _ & _ & _ & _ & Htz & Hlang & Hstatus).
  apply create_organization_params_object in Hp
    as (_ & _ & _ & _ & _ & Hbtz & Hblang & Hbstatus).
  exists fields. split; [done|].
  assert (∀ v d q, bind_param (py_or v (JStr d)) = Go q →
            (truthy v = false → text_val (text_affinity q) = SText d) ∧
            (∀ t, v = JStr t → t ≠ EmptyString → text_val (text_affinity q) = SText t))
    as Hcases.
  { intros v d q Hq. unfold py_or in Hq. split.
    - intros Hv. rewrite Hv in Hq. by injection Hq as <-.
    - intros t -> Ht. cbn in Hq. destruct (String.eqb_spec t EmptyString); [done|].
      by injection Hq as <-. }
  repeat (apply elem_of_cons in Hkey as [[= -> ->]|Hkey]).
  - rewrite Htz. destruct (Hcases _ _ _ Hbtz) as [H1 H2].
    split; [intros ?; f_equal; auto | intros t ? ?; f_equal; eauto].
  - rewrite Hlang. destruct (Hcases _ _ _ Hblang) as [H1 H2].
    split; [intros ?; f_equal; auto | intros t ? ?; f_equal; eauto].
  - rewrite Hstatus. destruct (Hcases _ _ _ Hbstatus) as [H1 H2].
    split; [intros ?; f_equal; auto | intros t ? ?; f_equal; eauto].
  - by apply elem_of_nil in Hkey.
Qed.

(** X18.  In the row of a created organization, [support_email],
    [phone], [alt_phone] and [website] are null when the submitted value
    is absent or null, the submitted string when it is a string (the empty
    string included), and the decimal text of the number when it is an
    integer (the column has TEXT affinity). *)
Theorem create_organization_optional_fields now s data s' row key :
  api_create_organization now s data = (s', Reply (Row row) 201) →
  key ∈ ["support_email"; "phone"; "alt_phone"; "website"]%string →
  ∃ fields,
    data = JObj fields ∧
    (field fields key = JNull → assoc key row = Some SNull) ∧
    (∀ t, field fields key = JStr t → assoc key row = Some (SText t)) ∧
    (∀ n, field fields key = JInt n → assoc key row = Some (SText (Z_to_text n))).
Proof.
  intros Hrun Hkey.
  apply api_create_organization_row in Hrun
    as (fields & p & -> & Hp & _ & Hemail & Hphone & Halt & Hweb & _).
  apply create_organization_params_object in Hp
    as (_ & Hbemail & Hbphone & Hbalt & Hbweb & _).
  exists fields. split; [done|].
  assert (∀ v q, bind_param v = Go q →
            (v = JNull → text_val (text_affinity q) = SNull) ∧
            (∀ t, v = JStr t → text_val (text_affinity q) = SText t) ∧
            (∀ n, v = JInt n → text_val (text_affinity q) = SText (Z_to_text n)))
    as Hcases.
  { intros v q Hq. split_and!.
    - intros ->. by injection Hq as <-.
    - intros t ->. by injection Hq as <-.
    - intros n ->. cbn in Hq. apply fmap_Go in Hq as (k & Hk & ->).
      by apply bind_int_Go in Hk as [-> _]. }
  repeat (apply elem_of_cons in Hkey as [->|Hkey]).
  - rewrite Hemail. destruct (Hcases _ _ Hbemail) as (H1 & H2 & H3).
    split_and!; intros; f_equal; eauto.
  - rewrite Hphone. destruct (Hcases _ _ Hbphone) as (H1 & H2 & H3).
    split_and!; intros; f_equal; eauto.
  - rewrite Halt. destruct (Hcases _ _ Hbalt) as (H1 & H2 & H3).
    split_and!; intros; f_equal; eauto.
  - rewrite Hweb. destruct (Hcases _ _ Hbweb) as (H1 & H2 & H3).
    split_and!; intros; f_equal; eauto.
  - by apply elem_of_nil in Hkey.
Qed.
End TextColumns.

Lemma create_organization_text_defaults_witness :
  ∃ s' row,
    api_create_organization (E := sample_externals) sample_now seeded_store
      numeric_phone_request = (s', Reply (Row row) 201) ∧
    assoc "language" row = Some (SText "English") ∧
    assoc "timezone" row = Some (SText "Europe/Paris") ∧
    assoc "status" row = Some (SText "Active").
Proof.
  eexists _, _. split; [vm_compute; reflexivity|].
  split_and!.
  - edestruct (create_organization_text_defaults (E := sample_externals)
                 sample_now seeded_store numeric_phone_request)
      with (key := "language"%string) as (fields & Hdata & Hdefault & _).
    { vm_compute. reflexivity. }
    { rewrite !elem_of_cons. auto. }
    injection Hdata as <-. apply Hdefault. reflexivity.
  - edestruct (create_organization_text_defaults (E := sample_externals)
                 sample_now seeded_store numeric_phone_request)
      with (key := "timezone"%string) as (fields & Hdata & _ & Hgiven).
    { vm_compute. reflexivity. }
    { rewrite !elem_of_cons. auto. }
    injection Hdata as <-. apply Hgiven; [reflexivity | discriminate].
  - edestruct (create_organization_text_defaults (E := sample_externals)
                 sample_now seeded_store numeric_phone_request)
      with (key := "status"%string) as (fields & Hdata & Hdefault & _).
    { vm_compute. reflexivity. }
    { rewrite !elem_of_cons. auto. }
    injection Hdata as <-. apply Hdefault. reflexivity.
Defined.

Lemma create_organization_optional_fields_witness :
  ∃ s' row,
    api_create_organization (E := sample_externals) sample_now seeded_store
      numeric_phone_request = (s', Reply (Row row) 201) ∧
    assoc "phone" row = Some (SText "5551234") ∧
    assoc "website" row = Some SNull.
Proof.
  eexists _, _. split; [vm_compute; reflexivity|].
  split.
  - edestruct (create_organization_optional_fields (E := sample_externals)
                 sample_now seeded_store numeric_phone_request)
      with (key := "phone"%string) as (fields & Hdata & _ & _ & Hint).
    { vm_compute. reflexivity. }
    { rewrite !elem_of_cons. auto. }
    injection Hdata as <-. apply (Hint 5551234). reflexivity.
  - edestruct (create_organization_optional_fields (E := sample_externals)
                 sample_now seeded_store numeric_phone_request)
      with (key := "website"%string) as (fields & Hdata & Hnull & _).
    { vm_compute. reflexivity. }
    { rewrite !elem_of_cons. auto. }
    injection Hdata as <-. apply Hnull. reflexivity.
Defined.

(** ** [init_db] *)

Section InitDb.
Context {E : Externals}.

Lemma insert_organization_room now s p name :
  text_affinity (op_name p) = Some name →
  largest_rowid (organizations_seq s) (organizations s) < int64_max →
  (∀ i o, organizations s !! i = Some o → o_slug o ≠ op_slug p) →
  insert_organization now s p
  = Go (with_organization s
          (largest_rowid (organizations_seq s) (organizations s) + 1)
          (new_org_row now name p),
        largest_rowid (organizations_seq s) (organizations s) + 1).
Proof.
  intros Hname Hroom Hfree. unfold insert_organization.
  rewrite next_rowid_room by done. cbn [mbind flow_bind]. rewrite Hname.
  apply select_org_by_slug_nil in Hfree. by rewrite Hfree.
Qed.

Lemma insert_user_room now s p name email role :
  text_affinity (up_name p) = Some name →
  text_affinity (up_email p) = Some email →
  text_affinity (up_role p) = Some role →
  largest_rowid (users_seq s) (users s) < int64_max →
  insert_user now s p
  = Go (with_user s (largest_rowid (users_seq s) (users s) + 1)
          (new_user_row now name email role p),
        largest_rowid (users_seq s) (users s) + 1).
Proof.
  intros Hname Hemail Hrole Hroom. unfold insert_user.
  rewrite next_rowid_room by done. cbn [mbind flow_bind].
  by rewrite Hname, Hemail, Hrole.
Qed.

Lemma seed_organizations_cases now s s' :
  seed_organizations now s = Go s' →
  users s' = users s ∧ users_seq s' = users_seq s ∧
  organizations s' ≠ ∅ ∧
  (organizations s ≠ ∅ → s' = s).
Proof.
  unfold seed_organizations. intros Hseed.
  destruct (size (organizations s) =? 0)%nat eqn:Hsize.
  - apply bind_Go in Hseed as ([a ia] & Ha & Hseed).
    apply bind_Go in Hseed as ([b ib] & Hb & [= <-]).
    apply insert_organization_Go in Ha as (? & _ & _ & _ & ->).
    apply insert_organization_Go in Hb as (? & _ & _ & _ & ->).
    cbn. split_and!; [done | done | apply insert_non_empty |].
    apply Nat.eqb_eq, map_size_empty_iff in Hsize. by intros [].
  - injection Hseed as <-. split_and!; [done | done | | done].
    apply Nat.eqb_neq in Hsize. by apply map_size_non_empty_iff.
Qed.

Lemma seed_users_cases now s s' :
  seed_users now s = Go s' →
  organizations s' = organizations s ∧ organizations_seq s' = organizations_seq s ∧
  users s' ≠ ∅ ∧
  (users s ≠ ∅ → s' = s).
Proof.
  unfold seed_users. intros Hseed.
  destruct (size (users s) =? 0)%nat eqn:Hsize.
  - apply bind_Go in Hseed as ([a ia] & Ha & Hseed).
    apply bind_Go in Hseed as ([b ib] & Hb & Hseed).
    apply bind_Go in Hseed as ([c ic] & Hc & [= <-]).
    apply insert_user_Go in Ha as (? & ? & ? & _ & _ & _ & _ & ->).
    apply insert_user_Go in Hb as (? & ? & ? & _ & _ & _ & _ & ->).
    apply insert_user_Go in Hc as (? & ? & ? & _ & _ & _ & _ & ->).
    cbn. split_and!; [done | done | apply insert_non_empty |].
    apply Nat.eqb_eq, map_size_empty_iff in Hsize. by intros [].
  - injection Hseed as <-. split_and!; [done | done | | done].
    apply Nat.eqb_neq in Hsize. by apply map_size_non_empty_iff.
Qed.

(** X19.  [init_db] is idempotent: run again (at any later time) on the
    store a successful run left, it succeeds and changes nothing; and a
    table that already has a row is never touched. *)
Theorem init_db_idempotent now users_now now' users_now' s s' :
  init_db now users_now s = (s', None) →
  init_db now' users_now' s' = (s', None) ∧
  (organizations s ≠ ∅ → organizations s' = organizations s) ∧
  (users s ≠ ∅ → users s' = users s).
Proof.
  unfold init_db. intros Hinit.
  destruct (seed_organizations now s) as [s1|] eqn:Horgs; [|done].
  destruct (seed_users users_now s1) as [s2|] eqn:Husers; [|done].
  injection Hinit as <-.
  apply seed_organizations_cases in Horgs as (Hu & _ & Hne & Hsame).
  apply seed_users_cases in Husers as (Ho & _ & Hune & Husame).
  assert (seed_organizations now' s2 = Go s2) as ->.
  { unfold seed_organizations.
    destruct (size (organizations s2) =? 0)%nat eqn:Hsize; [|done].
    apply Nat.eqb_eq, map_size_empty_iff in Hsize. congruence. }
  assert (seed_users users_now' s2 = Go s2) as ->.
  { unfold seed_users.
    destruct (size (users s2) =? 0)%nat eqn:Hsize; [|done].
    by apply Nat.eqb_eq, map_size_empty_iff in Hsize. }
  split_and!; [done | |].
  - intros Hs. rewrite Ho. by rewrite (Hsame Hs).
  - intros Hs. rewrite Husame; [done|]. by rewrite Hu.
Qed.
End InitDb.

Lemma init_db_idempotent_witness :
  init_db (E := sample_externals) sample_now (λ _, sample_now) seeded_store
  = (seeded_store, None).
Proof.
  apply (init_db_idempotent (E := sample_externals) "2024-01-01 00:00:00"
           (λ _, "2024-01-01 00:00:00"%string) sample_now (λ _, sample_now)
           empty_store seeded_store).
  vm_compute. reflexivity.
Defined.

Section FreshTables.
Context {E : Externals}.

Lemma largest_rowid_empty {A} seq : largest_rowid seq (∅ : gmap Z A) = seq.
Proof. unfold largest_rowid. by rewrite map_to_list_empty. Qed.

Lemma rows_desc_empty {A} : rows_desc (∅ : gmap Z A) = [].
Proof. unfold rows_desc. by rewrite map_to_list_empty. Qed.

Lemma largest_rowid_singleton {A} seq (x : A) :
  largest_rowid (seq + 1) (<[seq + 1 := x]> (∅ : gmap Z A)) = seq + 1.
Proof.
  rewrite <- (largest_rowid_empty (A := A) seq) at 1 2.
  by rewrite largest_rowid_inserted, largest_rowid_empty.
Qed.

(** The two seeded organizations get the next two rowids. *)
Lemma seed_organizations_empty now s :
  organizations s = ∅ → organizations_seq s + 2 ≤ int64_max →
  ∃ mit gitam,
    o_slug mit = "mit"%string ∧ o_slug gitam = "gitam"%string ∧
    seed_organizations now s
    = Go {| organizations :=
              <[organizations_seq s + 2 := gitam]>
                (<[organizations_seq s + 1 := mit]> ∅);
            organizations_seq := organizations_seq s + 2;
            users := users s; users_seq := users_seq s |}.
Proof.
  destruct s as [orgs oseq us useq]. cbn. intros -> Hroom.
  unfold seed_organizations. cbn [organizations]. rewrite map_size_empty.
  cbn [Nat.eqb].
  erewrite insert_organization_room; [|reflexivity| |].
  2:{ cbn. rewrite largest_rowid_empty. lia. }
  2:{ cbn. intros i o Hi. by rewrite lookup_empty in Hi. }
  cbn [mbind flow_bind fst organizations organizations_seq]. rewrite largest_rowid_empty.
  erewrite insert_organization_room; [|reflexivity| |].
  2:{ cbn [organizations organizations_seq with_organization].
      rewrite largest_rowid_singleton. lia. }
  2:{ cbn [organizations with_organization]. intros i o Hi.
      apply lookup_insert_Some in Hi as [[_ <-]|[_ Hi]]; [done|].
      by rewrite lookup_empty in Hi. }
  cbn [mbind flow_bind fst organizations organizations_seq with_organization users
       users_seq].
  rewrite largest_rowid_singleton.
  eexists _, _. split_and!; [| |by replace (oseq + 1 + 1) with (oseq + 2) by lia]; done.
Qed.

Lemma org_id_by_slug_found s slug fallback id o :
  organizations s !! id = Some o → o_slug o = slug →
  (∀ i x, organizations s !! i = Some x → o_slug x = slug → i = id) →
  org_id_by_slug s slug fallback = id.
Proof.
  intros Hid Hslug Honly. unfold org_id_by_slug, select_org_by_slug.
  rewrite (fetchone_filter_unique _ _ (id, o)); [done| |done|].
  - by apply elem_of_rows_asc.
  - intros [i x] Hin Hx. apply elem_of_rows_asc in Hin. cbn in *.
    assert (i = id) as -> by eauto. congruence.
Qed.

(** X20.  On empty tables with room for two and three more rowids,
    [init_db] succeeds; [GET /api/users] then lists the three seeded users,
    newest first, each joined to the organization it was meant for: the
    ids found by slug are used, never the fallbacks 1 and 2. *)
Theorem init_db_seeds_empty_tables now users_now s :
  organizations s = ∅ → users s = ∅ →
  organizations_seq s + 2 ≤ int64_max → users_seq s + 3 ≤ int64_max →
  ∃ s' listed,
    init_db now users_now s = (s', None) ∧
    size (organizations s') = 2%nat ∧
    api_get_users s' = Reply (Rows listed) 200 ∧
    (λ r, (assoc "id" r, assoc "name" r, assoc "organization_slug" r)) <$> listed
    = [ (Some (SInt (users_seq s + 3)), Some (SText "Nishta Gupta"), Some (SText "mit"));
        (Some (SInt (users_seq s + 2)), Some (SText "Abhishek Hari"), Some (SText "gitam"));
        (Some (SInt (users_seq s + 1)), Some (SText "Dave Richards"), Some (SText "gitam")) ].
Proof.
  intros Horgs Husers Horoom Huroom.
  destruct (seed_organizations_empty now s Horgs Horoom)
    as (mit & gitam & Hmit & Hgitam & Hseed).
  unfold init_db. rewrite Hseed. clear Hseed.
  destruct s as [orgs oseq us useq]. cbn in Horgs, Husers, Horoom, Huroom. subst orgs us.
  cbn [organizations organizations_seq users users_seq].
  set (s1 := {| organizations := <[oseq + 2 := gitam]> (<[oseq + 1 := mit]> ∅);
                organizations_seq := oseq + 2; users := ∅; users_seq := useq |}).
  assert (org_id_by_slug s1 "gitam" 1 = oseq + 2) as Hg.
  { apply (org_id_by_slug_found _ _ _ _ gitam); [apply lookup_insert_eq|done|].
    cbn. intros i x Hi Hx.
    apply lookup_insert_Some in Hi as [[<- _]|[_ Hi]]; [done|].
    apply lookup_insert_Some in Hi as [[_ <-]|[_ Hi]]; [congruence|].
    by rewrite lookup_empty in Hi. }
  assert (org_id_by_slug s1 "mit" 2 = oseq + 1) as Hm.
  { apply (org_id_by_slug_found _ _ _ _ mit); [|done|].
    - cbn. rewrite lookup_insert_ne by lia. apply lookup_insert_eq.
    - cbn. intros i x Hi Hx.
      apply lookup_insert_Some in Hi as [[_ <-]|[_ Hi]]; [congruence|].
      apply lookup_insert_Some in Hi as [[<- _]|[_ Hi]]; [done|].
      by rewrite lookup_empty in Hi. }
  unfold seed_users. cbn [users s1]. rewrite map_size_empty. cbn [Nat.eqb].
  fold s1. rewrite Hg, Hm. clear Hg Hm.
  erewrite insert_user_room; [|reflexivity..|].
  2:{ cbn. rewrite largest_rowid_empty. lia. }
  cbn [mbind flow_bind fst users users_seq s1]. rewrite largest_rowid_empty.
  erewrite insert_user_room; [|reflexivity..|].
  2:{ cbn [users users_seq with_user s1]. rewrite largest_rowid_singleton. lia. }
  cbn [mbind flow_bind fst users users_seq with_user s1]. rewrite largest_rowid_singleton.
  set (dave := new_user_row (users_now 0%nat) _ _ _ _).
  set (abhishek := new_user_row (users_now 1%nat) _ _ _ _).
  assert (largest_rowid (useq + 1 + 1)
            (<[useq + 1 + 1 := abhishek]> (<[useq + 1 := dave]> ∅)) = useq + 1 + 1)
    as Htop.
  { rewrite <- (largest_rowid_singleton useq dave) at 1 2.
    by rewrite largest_rowid_inserted, largest_rowid_singleton. }
  erewrite insert_user_room; [|reflexivity..|].
  2:{ cbn [users users_seq with_user s1]. rewrite Htop. lia. }
  cbn [mbind flow_bind fst users users_seq with_user organizations organizations_seq s1].
  rewrite Htop.
  set (nishta := new_user_row (users_now 2%nat) _ _ _ _).
  eexists _, _. split; [reflexivity|]. cbn [organizations with_user s1].
  split.
  { rewrite !map_size_insert_None, map_size_empty; [done|apply lookup_empty|].
    rewrite lookup_insert_ne by lia. apply lookup_empty. }
  unfold api_get_users. cbn [users organizations with_user s1]. split; [reflexivity|].
  rewrite rows_desc_insert_top.
  2:{ intros i [x Hi].
      apply lookup_insert_Some in Hi as [[<- _]|[_ Hi]]; [lia|].
      apply lookup_insert_Some in Hi as [[<- _]|[_ Hi]]; [lia|].
      by rewrite lookup_empty in Hi. }
  rewrite rows_desc_insert_top.
  2:{ intros i [x Hi].
      apply lookup_insert_Some in Hi as [[<- _]|[_ Hi]]; [lia|].
      by rewrite lookup_empty in Hi. }
  rewrite rows_desc_insert_top.
  2:{ intros i [x Hi]. by rewrite lookup_empty in Hi. }
  rewrite rows_desc_empty.
  cbn [fmap list_fmap]. unfold join_org, nishta, abhishek, dave.
  cbn [fst snd organizations with_user s1 u_org_id new_user_row up_org_id seed_user
       mbind option_bind].
  rewrite lookup_insert_eq, lookup_insert_ne, lookup_insert_eq by lia.
  cbn. rewrite Hmit, Hgitam.
  replace (useq + 1 + 1 + 1) with (useq + 3) by lia.
  by replace (useq + 1 + 1) with (useq + 2) by lia.
Qed.
End FreshTables.

Lemma init_db_seeds_empty_tables_witness :
  ∃ listed,
    api_get_users seeded_store = Reply (Rows listed) 200 ∧
    (λ r, (assoc "id" r, assoc "name" r, assoc "organization_slug" r)) <$> listed
    = [ (Some (SInt 3), Some (SText "Nishta Gupta"), Some (SText "mit"));
        (Some (SInt 2), Some (SText "Abhishek Hari"), Some (SText "gitam"));
        (Some (SInt 1), Some (SText "Dave Richards"), Some (SText "gitam")) ].
Proof.
  destruct (init_db_seeds_empty_tables (E := sample_externals) "2024-01-01 00:00:00"
              (λ _, "2024-01-01 00:00:00"%string) empty_store)
    as (s' & listed & Hinit & _ & Hlist & Hrows);
    [reflexivity | reflexivity | vm_compute; discriminate | vm_compute; discriminate |].
  exists listed. unfold seeded_store. rewrite Hinit. split; [exact Hlist | exact Hrows].
Defined.

(** ** The query of a search *)

Lemma lstrip_by_head P s c r : lstrip_by P s = String c r → P c = false.
Proof.
  induction s as [|a s IH]; [done|]. cbn.
  destruct (P a) eqn:Ha; [done|]. by intros [= <- _].
Qed.

Lemma lstrip_by_blank s : is_blank s = true → lstrip_by py_isspace s = EmptyString.
Proof.
  induction s as [|a s IH]; [done|]. cbn.
  intros [Ha Hs]%andb_true_iff. rewrite Ha. auto.
Qed.

Lemma rstrip_by_idemp P s : rstrip_by P (rstrip_by P s) = rstrip_by P s.
Proof.
  induction s as [|a s IH]; [done|]. cbn.
  destruct (rstrip_by P s) as [|b r] eqn:Hs.
  - destruct (P a) eqn:Ha; [done|]. cbn. by rewrite Ha.
  - cbn [rstrip_by] in IH |- *. fold (rstrip_by P r) in IH |- *.
    cbn. cbn in IH. by rewrite IH.
Qed.

Lemma rstrip_by_head P c r :
  P c = false → ∃ r', rstrip_by P (String c r) = String c r'.
Proof.
  intros Hc. cbn. destruct (rstrip_by P r); rewrite ?Hc; eauto.
Qed.

Lemma strip_by_idemp P s : strip_by P (strip_by P s) = strip_by P s.
Proof.
  unfold strip_by. destruct (lstrip_by P s) as [|c r] eqn:Hs; [done|].
  destruct (rstrip_by_head P c r) as [r' Hr']; [by eapply lstrip_by_head|].
  rewrite Hr'. cbn [lstrip_by].
  rewrite (lstrip_by_head _ _ _ _ Hs). by rewrite <- Hr', rstrip_by_idemp.
Qed.

(** X21.  A search whose [q] is missing, empty or made of whitespace only
    answers what the list endpoint answers: every organization, and every
    user with the name and the slug of its organization. *)
Theorem search_blank_query_lists_all s q :
  is_blank (default EmptyString q) = true →
  api_search_orgs s q = api_get_organizations s ∧
  api_search_users s q = api_get_users s.
Proof.
  intros Hq. unfold api_search_orgs, api_search_users, query_arg, py_strip, strip_by.
  by rewrite (lstrip_by_blank _ Hq).
Qed.

Lemma search_blank_query_lists_all_witness :
  api_search_orgs seeded_store (Some "  ") = api_get_organizations seeded_store ∧
  api_search_users seeded_store None = api_get_users seeded_store.
Proof.
  split.
  - apply (search_blank_query_lists_all seeded_store (Some "  ")). reflexivity.
  - apply (search_blank_query_lists_all seeded_store None). reflexivity.
Defined.

(** X22.  A search depends on its query only through the query without
    its leading and trailing whitespace. *)
Theorem search_ignores_surrounding_whitespace s q :
  api_search_orgs s (Some (py_strip q)) = api_search_orgs s (Some q) ∧
  api_search_users s (Some (py_strip q)) = api_search_users s (Some q).
Proof.
  assert (query_arg (Some (py_strip q)) = query_arg (Some q)) as Hq
    by apply strip_by_idemp.
  unfold api_search_orgs, api_search_users. by rewrite Hq.
Qed.
